(** * Campus parking backend: booking and availability protocol

    A shallow embedding of the inline request handlers of the Express
    server (the file that defines [broadcast], [getZoneAvailability],
    the [/api/zones], [/api/bookings] and [/api/events] routes and the
    [expireOldBookings] job) together with the Mongoose schemas they use.

    Conventions of the embedding:
    - a [Date] is its millisecond time stamp, an integer of [Z];
    - [setHours] works in the server's local time zone, taken to be UTC;
    - a collection is the list of its documents in insertion order; the
      [_id] of a booking is its position in the [bookings] collection
      (bookings are never deleted by the server);
    - [broadcast] is modelled by the log of the messages handed to it;
    - a Mongoose session is the private view of the store that the reads
      and writes carrying [session] work on; committing publishes the
      view, aborting drops it. *)

From Stdlib Require Import ZArith QArith Qround List String Bool Lia Arith.
Import ListNotations.

Local Open Scope string_scope.
Local Open Scope list_scope.
Local Open Scope Z_scope.

(** ** Schemas *)

Definition ObjectId := nat.
Bind Scope nat_scope with ObjectId.
Definition Date := Z.

(** [bookingSchema.status] *)
Inductive Status :=
| pending | active | checked_in | checked_out | completed | cancelled | expired.

(** [parkingZoneSchema.type] *)
Inductive ZoneType := zt_student | zt_staff | zt_visitor | zt_general | zt_event.

(** The [role] claim of the token; signup admits the first four values,
    anything else falls to the default branch of [accessRules]. *)
Inductive Role := r_student | r_staff | r_visitor | r_admin | r_other.

(** [bookingSchema.violations.type] *)
Inductive ViolationType := overstay | unauthorized | no_checkout | other.

Record Violation := mkViolation {
  v_type : ViolationType;
  v_description : string;
  v_timestamp : Date
}.

Record Zone := mkZone {
  z_id : ObjectId;
  z_name : string;
  z_type : ZoneType;
  totalSlots : Z
}.

Record Booking := mkBooking {
  userId : ObjectId;
  zoneId : ObjectId;
  zoneName : string;
  qrCode : string;
  date : Date;
  startTime : option Date;
  endTime : option Date;
  duration : Z;
  vehicleNumber : string;
  status : Status;
  checkInTime : option Date;
  checkOutTime : option Date;
  violations : list Violation
}.

Record Event := mkEvent {
  e_name : string;
  e_date : Date;
  allocatedSlots : Z;
  e_zoneId : option ObjectId;
  organizer : ObjectId
}.

(** [notificationSchema.type], the values the handlers below use *)
Inductive NotificationType := n_success | n_warning | n_info.

Record Notification := mkNotification {
  n_userId : ObjectId;
  n_title : string;
  n_message : string;
  n_type : NotificationType
}.

(** The store: one list per collection. *)
Record DB := mkDB {
  zones : list Zone;
  bookings : list Booking;
  events : list Event;
  notifications : list Notification
}.

(** Payloads handed to [broadcast]. *)
Inductive Message :=
| zone_update (zone : ObjectId) (available : Z)
| booking_created (user : ObjectId) (zname : string)
| booking_cancelled (user : ObjectId) (zname : string)
| notification (user : ObjectId) (title : string) (ntype : NotificationType).

(** The server: the committed store and the broadcast log, oldest first. *)
Record World := mkWorld {
  db : DB;
  sent : list Message
}.

Definition broadcast (m : Message) (w : World) : World :=
  mkWorld (db w) (sent w ++ [m]).

(** [req.user], as placed by [authenticateToken]. *)
Record AuthUser := mkAuthUser {
  u_id : ObjectId;
  u_role : Role
}.

(** ** Decidable equalities *)

Definition status_eqb (a b : Status) : bool :=
  match a, b with
  | pending, pending | active, active | checked_in, checked_in
  | checked_out, checked_out | completed, completed
  | cancelled, cancelled | expired, expired => true
  | _, _ => false
  end.

Definition zoneType_eqb (a b : ZoneType) : bool :=
  match a, b with
  | zt_student, zt_student | zt_staff, zt_staff | zt_visitor, zt_visitor
  | zt_general, zt_general | zt_event, zt_event => true
  | _, _ => false
  end.

Definition isAdmin (r : Role) : bool :=
  match r with r_admin => true | _ => false end.

(** ** Dates *)

Definition msPerHour : Z := 3600000.
Definition msPerDay : Z := 86400000.

(** [d.setHours(0, 0, 0, 0)] *)
Definition startOfDay (d : Date) : Date := d - d mod msPerDay.

(** [d.setHours(23, 59, 59, 999)] *)
Definition endOfDay (d : Date) : Date := startOfDay d + (msPerDay - 1).

(** The query [{ date: { $gte: startOfDay, $lte: endOfDay } }] for the day
    of [day]. *)
Definition inDay (day t : Date) : bool :=
  (startOfDay day <=? t) && (t <=? endOfDay day).

(** ** Collection queries *)

Definition countDocuments {A} (q : A -> bool) (c : list A) : Z :=
  Z.of_nat (List.length (filter q c)).

(** [findOne]: the first document matching, with its position. *)
Fixpoint findOneFrom {A} (q : A -> bool) (i : nat) (c : list A)
  : option (nat * A) :=
  match c with
  | [] => None
  | x :: c' => if q x then Some (i, x) else findOneFrom q (S i) c'
  end.

Definition findOne {A} (q : A -> bool) (c : list A) : option (nat * A) :=
  findOneFrom q 0 c.

(** [find]: all matching documents, with their positions. *)
Fixpoint findFrom {A} (q : A -> bool) (i : nat) (c : list A)
  : list (nat * A) :=
  match c with
  | [] => []
  | x :: c' =>
      if q x then (i, x) :: findFrom q (S i) c' else findFrom q (S i) c'
  end.

(** [doc.save()] of a document loaded from position [i]. *)
Fixpoint replaceAt {A} (i : nat) (x : A) (c : list A) : list A :=
  match c, i with
  | [], _ => []
  | _ :: c', O => x :: c'
  | y :: c', S j => y :: replaceAt j x c'
  end.

Definition Zone_findById (zs : list Zone) (id : ObjectId) : option Zone :=
  find (fun z => Nat.eqb (z_id z) id) zs.

Definition Booking_findById (bs : list Booking) (id : ObjectId)
  : option Booking := nth_error bs id.

Definition saveBooking (id : ObjectId) (b : Booking) (d : DB) : DB :=
  mkDB (zones d) (replaceAt id b (bookings d)) (events d) (notifications d).

Definition Notification_create (n : Notification) (d : DB) : DB :=
  mkDB (zones d) (bookings d) (events d) (notifications d ++ [n]).

(** [$sum] of [allocatedSlots] over the matched events; [0] when the
    aggregation returns no group. *)
Definition sumAllocated (es : list Event) : Z :=
  fold_right (fun e acc => allocatedSlots e + acc) 0 es.

(** ** Availability *)

(** The count every availability computation starts from:
    [{ zoneId, status: 'active', date: { $gte: startOfDay, $lte: endOfDay } }]. *)
Definition activeOn (zid : ObjectId) (day : Date) (b : Booking) : bool :=
  Nat.eqb (zoneId b) zid && status_eqb (status b) active && inDay day (date b).

Definition countActiveBookings (d : DB) (zid : ObjectId) (day : Date) : Z :=
  countDocuments (activeOn zid day) (bookings d).

Record ZoneData := mkZoneData {
  zd_id : ObjectId;
  zd_total : Z;
  zd_available : Z
}.

(** [getZoneAvailability(zoneId)], read at time [now]. *)
Definition getZoneAvailability (now : Date) (d : DB) (zid : ObjectId)
  : option ZoneData :=
  match Zone_findById (zones d) zid with
  | None => None
  | Some zone =>
      let activeBookings := countActiveBookings d zid now in
      Some (mkZoneData (z_id zone) (totalSlots zone)
              (Z.max 0 (totalSlots zone - activeBookings)))
  end.

(** The [$match] stage of [GET /api/zones]:
    [{ zoneId: zone._id, date: { $gte: startOfDay } }]. *)
Definition futureEventOf (zid : ObjectId) (now : Date) (e : Event) : bool :=
  match e_zoneId e with
  | Some z => Nat.eqb z zid && (startOfDay now <=? e_date e)
  | None => false
  end.

Definition totalEventSlots (d : DB) (zid : ObjectId) (now : Date) : Z :=
  sumAllocated (filter (futureEventOf zid now) (events d)).

(** One entry of [GET /api/zones], read at time [now]. *)
Definition zoneWithAvailability (now : Date) (d : DB) (zone : Zone)
  : ZoneData :=
  let activeBookings := countActiveBookings d (z_id zone) now in
  mkZoneData (z_id zone) (totalSlots zone)
    (Z.max 0 (totalSlots zone - activeBookings
              - totalEventSlots d (z_id zone) now)).

Definition getZones (now : Date) (d : DB) : list ZoneData :=
  map (zoneWithAvailability now d) (zones d).

(** [GET /api/zones/:zoneId/availability?date=...]; [None] is the 404. *)
Definition getAvailability (d : DB) (zid : ObjectId) (bookingDate : Date)
  : option ZoneData :=
  match Zone_findById (zones d) zid with
  | None => None
  | Some zone =>
      let activeBookings := countActiveBookings d zid bookingDate in
      Some (mkZoneData (z_id zone) (totalSlots zone)
              (Z.max 0 (totalSlots zone - activeBookings)))
  end.

(** ** Responses *)

Inductive Response :=
| failure (code : Z) (message : string)
    (* [res.status(code).json({ success: false, message })] *)
| ok_message (message : string)
    (* [res.json({ success: true, message })] *)
| ok_booking (id : ObjectId) (qr : string)
    (* [res.json({ success: true, booking: { id, zone, date, qrCode, status } })] *)
| ok_event (e : Event)
    (* [res.json({ success: true, event })] *)
| no_answer.
    (* the handler throws out of its [catch]: nothing is sent *)

Definition succeeded (r : Response) : bool :=
  match r with
  | failure _ _ | no_answer => false
  | ok_message _ | ok_booking _ _ | ok_event _ => true
  end.

(** ** Sessions *)

Record Session := mkSession { view : DB }.

Definition startTransaction (w : World) : Session := mkSession (db w).

Definition abortTransaction (s : Session) (w : World) : World := w.

(** What the store can refuse while the booking transaction runs: any of
    the awaited writes may reject (write conflict, lost connection). *)
Inductive StoreFault :=
| no_fault | fault_booking_save | fault_notification_create | fault_commit.

Definition storeFault_eqb (a b : StoreFault) : bool :=
  match a, b with
  | no_fault, no_fault | fault_booking_save, fault_booking_save
  | fault_notification_create, fault_notification_create
  | fault_commit, fault_commit => true
  | _, _ => false
  end.

(** What a run of the booking handler takes from outside the store: the
    first group of [uuidv4()] in upper case, and the store's faults. *)
Record Env := mkEnv {
  uuid : string;
  fault : StoreFault
}.

Definition commitTransaction (env : Env) (s : Session) (w : World)
  : option World :=
  if storeFault_eqb (fault env) fault_commit then None
  else Some (mkWorld (view s) (sent w)).

(** ** POST /api/bookings *)

Record BookingRequest := mkBookingRequest {
  rq_userId : ObjectId;
  rq_zoneId : ObjectId;
  rq_zoneName : string;
  rq_date : Date;
  rq_duration : Z;
  rq_vehicleNumber : option string
}.

(** [bookingValidation], on the fields that are not typed away. *)
Definition bookingValidation (req : BookingRequest) : bool :=
  negb (String.eqb (rq_zoneName req) "")
  && (1 <=? rq_duration req) && (rq_duration req <=? 24)
  && match rq_vehicleNumber req with
     | Some v => Nat.leb (String.length v) 20
     | None => true
     end.

Definition accessRules (r : Role) : list ZoneType :=
  match r with
  | r_student => [zt_student; zt_general]
  | r_staff => [zt_staff; zt_student; zt_general]
  | r_visitor => [zt_visitor; zt_general]
  | r_admin => [zt_student; zt_staff; zt_visitor; zt_general; zt_event]
  | r_other => [zt_general]
  end.

Definition includes (l : list ZoneType) (t : ZoneType) : bool :=
  existsb (zoneType_eqb t) l.

(** [userRole.charAt(0).toUpperCase() + userRole.slice(1)] *)
Definition roleName (r : Role) : string :=
  match r with
  | r_student => "Student" | r_staff => "Staff" | r_visitor => "Visitor"
  | r_admin => "Admin" | r_other => "Other"
  end.

Definition zoneTypeName (t : ZoneType) : string :=
  match t with
  | zt_student => "student" | zt_staff => "staff" | zt_visitor => "visitor"
  | zt_general => "general" | zt_event => "event"
  end.

Definition generateQRCode (env : Env) : string := "QR-" ++ uuid env.

(** The duplicate query
    [{ userId, zoneId, status: 'active', date: { $gte, $lte } }]. *)
Definition ownActiveOn (uid zid : ObjectId) (day : Date) (b : Booking)
  : bool :=
  Nat.eqb (userId b) uid && activeOn zid day b.

(** [booking.save({ session })] of a new document: the schema requires
    non-empty [zoneName] and [vehicleNumber], the index on [qrCode] is
    unique. The new document goes to the end of the collection; its
    position is its id. [None] stands for the exception. *)
Definition Booking_insert (env : Env) (vehicle : option string)
    (mk : string -> Booking) (s : Session)
  : option (ObjectId * Booking * Session) :=
  if storeFault_eqb (fault env) fault_booking_save then None else
  match vehicle with
  | None => None
  | Some v =>
      if String.eqb v "" then None
      else
        let b := mk v in
        if String.eqb (zoneName b) "" then None
        else if existsb (fun b' => String.eqb (qrCode b') (qrCode b))
                  (bookings (view s))
        then None
        else
          let d := view s in
          Some (List.length (bookings d), b,
                mkSession (mkDB (zones d) (bookings d ++ [b]) (events d)
                             (notifications d)))
  end.

(** [Notification.create([...], { session })] *)
Definition Notification_insert (env : Env) (n : Notification) (s : Session)
  : option Session :=
  if storeFault_eqb (fault env) fault_notification_create then None
  else Some (mkSession (Notification_create n (view s))).

Definition serverError : Response :=
  failure 500 "Server error creating booking".

Definition noSlotsAvailable : Response :=
  failure 400 "No slots available for this date".

(** [new Booking({ ..., status: 'active' })]: the day starts at 8:00 AM and
    [endTime] is [duration] hours later. *)
Definition newBooking (env : Env) (req : BookingRequest) (vehicle : string)
  : Booking :=
  let bookingDate := rq_date req in
  let start := startOfDay bookingDate + 8 * msPerHour in
  let stop := start + rq_duration req * msPerHour in
  mkBooking (rq_userId req) (rq_zoneId req) (rq_zoneName req)
    (generateQRCode env) bookingDate (Some start) (Some stop)
    (rq_duration req) vehicle active None None [].

(** The confirmation (its text ends with the date string of the request,
    left out here). *)
Definition bookingConfirmed (req : BookingRequest) : Notification :=
  mkNotification (rq_userId req) "Booking Confirmed"
    ("Your parking slot at " ++ rq_zoneName req ++ " has been confirmed")
    n_success.

(** Where the handler stands when it reaches
    [session.commitTransaction()]: it has aborted the transaction and
    answered, or the booking and its confirmation are written in the
    session. *)
Inductive Transaction :=
| aborted (r : Response)
| written (s : Session) (id : ObjectId) (booking : Booking) (zone : Zone)
    (activeBookings : Z).

(** The handler from [req.body] to the commit. Every query of this part
    carries [.session(session)] and every write [{ session }]: it reads
    and writes the view of its session and nothing else. A rejected write
    lands in the [catch], which aborts and answers 500. *)
Definition bookingTransaction (env : Env) (user : AuthUser)
    (req : BookingRequest) (session : Session) : Transaction :=
  (* Verify user owns this booking *)
  if negb (Nat.eqb (u_id user) (rq_userId req)) then
    aborted (failure 403 "Unauthorized")
  else
  match Zone_findById (zones (view session)) (rq_zoneId req) with
  | None => aborted (failure 404 "Zone not found")
  | Some zone =>
  (* Role-based zone access control *)
  let allowedZones := accessRules (u_role user) in
  if negb (includes allowedZones (z_type zone)) then
    aborted
      (failure 403 (roleName (u_role user) ++ "s are not allowed to book "
                    ++ zoneTypeName (z_type zone) ++ " parking zones"))
  else
  let bookingDate := rq_date req in
  (* Check for existing booking by this user for same zone and date *)
  match findOne (ownActiveOn (rq_userId req) (rq_zoneId req) bookingDate)
          (bookings (view session)) with
  | Some _ =>
      aborted
        (failure 400
           "You already have an active booking for this zone on this date")
  | None =>
  let activeBookings :=
    countActiveBookings (view session) (rq_zoneId req) bookingDate in
  if totalSlots zone <=? activeBookings then aborted noSlotsAvailable
  else
  match Booking_insert env (rq_vehicleNumber req) (newBooking env req)
          session with
  | None => aborted serverError
  | Some (id, booking, s1) =>
  match Notification_insert env (bookingConfirmed req) s1 with
  | None => aborted serverError
  | Some s2 => written s2 id booking zone activeBookings
  end end end end.

(** The whole handler: the transaction is started on the store as it is,
    run, and committed; the two broadcasts follow the commit. When the
    commit is rejected the [catch] calls [abortTransaction] on a
    transaction that is past [commitTransaction]; that call throws and no
    answer is sent. *)
Definition createBooking (env : Env) (user : AuthUser) (req : BookingRequest)
    (w : World) : World * Response :=
  let session := startTransaction w in
  match bookingTransaction env user req session with
  | aborted r => (abortTransaction session w, r)
  | written s2 id booking zone activeBookings =>
  match commitTransaction env s2 w with
  | None => (w, no_answer)
  | Some w1 =>
  let newAvailable := Z.max 0 (totalSlots zone - (activeBookings + 1)) in
  let w2 := broadcast (zone_update (rq_zoneId req) newAvailable) w1 in
  let w3 :=
    broadcast (booking_created (rq_userId req) (rq_zoneName req)) w2 in
  (w3, ok_booking id (qrCode booking))
  end end.

(** What the validation chain leaves in [req.body]: its [trim()]
    sanitizers rewrite [zoneName] and, when it is present,
    [vehicleNumber]. [trim] is the sanitizer of express-validator. *)
Definition sanitized (trim : string -> string) (req : BookingRequest)
  : BookingRequest :=
  mkBookingRequest (rq_userId req) (rq_zoneId req) (trim (rq_zoneName req))
    (rq_date req) (rq_duration req) (option_map trim (rq_vehicleNumber req)).

(** The route: [bookingValidation] and [handleValidationErrors] run before
    the handler, which sees the sanitized body. *)
Definition postBookings (trim : string -> string) (env : Env)
    (user : AuthUser) (req : BookingRequest) (w : World) : World * Response :=
  let body := sanitized trim req in
  if bookingValidation body then createBooking env user body w
  else (w, failure 400 "Validation failed").

(** ** Field updates of a loaded booking document *)

Definition withStatus (s : Status) (b : Booking) : Booking :=
  mkBooking (userId b) (zoneId b) (zoneName b) (qrCode b) (date b)
    (startTime b) (endTime b) (duration b) (vehicleNumber b) s
    (checkInTime b) (checkOutTime b) (violations b).

Definition withCheckInTime (t : Date) (b : Booking) : Booking :=
  mkBooking (userId b) (zoneId b) (zoneName b) (qrCode b) (date b)
    (startTime b) (endTime b) (duration b) (vehicleNumber b) (status b)
    (Some t) (checkOutTime b) (violations b).

Definition withCheckOutTime (t : Date) (b : Booking) : Booking :=
  mkBooking (userId b) (zoneId b) (zoneName b) (qrCode b) (date b)
    (startTime b) (endTime b) (duration b) (vehicleNumber b) (status b)
    (checkInTime b) (Some t) (violations b).

(** [booking.violations.push(v)] *)
Definition pushViolation (v : Violation) (b : Booking) : Booking :=
  mkBooking (userId b) (zoneId b) (zoneName b) (qrCode b) (date b)
    (startTime b) (endTime b) (duration b) (vehicleNumber b) (status b)
    (checkInTime b) (checkOutTime b) (violations b ++ [v]).

Definition isSome {A} (o : option A) : bool :=
  match o with Some _ => true | None => false end.

(** ** DELETE /api/bookings/:bookingId *)

Definition alreadyCancelled : Response :=
  failure 400 "Booking already cancelled".

Definition cancelBooking (now : Date) (user : AuthUser) (bookingId : ObjectId)
    (w : World) : World * Response :=
  match Booking_findById (bookings (db w)) bookingId with
  | None => (w, failure 404 "Booking not found")
  | Some booking =>
  if negb (Nat.eqb (userId booking) (u_id user))
     && negb (isAdmin (u_role user)) then
    (w, failure 403 "Unauthorized")
  else if status_eqb (status booking) cancelled then
    (w, alreadyCancelled)
  else
  let zid := zoneId booking in
  let zname := zoneName booking in
  let booking' := withStatus cancelled booking in
  let d1 := saveBooking bookingId booking' (db w) in
  let d2 :=
    Notification_create
      (mkNotification (userId booking') "Booking Cancelled"
         ("Your parking slot at " ++ zname ++ " has been cancelled")
         n_warning) d1 in
  let w1 := mkWorld d2 (sent w) in
  match getZoneAvailability now d2 zid with
  | None =>
      (* [zoneData.available] throws on [null]; the writes stay *)
      (w1, failure 500 "Server error cancelling booking")
  | Some zoneData =>
      let w2 := broadcast (zone_update zid (zd_available zoneData)) w1 in
      let w3 := broadcast (booking_cancelled (userId booking') zname) w2 in
      (w3, ok_message "Booking cancelled successfully")
  end
  end.

(** ** POST /api/bookings/checkin *)

(** The query [{ qrCode, status: 'active' }]. *)
Definition activeWithQR (qr : string) (b : Booking) : bool :=
  String.eqb (qrCode b) qr && status_eqb (status b) active.

Definition qrRequired : Response := failure 400 "Valid QR code required".

Definition notActive : Response :=
  failure 404 "Invalid QR code or booking not active".

Definition checkIn (now : Date) (qr : string) (w : World)
  : World * Response :=
  if String.eqb qr "" then (w, qrRequired) else
  match findOne (activeWithQR qr) (bookings (db w)) with
  | None => (w, notActive)
  | Some (id, booking) =>
  if isSome (checkInTime booking) then
    (w, failure 400 "Already checked in")
  else
  let booking' := withCheckInTime now booking in
  let d1 := saveBooking id booking' (db w) in
  let d2 :=
    Notification_create
      (mkNotification (userId booking') "Check-in Successful"
         ("You have checked in at " ++ zoneName booking') n_success) d1 in
  let w1 := mkWorld d2 (sent w) in
  let w2 :=
    broadcast (notification (userId booking') "Check-in Successful" n_success)
      w1 in
  (w2, ok_message "Check-in successful")
  end.

(** ** POST /api/bookings/checkout *)

Definition checkInRequired : Response := failure 400 "Please check-in first".

Definition checkOut (now : Date) (qr : string) (w : World)
  : World * Response :=
  if String.eqb qr "" then (w, qrRequired) else
  match findOne (activeWithQR qr) (bookings (db w)) with
  | None => (w, notActive)
  | Some (id, booking) =>
  if negb (isSome (checkInTime booking)) then (w, checkInRequired)
  else if isSome (checkOutTime booking) then
    (w, failure 400 "Already checked out")
  else
  let zid := zoneId booking in
  let zname := zoneName booking in
  let booking' := withStatus completed (withCheckOutTime now booking) in
  let d1 := saveBooking id booking' (db w) in
  let d2 :=
    Notification_create
      (mkNotification (userId booking') "Check-out Successful"
         ("You have checked out from " ++ zname) n_success) d1 in
  let w1 := mkWorld d2 (sent w) in
  match getZoneAvailability now d2 zid with
  | None => (w1, failure 500 "Server error during check-out")
  | Some zoneData =>
      let w2 := broadcast (zone_update zid (zd_available zoneData)) w1 in
      let w3 :=
        broadcast
          (notification (userId booking') "Check-out Successful" n_success)
          w2 in
      (w3, ok_message "Check-out successful")
  end
  end.

(** ** The cleanup job *)

(** The query
    [{ status: { $in: ['active', 'checked-in'] }, endTime: { $lt: now } }]. *)
Definition overdue (now : Date) (b : Booking) : bool :=
  (status_eqb (status b) active || status_eqb (status b) checked_in)
  && match endTime b with
     | Some t => t <? now
     | None => false
     end.

(** The body of the loop up to [booking.save()]. *)
Definition expireBooking (now : Date) (booking : Booking) : Booking :=
  let b1 := withStatus expired booking in
  if isSome (checkInTime b1) && negb (isSome (checkOutTime b1)) then
    pushViolation
      (mkViolation no_checkout
         "User failed to check out before booking expired" now) b1
  else if negb (isSome (checkInTime b1)) then
    pushViolation
      (mkViolation unauthorized "User never checked in - no-show" now) b1
  else b1.

(** The notification sent to the user of an expired booking. *)
Definition bookingExpired (booking : Booking) : Notification :=
  mkNotification (userId booking) "Booking Expired"
    ("Your parking booking at " ++ zoneName booking ++ " has expired")
    n_warning.

(** One turn of [for (const booking of expiredBookings)]. *)
Definition expireOne (now : Date) (w : World) (found : nat * Booking)
  : World :=
  let (id, booking) := found in
  let booking' := expireBooking now booking in
  let d1 := saveBooking id booking' (db w) in
  let d2 := Notification_create (bookingExpired booking') d1 in
  let w1 := mkWorld d2 (sent w) in
  match getZoneAvailability now d2 (zoneId booking') with
  | Some zoneData =>
      broadcast (zone_update (zoneId booking') (zd_available zoneData)) w1
  | None => w1
  end.

Definition expireOldBookings (now : Date) (w : World) : World :=
  let expiredBookings := findFrom (overdue now) 0 (bookings (db w)) in
  fold_left (expireOne now) expiredBookings w.

(** ** POST /api/events *)

Record EventRequest := mkEventRequest {
  er_name : string;
  er_date : option Date;
  er_allocatedSlots : option Z;   (* [None]: the field is [undefined] *)
  er_zone : string;
  er_zoneId : option ObjectId     (* [None]: absent or not an ObjectId *)
}.

(** The count [{ zoneId, status: 'active', date: { $gte: new Date() } }]. *)
Definition activeFrom (zid : ObjectId) (now : Date) (b : Booking) : bool :=
  Nat.eqb (zoneId b) zid && status_eqb (status b) active && (now <=? date b).

(** The [$match] of the broadcast after the commit:
    [{ zoneId, date: { $gte: new Date() } }]. *)
Definition eventFrom (zid : ObjectId) (now : Date) (e : Event) : bool :=
  match e_zoneId e with
  | Some z => Nat.eqb z zid && (now <=? e_date e)
  | None => false
  end.

Definition Event_insert (e : Event) (s : Session) : Session :=
  let d := view s in
  mkSession (mkDB (zones d) (bookings d) (events d ++ [e]) (notifications d)).

Definition notEnoughSlots : Response :=
  failure 400 "Not enough available slots".

Definition createEvent (now : Date) (user : AuthUser) (req : EventRequest)
    (w : World) : World * Response :=
  let session := startTransaction w in
  if negb (isAdmin (u_role user)) then
    (abortTransaction session w, failure 403 "Admin access required")
  else
  match er_date req, er_allocatedSlots req with
  | None, _ | _, None =>
      (abortTransaction session w,
       failure 400 "name, date, and allocatedSlots are required")
  | Some edate, Some allocatedSlotsNum =>
  if String.eqb (er_name req) "" then
    (abortTransaction session w,
     failure 400 "name, date, and allocatedSlots are required")
  else if allocatedSlotsNum <=? 0 then
    (abortTransaction session w,
     failure 400 "allocatedSlots must be a positive number")
  else
  let event :=
    mkEvent (er_name req) edate allocatedSlotsNum (er_zoneId req)
      (u_id user) in
  let finish (zoneDoc : option Zone) :=
    let s1 := Event_insert event session in
    let w1 := mkWorld (view s1) (sent w) in
    match zoneDoc, er_zoneId req with
    | Some zone, Some zid =>
        let activeBookings :=
          countDocuments (activeFrom zid now) (bookings (db w1)) in
        let totalEventSlots :=
          sumAllocated (filter (eventFrom zid now) (events (db w1))) in
        let newAvailable :=
          Z.max 0 (totalSlots zone - activeBookings - totalEventSlots) in
        (broadcast (zone_update zid newAvailable) w1, ok_event event)
    | _, _ => (w1, ok_event event)
    end in
  match er_zoneId req with
  | None => finish None
  | Some zid =>
      match Zone_findById (zones (view session)) zid with
      | None =>
          (abortTransaction session w,
           failure 400 "Selected zone does not exist")
      | Some zoneDoc =>
          (* Check if zone has enough available slots *)
          let activeBookings :=
            countDocuments (activeFrom zid now) (bookings (view session)) in
          let currentAvailable :=
            Z.max 0 (totalSlots zoneDoc - activeBookings) in
          if currentAvailable <? allocatedSlotsNum then
            (abortTransaction session w, notEnoughSlots)
          else finish (Some zoneDoc)
      end
  end
  end.

(** ** PATCH /api/zones/:zoneId, for a body that sets [totalSlots] *)

Definition withTotalSlots (n : Z) (z : Zone) : Zone :=
  mkZone (z_id z) (z_name z) (z_type z) n.

(** [Zone.findByIdAndUpdate(id, { totalSlots }, { runValidators: true })] on
    a zone that exists; the schema asks for [min: 1]. *)
Fixpoint Zone_update (id : ObjectId) (n : Z) (zs : list Zone) : list Zone :=
  match zs with
  | [] => []
  | z :: zs' =>
      if Nat.eqb (z_id z) id then withTotalSlots n z :: zs'
      else z :: Zone_update id n zs'
  end.

Definition updateZone (now : Date) (user : AuthUser) (zid : ObjectId)
    (newTotal : Z) (w : World) : World * Response :=
  if negb (isAdmin (u_role user)) then
    (w, failure 403 "Admin access required")
  else
  match Zone_findById (zones (db w)) zid with
  | None => (w, failure 404 "Zone not found")
  | Some _ =>
      if newTotal <? 1 then (w, failure 500 "Server error updating zone")
      else
        let d := db w in
        let d1 :=
          mkDB (Zone_update zid newTotal (zones d)) (bookings d) (events d)
            (notifications d) in
        let w1 := mkWorld d1 (sent w) in
        match getZoneAvailability now d1 zid with
        | None => (w1, failure 500 "Server error updating zone")
        | Some zoneData =>
            (broadcast (zone_update zid (zd_available zoneData)) w1,
             ok_message "")
        end
  end.

(** ** Mutations of the store *)

Inductive Mutation :=
| Reserve (env : Env) (user : AuthUser) (req : BookingRequest)
| CreateEvent (now : Date) (user : AuthUser) (req : EventRequest)
| Cancel (now : Date) (user : AuthUser) (bookingId : ObjectId)
| CheckIn (now : Date) (qr : string)
| CheckOut (now : Date) (qr : string)
| ExpirySweep (now : Date).

Definition run (m : Mutation) (w : World) : World :=
  match m with
  | Reserve env user req => fst (createBooking env user req w)
  | CreateEvent now user req => fst (createEvent now user req w)
  | Cancel now user id => fst (cancelBooking now user id w)
  | CheckIn now qr => fst (checkIn now qr w)
  | CheckOut now qr => fst (checkOut now qr w)
  | ExpirySweep now => expireOldBookings now w
  end.

(** A history of the server. *)
Definition runAll (ms : list Mutation) (w : World) : World :=
  fold_left (fun w m => run m w) ms w.

(** ** The capacity invariants *)

(** Section 8 of the specification: on every day, the active bookings
    of a zone do not exceed its [totalSlots]. *)
Definition bookingsWithinCapacity (d : DB) : Prop :=
  forall zid day zone,
    Zone_findById (zones d) zid = Some zone ->
    countActiveBookings d zid day <= totalSlots zone.

(** Section 3 of the specification: active bookings of the day and event
    allocations together do not exceed [totalSlots]. The allocations are
    summed as [GET /api/zones] sums them. *)
Definition withinCapacityAt (d : DB) (zone : Zone) (day : Date) : bool :=
  countActiveBookings d (z_id zone) day + totalEventSlots d (z_id zone) day
  <=? totalSlots zone.

(** ** Vocabulary of the properties *)

(** What a document adds to a count. *)
Definition weight {A} (q : A -> bool) (x : A) : Z := if q x then 1 else 0.

(** The store after a committed reservation. *)
Definition reservedStore (d : DB) (b : Booking) (n : Notification) : DB :=
  mkDB (zones d) (bookings d ++ [b]) (events d) (notifications d ++ [n]).

(** [d'] keeps the zones of [d] and has, for every zone and day, at most
    as many active bookings. *)
Definition frees (d d' : DB) : Prop :=
  zones d' = zones d
  /\ forall zid day,
       countActiveBookings d' zid day <= countActiveBookings d zid day.

(** *** The words of the claims

    The claims speak of calendar days, of the bookings that hold a slot
    and of the allocations of events. They are written here without the
    queries of the handlers: days are numbered from the epoch. *)

(** The number of the calendar day a time stamp falls on. *)
Definition dayNumber (t : Date) : Z := t / msPerDay.

(** A booking holds a slot of zone [zid] on the day of [day]: it is of
    that zone, its status is [active] and its date falls on that calendar
    day. *)
Definition holdsSlot (zid : ObjectId) (day : Date) (b : Booking) : Prop :=
  zoneId b = zid /\ status b = active /\ dayNumber (date b) = dayNumber day.

(** At least [n] of the stored bookings hold a slot of the zone on the
    day: there are that many different ids of such bookings. *)
Definition slotsHeld (n : Z) (bs : list Booking) (zid : ObjectId)
    (day : Date) : Prop :=
  exists ids : list ObjectId,
    NoDup ids /\ n <= Z.of_nat (List.length ids)
    /\ forall id, In id ids ->
         exists b, Booking_findById bs id = Some b /\ holdsSlot zid day b.

(** The count of the bookings with status [active] of the zone whose date
    falls within the queried day. *)
Definition claimedBooked (d : DB) (zid : ObjectId) (queried : Date) : Z :=
  countDocuments
    (fun b =>
       Nat.eqb (zoneId b) zid && status_eqb (status b) active
       && (dayNumber (date b) =? dayNumber queried))
    (bookings d).

(** The sum of [allocatedSlots] over the events of the zone dated today
    or later, whatever their day. *)
Definition claimedAllocated (d : DB) (zid : ObjectId) (today : Date) : Z :=
  sumAllocated
    (filter
       (fun e =>
          match e_zoneId e with
          | Some z => Nat.eqb z zid
          | None => false
          end
          && (dayNumber today <=? dayNumber (e_date e)))
       (events d)).

(** The availability of section 4.2 of the specification: [totalSlots]
    less the bookings of the queried day, less the allocations of the
    events dated today or later, not below 0. *)
Definition claimedAvailable (d : DB) (zone : Zone) (queried today : Date)
  : Z :=
  Z.max 0
    (totalSlots zone - claimedBooked d (z_id zone) queried
     - claimedAllocated d (z_id zone) today).

(** What section 3 of the specification bounds by [totalSlots]. *)
Definition claimedLoad (d : DB) (zid : ObjectId) (day : Date) : Z :=
  claimedBooked d zid day + claimedAllocated d zid day.

(** The store without its events, and a server with other events. *)
Definition withoutEvents (d : DB) : DB :=
  mkDB (zones d) (bookings d) [] (notifications d).

Definition withEvents (es : list Event) (w : World) : World :=
  mkWorld (mkDB (zones (db w)) (bookings (db w)) es (notifications (db w)))
    (sent w).

(** The mutations that add neither a booking nor an event. *)
Definition releases (m : Mutation) : bool :=
  match m with
  | Cancel _ _ _ | CheckIn _ _ | CheckOut _ _ | ExpirySweep _ => true
  | Reserve _ _ _ | CreateEvent _ _ _ => false
  end.

(** The availability without the event term. *)
Definition bookingsAvailable (d : DB) (zone : Zone) (queried : Date) : Z :=
  Z.max 0 (totalSlots zone - countActiveBookings d (z_id zone) queried).

(** What the cleanup job makes of a booking. *)
Definition swept (now : Date) (b : Booking) : Booking :=
  if overdue now b then expireBooking now b else b.

(** ** A small campus *)

Definition day0 : Date := 1760486400000.   (* 2025-10-15T00:00:00Z *)
Definition noon0 : Date := day0 + 12 * msPerHour.

Definition zoneA : Zone := mkZone 1 "A" zt_general 1.
Definition campus : World := mkWorld (mkDB [zoneA] [] [] []) [].

Definition admin : AuthUser := mkAuthUser 1 r_admin.
Definition user1 : AuthUser := mkAuthUser 11 r_student.
Definition user2 : AuthUser := mkAuthUser 12 r_student.

Definition requestBy (u : AuthUser) : BookingRequest :=
  mkBookingRequest (u_id u) 1 "A" day0 2 (Some "KA01AB1234").

Definition env1 : Env := mkEnv "1A2B3C4D" no_fault.
Definition env2 : Env := mkEnv "5E6F7A8B" no_fault.

Definition openDay : EventRequest :=
  mkEventRequest "Open day" (Some noon0) (Some 1) "A" (Some 1%nat).

(** A second campus: zone "B" with two slots. *)
Definition zoneB : Zone := mkZone 2 "B" zt_general 2.
Definition campusB : World := mkWorld (mkDB [zoneB] [] [] []) [].

Definition requestB (u : AuthUser) : BookingRequest :=
  mkBookingRequest (u_id u) 2 "B" day0 2 (Some "KA01AB1234").

Definition later0 : Date := day0 + 2 * msPerDay.

(** An event in zone "B", a week after [day0]. *)
Definition nextWeek : EventRequest :=
  mkEventRequest "Sports day" (Some (day0 + 7 * msPerDay)) (Some 1) "B"
    (Some 2%nat).

(** * More of the server *)

(** ** PATCH /api/bookings/:bookingId/extend *)

Definition withDuration (n : Z) (b : Booking) : Booking :=
  mkBooking (userId b) (zoneId b) (zoneName b) (qrCode b) (date b)
    (startTime b) (endTime b) n (vehicleNumber b) (status b)
    (checkInTime b) (checkOutTime b) (violations b).

(** The answer: a refusal, or [res.json({ success: true, booking })]. *)
Inductive ExtendResult :=
| refused (r : Response)
| extended (booking : Booking).

(** [req.body.additionalHours], a value of the JSON body, as the handler
    reads it: by [!v], by its comparisons with 1 and 12 (they compare
    [Number(v)], and are false when that is [NaN]) and by [parseInt(v)]. *)
Inductive JsValue :=
| js_missing
    (* [undefined], [null], [false] or the empty string *)
| js_number (x : Q)
    (* a number *)
| js_other (number : option Q) (integer : option Z).
    (* a non-empty string, [true], an array or an object, given by
       [Number(v)] and by [parseInt(v)]; [None] is [NaN] *)

Definition below (x : Q) (n : Z) : bool := negb (Qle_bool (inject_Z n) x).
Definition above (x : Q) (n : Z) : bool := negb (Qle_bool x (inject_Z n)).

(** [!additionalHours || additionalHours < 1 || additionalHours > 12] *)
Definition outOfRange (v : JsValue) : bool :=
  match v with
  | js_missing => true
  | js_number x => Qeq_bool x 0 || below x 1 || above x 12
  | js_other (Some x) _ => below x 1 || above x 12
  | js_other None _ => false
  end.

(** [parseInt(additionalHours)] of a value that has passed the guard: of
    a number from 1 to 12 it is the integer part. *)
Definition parseInt (v : JsValue) : option Z :=
  match v with
  | js_missing => None
  | js_number x => Some (Qfloor x)
  | js_other _ integer => integer
  end.

(** The guard reads the value as it came; what is added to [duration] is
    [parseInt] of it. When that is [NaN] so is [duration], a value that
    [booking.save()] refuses to cast: the [catch] answers 500. The texts
    that quote the value are given without it. *)
Definition extendBooking (user : AuthUser) (bookingId : ObjectId)
    (additionalHours : JsValue) (w : World) : World * ExtendResult :=
  if outOfRange additionalHours then
    (w, refused (failure 400 "Additional hours must be between 1 and 12"))
  else
  match Booking_findById (bookings (db w)) bookingId with
  | None => (w, refused (failure 404 "Booking not found"))
  | Some booking =>
  if negb (Nat.eqb (userId booking) (u_id user)) then
    (w, refused (failure 403 "Unauthorized"))
  else if negb (status_eqb (status booking) active) then
    (w, refused (failure 400 "Can only extend active bookings"))
  else
  match parseInt additionalHours with
  | None => (w, refused (failure 500 "Server error extending booking"))
  | Some hours =>
  let booking' := withDuration (duration booking + hours) booking in
  let d1 := saveBooking bookingId booking' (db w) in
  let d2 :=
    Notification_create
      (mkNotification (userId booking') "Booking Extended"
         ("Your booking at " ++ zoneName booking' ++ " has been extended")
         n_success) d1 in
  let w1 := mkWorld d2 (sent w) in
  (broadcast (notification (userId booking') "Booking Extended" n_success) w1,
   extended booking')
  end end.

(** ** DELETE /api/zones/:zoneId *)

(** The count [{ zoneId, status: 'active' }], over all dates. *)
Definition activeIn (zid : ObjectId) (b : Booking) : bool :=
  Nat.eqb (zoneId b) zid && status_eqb (status b) active.

(** [Zone.findByIdAndDelete(id)]: the document with that id goes, if any. *)
Fixpoint Zone_delete (id : ObjectId) (zs : list Zone) : list Zone :=
  match zs with
  | [] => []
  | z :: zs' =>
      if Nat.eqb (z_id z) id then zs' else z :: Zone_delete id zs'
  end.

(** The [zone_deleted] payload has no place in the log of [World]; the
    handler's one broadcast is returned beside the world. *)
Definition deleteZone (user : AuthUser) (zid : ObjectId) (w : World)
  : World * option ObjectId * Response :=
  if negb (isAdmin (u_role user)) then
    (w, None, failure 403 "Admin access required")
  else
  let activeBookings := countDocuments (activeIn zid) (bookings (db w)) in
  if 0 <? activeBookings then
    (w, None, failure 400 "Cannot delete zone with active bookings")
  else
  let d := db w in
  let d1 :=
    mkDB (Zone_delete zid (zones d)) (bookings d) (events d)
      (notifications d) in
  (mkWorld d1 (sent w), Some zid, ok_message "Zone deleted successfully").

(** ** The writes of the booking and zone handlers *)

(** The mutations above, the extension of a booking and the update and
    deletion of a zone. The other routes write no booking and are not
    among them: the creation of a zone, PATCH and DELETE
    /api/events/:eventId (which rewrite and remove stored events), the
    notification and the user routes. *)
Inductive Action :=
| Core (m : Mutation)
| Extend (user : AuthUser) (bookingId : ObjectId) (additionalHours : JsValue)
| UpdateZone (now : Date) (user : AuthUser) (zid : ObjectId) (newTotal : Z)
| DeleteZone (user : AuthUser) (zid : ObjectId).

Definition act (a : Action) (w : World) : World :=
  match a with
  | Core m => run m w
  | Extend user id h => fst (extendBooking user id h w)
  | UpdateZone now user zid n => fst (updateZone now user zid n w)
  | DeleteZone user zid => fst (fst (deleteZone user zid w))
  end.

(** ** getTimeAgo *)

(** The answer ["<n> <unit> ago"], or ["Just now"]. *)
Inductive TimeAgo :=
| years_ago (n : Z) | months_ago (n : Z) | days_ago (n : Z)
| hours_ago (n : Z) | minutes_ago (n : Z) | just_now.

(** [getTimeAgo(date)] called at [now]. [seconds] is an integer; for
    the time stamps a [Date] can hold, the quotient [seconds / unit] of
    the source is above 1 exactly when [seconds] is above [unit], and its
    [Math.floor] is the integer quotient. *)
Definition getTimeAgo (now date : Date) : TimeAgo :=
  let seconds := (now - date) / 1000 in
  if 31536000 <? seconds then years_ago (seconds / 31536000)
  else if 2592000 <? seconds then months_ago (seconds / 2592000)
  else if 86400 <? seconds then days_ago (seconds / 86400)
  else if 3600 <? seconds then hours_ago (seconds / 3600)
  else if 60 <? seconds then minutes_ago (seconds / 60)
  else just_now.

(** ** The registry of WebSocket clients *)

Inductive ReadyState := CONNECTING | OPEN | CLOSING | CLOSED.

Definition isOpen (s : ReadyState) : bool :=
  match s with OPEN => true | _ => false end.

(** A member of [clients]: its identity, its [readyState], whether its
    [send] throws, and what it was sent so far. *)
Record Client (P : Type) := mkClient {
  c_id : nat;
  readyState : ReadyState;
  sendThrows : bool;
  received : list P
}.

Arguments mkClient {P}.
Arguments c_id {P}.
Arguments readyState {P}.
Arguments sendThrows {P}.
Arguments received {P}.

(** [client.send(message)] that does not throw. *)
Definition deliver {P} (message : P) (c : Client P) : Client P :=
  mkClient (c_id c) (readyState c) (sendThrows c) (received c ++ [message]).

(** The [clients.forEach] of [broadcast]: the clients after the sends,
    [sentCount] and [deadClients]. *)
Fixpoint sendToEach {P} (message : P) (cs : list (Client P))
  : list (Client P) * Z * list nat :=
  match cs with
  | [] => ([], 0, [])
  | c :: cs' =>
      let '(cs1, sentCount, deadClients) := sendToEach message cs' in
      if isOpen (readyState c) then
        if sendThrows c then (c :: cs1, sentCount, c_id c :: deadClients)
        else (deliver message c :: cs1, sentCount + 1, deadClients)
      else (c :: cs1, sentCount, c_id c :: deadClients)
  end.

(** [clients.delete(client)] *)
Definition deleteClient {P} (id : nat) (cs : list (Client P))
  : list (Client P) :=
  filter (fun c => negb (Nat.eqb (c_id c) id)) cs.

(** [broadcast(data)] on the registry: the registry after it, and
    [sentCount]. *)
Definition broadcastToClients {P} (message : P) (cs : list (Client P))
  : list (Client P) * Z :=
  let '(cs1, sentCount, deadClients) := sendToEach message cs in
  (fold_left (fun acc id => deleteClient id acc) deadClients cs1, sentCount).

(** The clean-up interval: [clients.forEach] deleting what is not open. *)
Definition cleanupClients {P} (cs : list (Client P)) : list (Client P) :=
  filter (fun c => isOpen (readyState c)) cs.

(** ** Vocabulary of the further properties *)

(** The unique index on [qrCode]. *)
Definition uniqueQRCodes (d : DB) : Prop := NoDup (map qrCode (bookings d)).

(** Every active booking names a zone that is on record. *)
Definition activeBookingsHaveZone (d : DB) : Prop :=
  forall b,
    In b (bookings d) -> status b = active ->
    Zone_findById (zones d) (zoneId b) <> None.

(** What a write may make of a stored booking: who, where, when and the
    code stay; the status stays, or goes to [cancelled], or from [active]
    to [completed], or from [active] or [checked_in] to [expired]; a
    cancelled booking stays as it is. *)
Definition ages (b b' : Booking) : Prop :=
  userId b' = userId b /\ zoneId b' = zoneId b /\ zoneName b' = zoneName b
  /\ qrCode b' = qrCode b /\ date b' = date b
  /\ startTime b' = startTime b /\ endTime b' = endTime b
  /\ vehicleNumber b' = vehicleNumber b
  /\ (status b' = status b \/ status b' = cancelled
      \/ (status b = active /\ status b' = completed)
      \/ ((status b = active \/ status b = checked_in)
          /\ status b' = expired))
  /\ (status b = cancelled -> b' = b).

(** The bookings after one write: the stored ones aged in place, or one
    new active booking with a fresh code at the end. *)
Definition evolves (bs bs' : list Booking) : Prop :=
  Forall2 ages bs bs'
  \/ exists nb,
       bs' = bs ++ [nb] /\ status nb = active /\ checkInTime nb = None
       /\ ~ In (qrCode nb) (map qrCode bs).

(** A client the broadcast reaches. *)
Definition reachable {P} (c : Client P) : bool :=
  isOpen (readyState c) && negb (sendThrows c).

(** What one write does to the collections and the log: the bookings
    evolve, notifications, events and broadcasts are only added. *)
Definition writes (w w' : World) : Prop :=
  evolves (bookings (db w)) (bookings (db w'))
  /\ (exists ns, notifications (db w') = notifications (db w) ++ ns)
  /\ (exists ms, sent w' = sent w ++ ms)
  /\ (exists es, events (db w') = events (db w) ++ es).

(** A write that adds no booking. *)
Definition rewrites (w w' : World) : Prop :=
  Forall2 ages (bookings (db w)) (bookings (db w'))
  /\ (exists ns, notifications (db w') = notifications (db w) ++ ns)
  /\ (exists ms, sent w' = sent w ++ ms)
  /\ (exists es, events (db w') = events (db w) ++ es).

(** The writes that can lower the availability of a zone: a reservation,
    and the administration of zones. *)
Definition mayTakeSlots (a : Action) : bool :=
  match a with
  | Core (Reserve _ _ _) | UpdateZone _ _ _ _ | DeleteZone _ _ => true
  | _ => false
  end.

(** What the [forEach] of a broadcast makes of one client. *)
Definition sentTo {P} (message : P) (c : Client P) : Client P :=
  if reachable c then deliver message c else c.

(** ** The small campus, booked *)

Definition booking1 : Booking :=
  newBooking env1 (requestBy user1) "KA01AB1234".

(** Zone "A" with the booking of [user1]. *)
Definition booked : World := run (Reserve env1 user1 (requestBy user1)) campus.

(** A second request of [user1], for the afternoon of the same day. *)
Definition afternoon : BookingRequest :=
  mkBookingRequest 11 1 "A" (noon0 + 3 * msPerHour) 1 (Some "KA01AB1234").

(** Three clients: one open, one closed, one whose [send] throws. *)
Definition threeClients : list (Client Message) :=
  [mkClient 1 OPEN false []; mkClient 2 CLOSED false [];
   mkClient 3 OPEN true []].

(** * Properties *)

Lemma status_eqb_eq (a b : Status) : status_eqb a b = true <-> a = b.
Proof. destruct a, b; simpl; split; intro H; congruence. Qed.

(** ** Days *)

Lemma startOfDay_inDay (day t : Date) :
  inDay day t = true -> startOfDay t = startOfDay day.
Proof.
  unfold inDay, endOfDay, startOfDay, msPerDay.
  intro H. apply andb_true_iff in H. destruct H as [Hlo Hhi].
  apply Z.leb_le in Hlo. apply Z.leb_le in Hhi.
  pose proof (Z.div_mod day 86400000 ltac:(lia)) as Hday.
  pose proof (Z.mod_pos_bound day 86400000 ltac:(lia)) as Hbound.
  assert (Hr : t - (day - day mod 86400000) = t mod 86400000).
  { apply Z.mod_unique with (q := day / 86400000); lia. }
  lia.
Qed.

Lemma inDay_same_window (day t x : Date) :
  inDay day t = true -> inDay t x = inDay day x.
Proof.
  intro H. unfold inDay, endOfDay.
  rewrite (startOfDay_inDay day t H). reflexivity.
Qed.

Lemma inDay_refl (t : Date) : inDay t t = true.
Proof.
  unfold inDay, endOfDay, startOfDay, msPerDay.
  pose proof (Z.mod_pos_bound t 86400000 ltac:(lia)).
  apply andb_true_iff. split; apply Z.leb_le; lia.
Qed.

Lemma activeOn_same_window (zid : ObjectId) (day t : Date) (b : Booking) :
  inDay day t = true -> activeOn zid t b = activeOn zid day b.
Proof.
  intro H. unfold activeOn. rewrite (inDay_same_window day t _ H).
  reflexivity.
Qed.

(** The day of a time stamp starts at a multiple of the length of a day
    and holds the time stamp. *)
Lemma dayNumber_spec (t : Date) :
  msPerDay * dayNumber t <= t < msPerDay * dayNumber t + msPerDay.
Proof.
  unfold dayNumber, msPerDay.
  pose proof (Z.div_mod t 86400000 ltac:(lia)).
  pose proof (Z.mod_pos_bound t 86400000 ltac:(lia)). lia.
Qed.

Lemma startOfDay_dayNumber (t : Date) : startOfDay t = msPerDay * dayNumber t.
Proof.
  unfold startOfDay, dayNumber, msPerDay.
  pose proof (Z.div_mod t 86400000 ltac:(lia)). lia.
Qed.

(** The window [startOfDay .. endOfDay] of the queries is the calendar
    day. *)
Lemma inDay_dayNumber (day t : Date) :
  inDay day t = (dayNumber t =? dayNumber day).
Proof.
  apply eq_true_iff_eq. unfold inDay, endOfDay.
  rewrite andb_true_iff, !Z.leb_le, Z.eqb_eq, startOfDay_dayNumber.
  pose proof (dayNumber_spec t) as Ht. unfold msPerDay in *. split; lia.
Qed.

(** [$gte: startOfDay] keeps what is dated on the day or on a later
    one. *)
Lemma fromStartOfDay_dayNumber (today t : Date) :
  (startOfDay today <=? t) = (dayNumber today <=? dayNumber t).
Proof.
  apply eq_true_iff_eq. rewrite !Z.leb_le, startOfDay_dayNumber.
  pose proof (dayNumber_spec t) as Ht. unfold msPerDay in *. split; lia.
Qed.

Lemma activeOn_holdsSlot (zid : ObjectId) (day : Date) (b : Booking) :
  activeOn zid day b = true <-> holdsSlot zid day b.
Proof.
  unfold activeOn, holdsSlot.
  rewrite !andb_true_iff, inDay_dayNumber, Nat.eqb_eq, Z.eqb_eq.
  split.
  - intros [[Hz Hs] Hd]. split; [exact Hz|]. split; [|exact Hd].
    destruct (status b); try discriminate Hs. reflexivity.
  - intros (Hz & Hs & Hd). rewrite Hs. auto.
Qed.

(** ** Collections *)

Section Collections.
Context {A : Type}.
Variable q : A -> bool.

Lemma countDocuments_nil : countDocuments q [] = 0.
Proof. reflexivity. Qed.

Lemma countDocuments_cons (x : A) (c : list A) :
  countDocuments q (x :: c) = weight q x + countDocuments q c.
Proof.
  unfold countDocuments, weight. cbn [filter].
  destruct (q x); cbn [List.length]; lia.
Qed.

Lemma countDocuments_nonneg (c : list A) : 0 <= countDocuments q c.
Proof. unfold countDocuments. lia. Qed.

Lemma countDocuments_insert (x : A) (c : list A) :
  countDocuments q (c ++ [x]) = countDocuments q c + weight q x.
Proof.
  induction c as [|y c IH].
  - rewrite app_nil_l, countDocuments_cons, countDocuments_nil. lia.
  - rewrite <- app_comm_cons, !countDocuments_cons, IH. lia.
Qed.

(** Saving a loaded document moves the count by the difference of the
    two versions. *)
Lemma countDocuments_replaceAt (i : nat) (x y : A) (c : list A) :
  nth_error c i = Some y ->
  countDocuments q (replaceAt i x c)
  = countDocuments q c - weight q y + weight q x.
Proof.
  revert i. induction c as [|z c IH]; intros [|i] H; simpl in H;
    try discriminate.
  - injection H as ->. simpl. rewrite !countDocuments_cons. lia.
  - simpl. rewrite !countDocuments_cons, (IH i H). lia.
Qed.

Lemma replaceAt_out_of_range (i : nat) (x : A) (c : list A) :
  nth_error c i = None -> replaceAt i x c = c.
Proof.
  revert i. induction c as [|z c IH]; intros [|i] H; simpl in *;
    try reflexivity; try discriminate.
  f_equal. auto.
Qed.

(** A document that does not match never raises the count. *)
Lemma countDocuments_replaceAt_le (i : nat) (x : A) (c : list A) :
  q x = false ->
  countDocuments q (replaceAt i x c) <= countDocuments q c.
Proof.
  intro Hx. destruct (nth_error c i) as [y|] eqn:E.
  - rewrite (countDocuments_replaceAt i x y c E). unfold weight.
    rewrite Hx. destruct (q y); lia.
  - rewrite (replaceAt_out_of_range i x c E). lia.
Qed.

Lemma nth_error_replaceAt (i : nat) (x y : A) (c : list A) :
  nth_error c i = Some y -> nth_error (replaceAt i x c) i = Some x.
Proof.
  revert i. induction c as [|z c IH]; intros [|i] H; simpl in *;
    try discriminate; auto.
Qed.

Lemma nth_error_replaceAt_other (i j : nat) (x : A) (c : list A) :
  i <> j -> nth_error (replaceAt i x c) j = nth_error c j.
Proof.
  revert i j. induction c as [|z c IH]; intros [|i] [|j] H; simpl;
    try reflexivity; try congruence.
  apply IH. congruence.
Qed.

Lemma findOneFrom_found (k i : nat) (x : A) (c : list A) :
  findOneFrom q k c = Some (i, x) ->
  (k <= i)%nat /\ nth_error c (i - k) = Some x /\ q x = true.
Proof.
  revert k. induction c as [|z c IH]; intros k H; simpl in H.
  - discriminate.
  - destruct (q z) eqn:E.
    + injection H as <- <-. rewrite Nat.sub_diag. auto.
    + destruct (IH (S k) H) as (Hle & Hn & Hq).
      split; [lia|]. split; [|exact Hq].
      replace (i - k)%nat with (S (i - S k)) by lia. exact Hn.
Qed.

Lemma findOne_found (i : nat) (x : A) (c : list A) :
  findOne q c = Some (i, x) -> nth_error c i = Some x /\ q x = true.
Proof.
  intro H. destruct (findOneFrom_found 0 i x c H) as (_ & Hn & Hq).
  rewrite Nat.sub_0_r in Hn. auto.
Qed.

Lemma findOneFrom_none (k : nat) (c : list A) :
  findOneFrom q k c = None <-> forall x, In x c -> q x = false.
Proof.
  revert k. induction c as [|z c IH]; intro k; simpl.
  - split; [intros _ x []|reflexivity].
  - destruct (q z) eqn:E.
    + split; [discriminate|]. intro H.
      specialize (H z (or_introl eq_refl)). congruence.
    + rewrite IH. split.
      * intros H x [<-|Hin]; auto.
      * intros H x Hin. apply H. auto.
Qed.

Lemma findFrom_found (k i : nat) (x : A) (c : list A) :
  In (i, x) (findFrom q k c) <->
  (k <= i)%nat /\ nth_error c (i - k) = Some x /\ q x = true.
Proof.
  revert k. induction c as [|z c IH]; intro k; simpl.
  - split; [intros []|]. intros (_ & H & _).
    destruct (i - k)%nat; discriminate.
  - assert (Hstep : In (i, x) (findFrom q (S k) c) <->
              (k <= i)%nat /\ i <> k /\
              nth_error (z :: c) (i - k) = Some x /\ q x = true).
    { rewrite IH. split.
      - intros (Hle & Hn & Hq). repeat split; try lia; auto.
        replace (i - k)%nat with (S (i - S k)) by lia. exact Hn.
      - intros (Hle & Hne & Hn & Hq). repeat split; try lia; auto.
        replace (i - k)%nat with (S (i - S k)) in Hn by lia. exact Hn. }
    destruct (q z) eqn:E.
    + simpl. rewrite Hstep. split.
      * intros [H|H].
        -- injection H as <- <-. rewrite Nat.sub_diag. auto.
        -- tauto.
      * intros (Hle & Hn & Hq).
        destruct (Nat.eq_dec i k) as [->|Hne].
        -- left. rewrite Nat.sub_diag in Hn. simpl in Hn. congruence.
        -- right. tauto.
    + rewrite Hstep. split; [tauto|].
      intros (Hle & Hn & Hq).
      destruct (Nat.eq_dec i k) as [->|Hne]; [|tauto].
      rewrite Nat.sub_diag in Hn. simpl in Hn. congruence.
Qed.

(** [find] returns every matching document once. *)
Lemma findFrom_length (k : nat) (c : list A) :
  List.length (findFrom q k c) = List.length (filter q c).
Proof.
  revert k. induction c as [|z c IH]; intro k; cbn; [reflexivity|].
  destruct (q z); cbn; rewrite IH; reflexivity.
Qed.

Lemma findFrom_positions (k : nat) (c : list A) :
  NoDup (map fst (findFrom q k c)).
Proof.
  revert k. induction c as [|z c IH]; intro k; cbn; [constructor|].
  destruct (q z); [|apply IH]. cbn. constructor; [|apply IH].
  intro Hin. apply in_map_iff in Hin. destruct Hin as ([i x] & Hi & Hin).
  cbn in Hi. subst i. apply findFrom_found in Hin. lia.
Qed.

(** Counting the matching documents is counting the positions at which
    one is stored. *)
Lemma countDocuments_positions (n : Z) (c : list A) :
  n <= countDocuments q c <->
  exists ids : list nat,
    NoDup ids /\ n <= Z.of_nat (List.length ids)
    /\ forall id, In id ids ->
         exists x, nth_error c id = Some x /\ q x = true.
Proof.
  unfold countDocuments. split.
  - intro H. exists (map fst (findFrom q 0 c)).
    split; [apply findFrom_positions|]. split.
    + rewrite length_map, findFrom_length. exact H.
    + intros id Hin. apply in_map_iff in Hin.
      destruct Hin as ([i x] & Hi & Hin). cbn in Hi. subst i.
      apply findFrom_found in Hin. rewrite Nat.sub_0_r in Hin.
      exists x. tauto.
  - intros (ids & Hnd & Hn & Hall).
    assert (Hincl : incl ids (map fst (findFrom q 0 c))).
    { intros id Hin. destruct (Hall id Hin) as (x & Hx & Hq).
      apply in_map_iff. exists (id, x). split; [reflexivity|].
      apply findFrom_found. rewrite Nat.sub_0_r. split; [lia|]. auto. }
    pose proof (NoDup_incl_length Hnd Hincl) as Hlen.
    rewrite length_map, findFrom_length in Hlen. lia.
Qed.
End Collections.

(** The count of the handlers, in the words of the claims. *)
Lemma slotsHeld_count (n : Z) (bs : list Booking) (zid : ObjectId)
    (day : Date) :
  slotsHeld n bs zid day <-> n <= countDocuments (activeOn zid day) bs.
Proof.
  rewrite countDocuments_positions. unfold slotsHeld, Booking_findById.
  split; intros (ids & Hnd & Hn & Hall); exists ids;
    (split; [exact Hnd|]); (split; [exact Hn|]);
    intros id Hin; destruct (Hall id Hin) as (b & Hb & Hq);
    exists b; (split; [exact Hb|]); apply activeOn_holdsSlot; exact Hq.
Qed.

Lemma claimedBooked_count (d : DB) (zid : ObjectId) (day : Date) :
  claimedBooked d zid day = countActiveBookings d zid day.
Proof.
  unfold claimedBooked, countActiveBookings, countDocuments.
  rewrite (filter_ext _ (activeOn zid day)); [reflexivity|].
  intro b. unfold activeOn. rewrite inDay_dayNumber. reflexivity.
Qed.

Lemma claimedAllocated_total (d : DB) (zid : ObjectId) (today : Date) :
  claimedAllocated d zid today = totalEventSlots d zid today.
Proof.
  unfold claimedAllocated, totalEventSlots.
  rewrite (filter_ext _ (futureEventOf zid today)); [reflexivity|].
  intro e. unfold futureEventOf.
  destruct (e_zoneId e); [|reflexivity].
  rewrite fromStartOfDay_dayNumber. reflexivity.
Qed.

(** The count as a bound: [n] bookings hold a slot exactly when the
    count of the claims is at least [n]. *)
Lemma slotsHeld_claimedBooked (n : Z) (d : DB) (zid : ObjectId) (day : Date) :
  slotsHeld n (bookings d) zid day <-> n <= claimedBooked d zid day.
Proof. rewrite slotsHeld_count, claimedBooked_count. reflexivity. Qed.

(** ** Booking creation *)

(** Every run of the handler either leaves the server as it was and
    answers with a failure, or commits the booking with its confirmation
    and then sends the two broadcasts. *)
Lemma createBooking_outcome env user req w :
  (createBooking env user req w = (w, snd (createBooking env user req w))
   /\ succeeded (snd (createBooking env user req w)) = false)
  \/
  exists zone v,
    u_id user = rq_userId req
    /\ Zone_findById (zones (db w)) (rq_zoneId req) = Some zone
    /\ includes (accessRules (u_role user)) (z_type zone) = true
    /\ findOne (ownActiveOn (rq_userId req) (rq_zoneId req) (rq_date req))
         (bookings (db w)) = None
    /\ countActiveBookings (db w) (rq_zoneId req) (rq_date req)
       < totalSlots zone
    /\ rq_vehicleNumber req = Some v
    /\ createBooking env user req w
       = (mkWorld
            (reservedStore (db w) (newBooking env req v)
               (bookingConfirmed req))
            (sent w
             ++ [zone_update (rq_zoneId req)
                   (Z.max 0
                      (totalSlots zone
                       - (countActiveBookings (db w) (rq_zoneId req)
                            (rq_date req) + 1)));
                 booking_created (rq_userId req) (rq_zoneName req)]),
          ok_booking (List.length (bookings (db w))) (generateQRCode env)).
Proof.
  unfold createBooking, bookingTransaction, abortTransaction,
    startTransaction. cbn [view].
  destruct (Nat.eqb (u_id user) (rq_userId req)) eqn:Eu; cbn [negb];
    [|left; split; reflexivity].
  apply Nat.eqb_eq in Eu.
  destruct (Zone_findById (zones (db w)) (rq_zoneId req)) as [zone|] eqn:Ez;
    [|left; split; reflexivity].
  destruct (includes (accessRules (u_role user)) (z_type zone)) eqn:Ea;
    cbn [negb]; [|left; split; reflexivity].
  destruct (findOne _ (bookings (db w))) as [dup|] eqn:Ed;
    [left; split; reflexivity|].
  destruct (totalSlots zone <=? countActiveBookings (db w) (rq_zoneId req)
                                  (rq_date req)) eqn:Ec;
    [left; split; reflexivity|].
  apply Z.leb_gt in Ec.
  unfold Booking_insert, Notification_insert, commitTransaction.
  cbn [view].
  destruct (storeFault_eqb (fault env) fault_booking_save);
    [left; split; reflexivity|].
  destruct (rq_vehicleNumber req) as [v|] eqn:Ev;
    [|left; split; reflexivity].
  destruct (String.eqb v ""); [left; split; reflexivity|].
  cbn [newBooking zoneName].
  destruct (String.eqb (rq_zoneName req) ""); [left; split; reflexivity|].
  destruct (existsb _ (bookings (db w))); [left; split; reflexivity|].
  destruct (storeFault_eqb (fault env) fault_notification_create);
    [left; split; reflexivity|].
  destruct (storeFault_eqb (fault env) fault_commit);
    [left; split; reflexivity|].
  right. exists zone, v. repeat (split; [assumption || reflexivity|]).
  unfold broadcast, reservedStore, Notification_create. cbn.
  rewrite <- app_assoc. reflexivity.
Qed.

(** The ownership check comes first. *)
Lemma createBooking_outcome_foreign env user req w :
  u_id user <> rq_userId req ->
  createBooking env user req w = (w, failure 403 "Unauthorized").
Proof.
  intro H. unfold createBooking, bookingTransaction.
  apply Nat.eqb_neq in H. rewrite H. reflexivity.
Qed.

(** C10. A booking request whose body names another user than the
    authenticated caller is answered 403 "Unauthorized" with the
    transaction aborted: the store (so bookings and notifications) and
    the broadcast log are exactly what they were. *)
Theorem createBooking_foreign_user_rejected env user req w :
  u_id user <> rq_userId req ->
  let result := createBooking env user req w in
  snd result = failure 403 "Unauthorized"
  /\ bookings (db (fst result)) = bookings (db w)
  /\ notifications (db (fst result)) = notifications (db w)
  /\ sent (fst result) = sent w
  /\ fst result = w.
Proof.
  intro H. cbv zeta. rewrite (createBooking_outcome_foreign env user req w H).
  repeat split.
Qed.

(** *** The transaction of a reservation *)

(** The transaction is aborted with "No slots available" exactly when it
    reaches the count and the count is at least [totalSlots]. *)
Lemma bookingTransaction_no_slots env user req session :
  bookingTransaction env user req session = aborted noSlotsAvailable <->
  exists zone,
    u_id user = rq_userId req
    /\ Zone_findById (zones (view session)) (rq_zoneId req) = Some zone
    /\ includes (accessRules (u_role user)) (z_type zone) = true
    /\ findOne (ownActiveOn (rq_userId req) (rq_zoneId req) (rq_date req))
         (bookings (view session)) = None
    /\ totalSlots zone
       <= countActiveBookings (view session) (rq_zoneId req) (rq_date req).
Proof.
  unfold bookingTransaction, noSlotsAvailable, serverError.
  destruct (Nat.eqb (u_id user) (rq_userId req)) eqn:Eu; cbn [negb].
  2:{ apply Nat.eqb_neq in Eu. split; [discriminate|].
      intros (zone & H & _). contradiction. }
  apply Nat.eqb_eq in Eu.
  destruct (Zone_findById (zones (view session)) (rq_zoneId req))
    as [zone|] eqn:Ez.
  2:{ split; [discriminate|]. intros (zone & _ & H & _). discriminate. }
  destruct (includes (accessRules (u_role user)) (z_type zone)) eqn:Ea;
    cbn [negb].
  2:{ split; [discriminate|].
      intros (zone' & _ & H & H' & _). injection H as <-. congruence. }
  destruct (findOne _ (bookings (view session))) as [dup|] eqn:Ed.
  { split; [discriminate|]. intros (zone' & _ & _ & _ & H & _). discriminate. }
  destruct (totalSlots zone
            <=? countActiveBookings (view session) (rq_zoneId req)
                  (rq_date req)) eqn:Ec.
  - apply Z.leb_le in Ec. split; [|reflexivity].
    intros _. exists zone. auto.
  - apply Z.leb_gt in Ec. split.
    + destruct (Booking_insert _ _ _ _) as [[[id b] s1]|]; [|discriminate].
      destruct (Notification_insert _ _ _) as [s2|]; discriminate.
    + intros (zone' & _ & H & _ & _ & Hc). injection H as <-. lia.
Qed.

(** An aborted transaction answers with a failure. *)
Lemma bookingTransaction_aborted env user req session r :
  bookingTransaction env user req session = aborted r ->
  succeeded r = false.
Proof.
  unfold bookingTransaction.
  destruct (negb (Nat.eqb (u_id user) (rq_userId req)));
    [intro H; injection H as <-; reflexivity|].
  destruct (Zone_findById (zones (view session)) (rq_zoneId req))
    as [zone|]; [|intro H; injection H as <-; reflexivity].
  destruct (negb (includes (accessRules (u_role user)) (z_type zone)));
    [intro H; injection H as <-; reflexivity|].
  destruct (findOne _ (bookings (view session)));
    [intro H; injection H as <-; reflexivity|].
  destruct (totalSlots zone <=? _);
    [intro H; injection H as <-; reflexivity|].
  destruct (Booking_insert _ _ _ _) as [[[id b] s1]|];
    [|intro H; injection H as <-; reflexivity].
  destruct (Notification_insert _ _ _) as [s2|];
    [discriminate|intro H; injection H as <-; reflexivity].
Qed.

(** What a transaction that is ready to commit has read and written. *)
Lemma bookingTransaction_written env user req session s' id b zone n :
  bookingTransaction env user req session = written s' id b zone n ->
  u_id user = rq_userId req
  /\ Zone_findById (zones (view session)) (rq_zoneId req) = Some zone
  /\ n = countActiveBookings (view session) (rq_zoneId req) (rq_date req)
  /\ n < totalSlots zone
  /\ id = List.length (bookings (view session))
  /\ (exists v, rq_vehicleNumber req = Some v /\ b = newBooking env req v)
  /\ view s' = reservedStore (view session) b (bookingConfirmed req).
Proof.
  unfold bookingTransaction.
  destruct (Nat.eqb (u_id user) (rq_userId req)) eqn:Eu; cbn [negb];
    [|discriminate].
  apply Nat.eqb_eq in Eu.
  destruct (Zone_findById (zones (view session)) (rq_zoneId req))
    as [zone'|] eqn:Ez; [|discriminate].
  destruct (includes (accessRules (u_role user)) (z_type zone'));
    cbn [negb]; [|discriminate].
  destruct (findOne _ (bookings (view session))); [discriminate|].
  destruct (totalSlots zone'
            <=? countActiveBookings (view session) (rq_zoneId req)
                  (rq_date req)) eqn:Ec; [discriminate|].
  apply Z.leb_gt in Ec.
  unfold Booking_insert, Notification_insert.
  destruct (storeFault_eqb (fault env) fault_booking_save); [discriminate|].
  destruct (rq_vehicleNumber req) as [v|]; [|discriminate].
  destruct (String.eqb v ""); [discriminate|].
  destruct (String.eqb (zoneName (newBooking env req v)) "");
    [discriminate|].
  destruct (existsb _ (bookings (view session))); [discriminate|].
  destruct (storeFault_eqb (fault env) fault_notification_create);
    [discriminate|].
  intro H. injection H as <- <- <- <- <-.
  repeat (split; [assumption || reflexivity|]).
  split; [exists v; auto|reflexivity].
Qed.

(** C2. The count that gates a reservation is taken inside the
    transaction: whatever the session of the transaction shows (it need
    not be what is committed by then), the transaction is aborted with
    "No slots available" exactly when the request reaches the count
    (caller, zone, access rule and duplicate check passed, all read in
    the session) and at least [totalSlots] of the bookings the session
    shows hold a slot of the zone on the day of the request. Otherwise,
    if the booking is written, it is written into that same session,
    fewer than [totalSlots] bookings held a slot there, and the new
    booking holds one. The handler answers "No slots available" exactly
    when its transaction is aborted so, and then it has created nothing;
    what a success commits is the view of the session it counted in. *)
Theorem createBooking_no_slots_exactly env user req (session : Session) :
  let inTransaction := view session in
  let zid := rq_zoneId req in
  let day := rq_date req in
  (bookingTransaction env user req session = aborted noSlotsAvailable <->
   exists zone,
     u_id user = rq_userId req
     /\ Zone_findById (zones inTransaction) zid = Some zone
     /\ includes (accessRules (u_role user)) (z_type zone) = true
     /\ (forall b, In b (bookings inTransaction) ->
                   userId b = rq_userId req -> ~ holdsSlot zid day b)
     /\ slotsHeld (totalSlots zone) (bookings inTransaction) zid day)
  /\ (forall s' id b zone n,
        bookingTransaction env user req session = written s' id b zone n ->
        Zone_findById (zones inTransaction) zid = Some zone
        /\ ~ slotsHeld (totalSlots zone) (bookings inTransaction) zid day
        /\ holdsSlot zid day b
        /\ view s' = reservedStore inTransaction b (bookingConfirmed req))
  /\ (forall w,
        let result := createBooking env user req w in
        (snd result = noSlotsAvailable <->
         bookingTransaction env user req (startTransaction w)
         = aborted noSlotsAvailable)
        /\ (snd result = noSlotsAvailable -> fst result = w)
        /\ (succeeded (snd result) = true ->
            exists s' id b zone n,
              bookingTransaction env user req (startTransaction w)
              = written s' id b zone n
              /\ db (fst result) = view s')).
Proof.
  cbv zeta. split; [|split].
  - rewrite bookingTransaction_no_slots.
    assert (Hdup :
              findOne (ownActiveOn (rq_userId req) (rq_zoneId req)
                         (rq_date req)) (bookings (view session)) = None
              <-> forall b, In b (bookings (view session)) ->
                    userId b = rq_userId req ->
                    ~ holdsSlot (rq_zoneId req) (rq_date req) b).
    { unfold findOne. rewrite findOneFrom_none. unfold ownActiveOn.
      split; intros H b Hin.
      - intros Hu Hh. specialize (H b Hin).
        apply activeOn_holdsSlot in Hh.
        rewrite Hu, Nat.eqb_refl, Hh in H. discriminate.
      - destruct (Nat.eqb (userId b) (rq_userId req)) eqn:Eu;
          [|reflexivity].
        apply Nat.eqb_eq in Eu. cbn [andb].
        destruct (activeOn (rq_zoneId req) (rq_date req) b) eqn:Ea;
          [|reflexivity].
        exfalso. apply (H b Hin Eu). apply activeOn_holdsSlot. exact Ea. }
    split; intros (zone & Hu & Hz & Ha & Hd & Hc); exists zone;
      repeat (split; [assumption|]).
    + split; [apply Hdup; exact Hd|]. apply slotsHeld_count. exact Hc.
    + split; [apply Hdup; exact Hd|]. apply slotsHeld_count in Hc. exact Hc.
  - intros s' id b zone n H.
    destruct (bookingTransaction_written _ _ _ _ _ _ _ _ _ H)
      as (_ & Hz & Hn & Hlt & _ & (v & _ & Hb) & Hview).
    split; [exact Hz|]. split; [|split; [|exact Hview]].
    + rewrite slotsHeld_count. unfold countActiveBookings in Hn. lia.
    + subst b. apply activeOn_holdsSlot. unfold activeOn.
      cbn [newBooking zoneId status date status_eqb].
      rewrite Nat.eqb_refl, inDay_refl. reflexivity.
  - intro w. unfold createBooking, abortTransaction.
    destruct (bookingTransaction env user req (startTransaction w))
      as [r|s2 id b zone n] eqn:Et.
    + cbn [fst snd]. split; [|split].
      * split; intro H; [rewrite H; reflexivity|].
        injection H as ->. reflexivity.
      * reflexivity.
      * intro H. rewrite (bookingTransaction_aborted _ _ _ _ _ Et) in H.
        discriminate H.
    + unfold commitTransaction.
      destruct (storeFault_eqb (fault env) fault_commit); cbn [fst snd].
      * split; [split; discriminate|]. split; discriminate.
      * split; [split; discriminate|]. split; [discriminate|].
        intros _. exists s2, id, b, zone, n. split; reflexivity.
Qed.

(** C3. Whatever makes the reservation stop (a failed check, a rejected
    write, a rejected commit), the server is left exactly as it was:
    no booking, no notification, no broadcast. Otherwise the booking and
    its "Booking Confirmed" notification are committed together, and the
    [zone_update] and [booking_created] broadcasts follow that commit. *)
Theorem createBooking_atomic env user req w :
  let result := createBooking env user req w in
  (succeeded (snd result) = false /\ fst result = w)
  \/
  (succeeded (snd result) = true
   /\ exists b available,
        status b = active
        /\ db (fst result) = reservedStore (db w) b (bookingConfirmed req)
        /\ sent (fst result)
           = sent w ++ [zone_update (rq_zoneId req) available;
                        booking_created (rq_userId req) (rq_zoneName req)]).
Proof.
  cbv zeta.
  destruct (createBooking_outcome env user req w)
    as [[Hw Hf]|(zone & v & _ & _ & _ & _ & _ & _ & Hw)].
  - left. split; [exact Hf|]. rewrite Hw. reflexivity.
  - right. rewrite Hw. cbn [fst snd succeeded db sent]. split; [reflexivity|].
    eexists _, _. split; [|split; reflexivity]. reflexivity.
Qed.

(** ** Capacity *)

Lemma countDocuments_ext {A} (q q' : A -> bool) (c : list A) :
  (forall x, q x = q' x) -> countDocuments q c = countDocuments q' c.
Proof.
  intro H. unfold countDocuments. rewrite (filter_ext q q' H). reflexivity.
Qed.

Lemma activeOn_status zid day b :
  activeOn zid day b = true -> status b = active.
Proof.
  unfold activeOn. intro H.
  apply andb_true_iff in H. destruct H as [H _].
  apply andb_true_iff in H. destruct H as [_ H].
  apply status_eqb_eq. exact H.
Qed.

Lemma activeOn_inactive zid day b :
  status b <> active -> activeOn zid day b = false.
Proof.
  intro H. destruct (activeOn zid day b) eqn:E; [|reflexivity].
  exfalso. apply H. exact (activeOn_status zid day b E).
Qed.

Lemma frees_refl d : frees d d.
Proof. split; [reflexivity|]. intros. lia. Qed.

Lemma frees_trans d1 d2 d3 : frees d1 d2 -> frees d2 d3 -> frees d1 d3.
Proof.
  intros [Hz1 Hc1] [Hz2 Hc2]. split; [congruence|].
  intros zid day. specialize (Hc1 zid day). specialize (Hc2 zid day). lia.
Qed.

Lemma frees_within_capacity d d' :
  frees d d' -> bookingsWithinCapacity d -> bookingsWithinCapacity d'.
Proof.
  intros [Hz Hc] Hinv zid day zone Hfind. rewrite Hz in Hfind.
  specialize (Hinv zid day zone Hfind). specialize (Hc zid day). lia.
Qed.

Lemma frees_save_inactive id b d :
  status b <> active -> frees d (saveBooking id b d).
Proof.
  intro H. split; [reflexivity|]. intros zid day.
  unfold countActiveBookings, saveBooking. cbn [bookings].
  apply countDocuments_replaceAt_le. apply activeOn_inactive. exact H.
Qed.

Lemma frees_save_same id b b' d :
  nth_error (bookings d) id = Some b ->
  (forall zid day, activeOn zid day b' = activeOn zid day b) ->
  frees d (saveBooking id b' d).
Proof.
  intros Hn Hsame. split; [reflexivity|]. intros zid day.
  unfold countActiveBookings, saveBooking. cbn [bookings].
  rewrite (countDocuments_replaceAt _ id b' b _ Hn). unfold weight.
  rewrite Hsame. lia.
Qed.

Lemma frees_notification n d : frees d (Notification_create n d).
Proof. split; [reflexivity|]. intros. unfold countActiveBookings. cbn. lia. Qed.

Lemma status_expireBooking now b : status (expireBooking now b) = expired.
Proof.
  unfold expireBooking.
  destruct (isSome (checkInTime (withStatus expired b))
            && negb (isSome (checkOutTime (withStatus expired b))));
    [reflexivity|].
  destruct (negb (isSome (checkInTime (withStatus expired b))));
    reflexivity.
Qed.

Lemma db_broadcast m w : db (broadcast m w) = db w.
Proof. reflexivity. Qed.

Lemma frees_expireOne now w found : frees (db w) (db (expireOne now w found)).
Proof.
  destruct found as [id b]. unfold expireOne.
  set (b' := expireBooking now b).
  assert (H : frees (db w)
                (Notification_create (bookingExpired b')
                   (saveBooking id b' (db w)))).
  { eapply frees_trans; [|apply frees_notification].
    apply frees_save_inactive. unfold b'. rewrite status_expireBooking.
    discriminate. }
  destruct (getZoneAvailability now _ (zoneId b')); exact H.
Qed.

Lemma frees_expireOldBookings now w :
  frees (db w) (db (expireOldBookings now w)).
Proof.
  unfold expireOldBookings.
  generalize (findFrom (overdue now) 0 (bookings (db w))) as found.
  intro found. revert w.
  induction found as [|f found IH]; intro w; cbn [fold_left].
  - apply frees_refl.
  - eapply frees_trans; [apply frees_expireOne|apply IH].
Qed.

Lemma frees_cancelBooking now user id w :
  frees (db w) (db (fst (cancelBooking now user id w))).
Proof.
  unfold cancelBooking.
  destruct (Booking_findById (bookings (db w)) id) as [b|];
    [|apply frees_refl].
  destruct (negb (Nat.eqb (userId b) (u_id user))
            && negb (isAdmin (u_role user))); [apply frees_refl|].
  destruct (status_eqb (status b) cancelled); [apply frees_refl|].
  assert (H : frees (db w)
                (Notification_create
                   (mkNotification (userId (withStatus cancelled b))
                      "Booking Cancelled"
                      ("Your parking slot at " ++ zoneName b
                       ++ " has been cancelled") n_warning)
                   (saveBooking id (withStatus cancelled b) (db w)))).
  { eapply frees_trans; [|apply frees_notification].
    apply frees_save_inactive. discriminate. }
  destruct (getZoneAvailability now _ (zoneId b)); exact H.
Qed.

Lemma frees_checkIn now qr w : frees (db w) (db (fst (checkIn now qr w))).
Proof.
  unfold checkIn.
  destruct (String.eqb qr ""); [apply frees_refl|].
  destruct (findOne (activeWithQR qr) (bookings (db w))) as [[id b]|] eqn:E;
    [|apply frees_refl].
  destruct (isSome (checkInTime b)); [apply frees_refl|].
  cbn [fst db broadcast].
  eapply frees_trans; [|apply frees_notification].
  apply (frees_save_same id b).
  - exact (proj1 (findOne_found _ _ _ _ E)).
  - reflexivity.
Qed.

Lemma frees_checkOut now qr w : frees (db w) (db (fst (checkOut now qr w))).
Proof.
  unfold checkOut.
  destruct (String.eqb qr ""); [apply frees_refl|].
  destruct (findOne (activeWithQR qr) (bookings (db w))) as [[id b]|];
    [|apply frees_refl].
  destruct (negb (isSome (checkInTime b))); [apply frees_refl|].
  destruct (isSome (checkOutTime b)); [apply frees_refl|].
  assert (H : frees (db w)
                (Notification_create
                   (mkNotification
                      (userId (withStatus completed (withCheckOutTime now b)))
                      "Check-out Successful"
                      ("You have checked out from " ++ zoneName b) n_success)
                   (saveBooking id
                      (withStatus completed (withCheckOutTime now b))
                      (db w)))).
  { eapply frees_trans; [|apply frees_notification].
    apply frees_save_inactive. discriminate. }
  destruct (getZoneAvailability now _ (zoneId b)); exact H.
Qed.

Lemma frees_createEvent now user req w :
  frees (db w) (db (fst (createEvent now user req w))).
Proof.
  unfold createEvent, abortTransaction, startTransaction.
  destruct (negb (isAdmin (u_role user))); [apply frees_refl|].
  destruct (er_date req) as [edate|]; [|apply frees_refl].
  destruct (er_allocatedSlots req) as [n|]; [|apply frees_refl].
  destruct (String.eqb (er_name req) ""); [apply frees_refl|].
  destruct (n <=? 0); [apply frees_refl|].
  destruct (er_zoneId req) as [zid|].
  - destruct (Zone_findById _ zid) as [zone|]; [|apply frees_refl].
    destruct (_ <? n); [apply frees_refl|].
    split; [reflexivity|]. intros. unfold countActiveBookings. cbn. lia.
  - split; [reflexivity|]. intros. unfold countActiveBookings. cbn. lia.
Qed.

(** The active bookings of a day after a committed reservation. *)
Lemma countActive_after_reserve env req v d n day :
  inDay day (rq_date req) = true ->
  countActiveBookings
    (reservedStore d (newBooking env req v) n) (rq_zoneId req) day
  = countActiveBookings d (rq_zoneId req) day + 1.
Proof.
  intro Hd. unfold countActiveBookings. cbn [reservedStore bookings].
  rewrite countDocuments_insert. unfold weight, activeOn.
  cbn [newBooking zoneId status date]. rewrite Nat.eqb_refl, Hd.
  reflexivity.
Qed.

(** A committed reservation keeps the active bookings of every zone and
    day within the capacity they were within. *)
Lemma createBooking_keeps_zone_day env user req w zid day zone :
  Zone_findById (zones (db w)) zid = Some zone ->
  countActiveBookings (db w) zid day <= totalSlots zone ->
  countActiveBookings (db (fst (createBooking env user req w))) zid day
  <= totalSlots zone.
Proof.
  intros Hfind Hinv.
  destruct (createBooking_outcome env user req w)
    as [[Hw _]|(zone' & v & _ & Hz & _ & _ & Hc & _ & Hw)];
    rewrite Hw; cbn [fst db]; [exact Hinv|].
  unfold countActiveBookings, reservedStore. cbn [bookings].
  rewrite countDocuments_insert. unfold weight.
  destruct (activeOn zid day (newBooking env req v)) eqn:E;
    [|unfold countActiveBookings in Hinv; lia].
  assert (E' := E). unfold activeOn in E'. cbn [newBooking zoneId date] in E'.
  apply andb_true_iff in E'. destruct E' as [E' Hday].
  apply andb_true_iff in E'. destruct E' as [Hzid _].
  apply Nat.eqb_eq in Hzid. subst zid.
  assert (zone' = zone) by congruence. subst zone'.
  unfold countActiveBookings in Hc.
  rewrite (countDocuments_ext _ _ (bookings (db w))
             (fun x =>
                activeOn_same_window (rq_zoneId req) day (rq_date req) x Hday))
    in Hc.
  lia.
Qed.

Lemma createBooking_within_capacity env user req w :
  bookingsWithinCapacity (db w) ->
  bookingsWithinCapacity (db (fst (createBooking env user req w))).
Proof.
  intros Hinv zid day zone Hfind.
  assert (Hz : zones (db (fst (createBooking env user req w)))
               = zones (db w)).
  { destruct (createBooking_outcome env user req w)
      as [[Hw _]|(zone' & v & _ & _ & _ & _ & _ & _ & Hw)];
      rewrite Hw; reflexivity. }
  rewrite Hz in Hfind.
  apply createBooking_keeps_zone_day; [exact Hfind|].
  exact (Hinv zid day zone Hfind).
Qed.

(** *** Zone by zone, day by day *)

(** No mutation touches the zones. *)
Lemma run_zones (m : Mutation) (w : World) :
  zones (db (run m w)) = zones (db w).
Proof.
  destruct m as [env user req|now user req|now user id|now qr|now qr|now];
    cbn [run].
  - destruct (createBooking_outcome env user req w)
      as [[Hw _]|(zone' & v & _ & _ & _ & _ & _ & _ & Hw)];
      rewrite Hw; reflexivity.
  - apply frees_createEvent.
  - apply frees_cancelBooking.
  - apply frees_checkIn.
  - apply frees_checkOut.
  - apply frees_expireOldBookings.
Qed.

(** The active bookings of one zone on one day stay within the capacity
    they were within, whatever holds of other zones and days. *)
Lemma run_keeps_zone_day (m : Mutation) (w : World) zid day zone :
  Zone_findById (zones (db w)) zid = Some zone ->
  countActiveBookings (db w) zid day <= totalSlots zone ->
  countActiveBookings (db (run m w)) zid day <= totalSlots zone.
Proof.
  intros Hfind Hinv.
  assert (Hfrees : forall d', frees (db w) d' ->
            countActiveBookings d' zid day <= totalSlots zone).
  { intros d' [_ Hc]. specialize (Hc zid day). lia. }
  destruct m as [env user req|now user req|now user id|now qr|now qr|now];
    cbn [run].
  - apply createBooking_keeps_zone_day; assumption.
  - apply Hfrees, frees_createEvent.
  - apply Hfrees, frees_cancelBooking.
  - apply Hfrees, frees_checkIn.
  - apply Hfrees, frees_checkOut.
  - apply Hfrees, frees_expireOldBookings.
Qed.

Lemma sweep_events now (found : list (nat * Booking)) (w : World) :
  events (db (fold_left (expireOne now) found w)) = events (db w).
Proof.
  revert w. induction found as [|[i b] found IH]; intro w; cbn [fold_left];
    [reflexivity|].
  rewrite IH. unfold expireOne.
  destruct (getZoneAvailability now _ _); reflexivity.
Qed.

(** Cancellation, check-in, check-out and the sweep leave the events and
    the zones as they are and raise no count of active bookings. *)
Lemma run_releases (m : Mutation) (w : World) :
  releases m = true ->
  events (db (run m w)) = events (db w) /\ frees (db w) (db (run m w)).
Proof.
  destruct m as [env user req|now user req|now user id|now qr|now qr|now];
    cbn [run releases]; intro H; try discriminate H; split.
  - unfold cancelBooking.
    destruct (Booking_findById (bookings (db w)) id) as [b|];
      [|reflexivity].
    destruct (negb (Nat.eqb (userId b) (u_id user))
              && negb (isAdmin (u_role user))); [reflexivity|].
    destruct (status_eqb (status b) cancelled); [reflexivity|].
    destruct (getZoneAvailability now _ (zoneId b)); reflexivity.
  - apply frees_cancelBooking.
  - unfold checkIn.
    destruct (String.eqb qr ""); [reflexivity|].
    destruct (findOne (activeWithQR qr) (bookings (db w))) as [[id b]|];
      [|reflexivity].
    destruct (isSome (checkInTime b)); reflexivity.
  - apply frees_checkIn.
  - unfold checkOut.
    destruct (String.eqb qr ""); [reflexivity|].
    destruct (findOne (activeWithQR qr) (bookings (db w))) as [[id b]|];
      [|reflexivity].
    destruct (negb (isSome (checkInTime b))); [reflexivity|].
    destruct (isSome (checkOutTime b)); [reflexivity|].
    destruct (getZoneAvailability now _ (zoneId b)); reflexivity.
  - apply frees_checkOut.
  - unfold expireOldBookings. apply sweep_events.
  - apply frees_expireOldBookings.
Qed.

(** The gate of a reservation reads zones and bookings only: the answer
    is the same whatever events are on record. *)
Lemma createBooking_blind_to_events env user req w es :
  snd (createBooking env user req (withEvents es w))
  = snd (createBooking env user req w).
Proof.
  unfold createBooking, bookingTransaction, abortTransaction,
    startTransaction, withEvents. cbn [view db zones bookings].
  destruct (negb (Nat.eqb (u_id user) (rq_userId req))); [reflexivity|].
  destruct (Zone_findById (zones (db w)) (rq_zoneId req)) as [zone|];
    [|reflexivity].
  destruct (negb (includes (accessRules (u_role user)) (z_type zone)));
    [reflexivity|].
  destruct (findOne _ (bookings (db w))); [reflexivity|].
  unfold countActiveBookings. cbn [bookings].
  destruct (totalSlots zone <=? _); [reflexivity|].
  unfold Booking_insert, Notification_insert, commitTransaction.
  cbn [view bookings].
  destruct (storeFault_eqb (fault env) fault_booking_save); [reflexivity|].
  destruct (rq_vehicleNumber req) as [v|]; [|reflexivity].
  destruct (String.eqb v ""); [reflexivity|].
  destruct (String.eqb (zoneName (newBooking env req v)) "");
    [reflexivity|].
  destruct (existsb _ (bookings (db w))); [reflexivity|].
  destruct (storeFault_eqb (fault env) fault_notification_create);
    [reflexivity|].
  destruct (storeFault_eqb (fault env) fault_commit); reflexivity.
Qed.

(** C1, on the code. The bound of section 3, active bookings of the day
    plus event allocations at most [totalSlots], is not kept by booking
    creation nor by event creation. On the campus whose zone "A" has one
    slot, the admin's event takes that slot: no booking and one allocated
    slot, within the total of 1. The reservation of [user1] for that day
    is still committed, and then one booking and one allocated slot stand
    against a total of 1. In general the answer to a reservation is the
    same whatever events are on record, and a committed one raises
    bookings plus allocations of its zone and day by one. Event creation
    likewise grants a second event the slot the first one holds. What
    the code keeps, zone by zone and day by day: every mutation leaves
    the zone on record and keeps the active bookings within [totalSlots]
    if they were; cancellation, check-in, check-out and the sweep also
    keep bookings plus allocations within [totalSlots] if they were. *)
Theorem reserve_gate_ignores_allocations :
  (let w := run (CreateEvent noon0 admin openDay) campus in
   let w' := run (Reserve env1 user1 (requestBy user1)) w in
   Zone_findById (zones (db w)) 1 = Some zoneA
   /\ totalSlots zoneA = 1
   /\ claimedBooked (db w) 1 day0 = 0
   /\ claimedAllocated (db w) 1 day0 = 1
   /\ snd (createBooking env1 user1 (requestBy user1) w)
      = ok_booking 0 "QR-1A2B3C4D"
   /\ Zone_findById (zones (db w')) 1 = Some zoneA
   /\ claimedBooked (db w') 1 day0 = 1
   /\ claimedAllocated (db w') 1 day0 = 1
   /\ totalSlots zoneA < claimedLoad (db w') 1 day0)
  /\ (forall env user req w es,
        snd (createBooking env user req (withEvents es w))
        = snd (createBooking env user req w))
  /\ (forall env user req w,
        succeeded (snd (createBooking env user req w)) = true ->
        claimedLoad (db (fst (createBooking env user req w)))
          (rq_zoneId req) (rq_date req)
        = claimedLoad (db w) (rq_zoneId req) (rq_date req) + 1)
  /\ (let w1 := run (CreateEvent noon0 admin openDay) campus in
      let w2 := run (CreateEvent noon0 admin openDay) w1 in
      claimedLoad (db w1) 1 day0 = 1
      /\ succeeded (snd (createEvent noon0 admin openDay w1)) = true
      /\ claimedLoad (db w2) 1 day0 = 2)
  /\ (forall m w zid zone day,
        Zone_findById (zones (db w)) zid = Some zone ->
        Zone_findById (zones (db (run m w))) zid = Some zone
        /\ (claimedBooked (db w) zid day <= totalSlots zone ->
            claimedBooked (db (run m w)) zid day <= totalSlots zone)
        /\ (releases m = true ->
            claimedLoad (db w) zid day <= totalSlots zone ->
            claimedLoad (db (run m w)) zid day <= totalSlots zone)).
Proof.
  split; [vm_compute; repeat split|].
  split; [apply createBooking_blind_to_events|].
  split; [|split; [vm_compute; repeat split|]].
  - intros env user req w Hok.
    destruct (createBooking_outcome env user req w)
      as [[_ Hf]|(zone & v & _ & _ & _ & _ & _ & _ & Hw)]; [congruence|].
    rewrite Hw. cbn [fst db]. unfold claimedLoad.
    rewrite !claimedBooked_count.
    rewrite (countActive_after_reserve env req v (db w) _ _
               (inDay_refl (rq_date req))).
    unfold claimedAllocated. cbn [reservedStore events]. lia.
  - intros m w zid zone day Hfind. split; [|split].
    + rewrite run_zones. exact Hfind.
    + rewrite !claimedBooked_count. apply run_keeps_zone_day. exact Hfind.
    + intros Hm. destruct (run_releases m w Hm) as [He [_ Hc]].
      unfold claimedLoad, claimedAllocated. rewrite He.
      rewrite !claimedBooked_count. specialize (Hc zid day). lia.
Qed.

(** ** The campus, run *)

(** Section 8 of the specification, on the model: zone "A" has one slot;
    the first user gets it, the second is refused, and succeeds once the
    first has cancelled. *)
Example one_slot_scenario :
  let w1 := run (Reserve env1 user1 (requestBy user1)) campus in
  let w2 := run (Cancel noon0 user1 0) w1 in
  snd (createBooking env1 user1 (requestBy user1) campus)
  = ok_booking 0 "QR-1A2B3C4D"
  /\ map zd_available (getZones noon0 (db w1)) = [0]
  /\ snd (createBooking env2 user2 (requestBy user2) w1) = noSlotsAvailable
  /\ map zd_available (getZones noon0 (db w2)) = [1]
  /\ snd (createBooking env2 user2 (requestBy user2) w2)
     = ok_booking 1 "QR-5E6F7A8B".
Proof. vm_compute. repeat split. Qed.

Lemma createBooking_foreign_user_rejected_witness :
  let result := createBooking env1 user1 (requestBy user2) campus in
  snd result = failure 403 "Unauthorized"
  /\ bookings (db (fst result)) = bookings (db campus)
  /\ notifications (db (fst result)) = notifications (db campus)
  /\ sent (fst result) = sent campus
  /\ fst result = campus.
Proof.
  apply (createBooking_foreign_user_rejected env1 user1 (requestBy user2)).
  cbn. discriminate.
Defined.

(** ** Availability as reported *)

Lemma Zone_findById_id zs zid zone :
  Zone_findById zs zid = Some zone -> z_id zone = zid.
Proof.
  unfold Zone_findById. intro H. apply find_some in H.
  destruct H as [_ H]. apply Nat.eqb_eq. exact H.
Qed.

Lemma getZoneAvailability_found now d zid zone :
  Zone_findById (zones d) zid = Some zone ->
  getZoneAvailability now d zid
  = Some (mkZoneData (z_id zone) (totalSlots zone)
            (bookingsAvailable d zone now)).
Proof.
  intro H. unfold getZoneAvailability, bookingsAvailable. rewrite H.
  rewrite (Zone_findById_id _ _ _ H). reflexivity.
Qed.

Lemma getAvailability_found d zid zone queried :
  Zone_findById (zones d) zid = Some zone ->
  getAvailability d zid queried
  = Some (mkZoneData (z_id zone) (totalSlots zone)
            (bookingsAvailable d zone queried)).
Proof.
  intro H. unfold getAvailability, bookingsAvailable. rewrite H.
  rewrite (Zone_findById_id _ _ _ H). reflexivity.
Qed.

Lemma withoutEvents_available (d : DB) (zone : Zone) (queried today : Date) :
  claimedAvailable (withoutEvents d) zone queried today
  = bookingsAvailable d zone queried.
Proof.
  unfold claimedAvailable, bookingsAvailable. rewrite claimedBooked_count.
  unfold claimedAllocated, countActiveBookings.
  cbn [withoutEvents events bookings filter sumAllocated fold_right].
  f_equal. lia.
Qed.

(** C8, on the code. Of the three places that report an availability,
    only the zone listing reports the one of the claim: [totalSlots] less
    the bookings with status [active] dated today, less the allocations
    of the zone's events dated today or later whatever their day, not
    below 0. [getZoneAvailability] (the value of the [zone_update]
    broadcasts) and the per-date route report what the claim would give
    for a zone without events: wherever an allocation takes a slot that
    the bookings leave free they report more than the claim says. So on
    the campus whose zone "A" has one slot and one event with one
    allocated slot (the claim gives 0, the listing 0, the two others 1),
    and on the campus whose zone "B" has two slots, one booking today and
    an event a week later (again 0, 0 and 1, 1). None of the three is
    ever negative. *)
Theorem zone_updates_omit_event_allocations :
  (forall now d zone,
     zoneWithAvailability now d zone
     = mkZoneData (z_id zone) (totalSlots zone)
         (claimedAvailable d zone now now))
  /\ (forall now d zid zone,
        Zone_findById (zones d) zid = Some zone ->
        option_map zd_available (getZoneAvailability now d zid)
        = Some (claimedAvailable (withoutEvents d) zone now now)
        /\ forall queried today,
             option_map zd_available (getAvailability d zid queried)
             = Some (claimedAvailable (withoutEvents d) zone queried today))
  /\ (forall now d zid zone,
        Zone_findById (zones d) zid = Some zone ->
        0 < claimedAllocated d zid now ->
        claimedBooked d zid now < totalSlots zone ->
        exists reported,
          option_map zd_available (getZoneAvailability now d zid)
          = Some reported
          /\ option_map zd_available (getAvailability d zid now)
             = Some reported
          /\ claimedAvailable d zone now now < reported)
  /\ (let d := db (run (CreateEvent noon0 admin openDay) campus) in
      claimedBooked d 1 noon0 = 0
      /\ claimedAllocated d 1 noon0 = 1
      /\ claimedAvailable d zoneA noon0 noon0 = 0
      /\ map zd_available (getZones noon0 d) = [0]
      /\ option_map zd_available (getZoneAvailability noon0 d 1) = Some 1
      /\ option_map zd_available (getAvailability d 1 noon0) = Some 1)
  /\ (let d :=
        db (run (Reserve env1 user1 (requestB user1))
              (run (CreateEvent noon0 admin nextWeek) campusB)) in
      claimedBooked d 2 noon0 = 1
      /\ claimedAllocated d 2 noon0 = 1
      /\ claimedAvailable d zoneB noon0 noon0 = 0
      /\ map zd_available (getZones noon0 d) = [0]
      /\ option_map zd_available (getZoneAvailability noon0 d 2) = Some 1
      /\ option_map zd_available (getAvailability d 2 noon0) = Some 1)
  /\ (forall now d zd, In zd (getZones now d) -> 0 <= zd_available zd)
  /\ (forall now d zid zd,
        getZoneAvailability now d zid = Some zd -> 0 <= zd_available zd)
  /\ (forall d zid queried zd,
        getAvailability d zid queried = Some zd -> 0 <= zd_available zd).
Proof.
  assert (Hpaths : forall now d zid zone,
            Zone_findById (zones d) zid = Some zone ->
            option_map zd_available (getZoneAvailability now d zid)
            = Some (claimedAvailable (withoutEvents d) zone now now)
            /\ forall queried today,
                 option_map zd_available (getAvailability d zid queried)
                 = Some (claimedAvailable (withoutEvents d) zone queried
                           today)).
  { intros now d zid zone Hz. split.
    - rewrite (getZoneAvailability_found now d zid zone Hz).
      rewrite withoutEvents_available. reflexivity.
    - intros queried today.
      rewrite (getAvailability_found d zid zone queried Hz).
      rewrite withoutEvents_available. reflexivity. }
  split; [|split; [exact Hpaths|split]].
  - intros now d zone. unfold zoneWithAvailability, claimedAvailable.
    rewrite claimedBooked_count, claimedAllocated_total. reflexivity.
  - intros now d zid zone Hz Ha Hb.
    destruct (Hpaths now d zid zone Hz) as [Hbroadcast Hroute].
    exists (claimedAvailable (withoutEvents d) zone now now).
    split; [exact Hbroadcast|]. split; [apply Hroute|].
    rewrite withoutEvents_available.
    unfold claimedAvailable, bookingsAvailable.
    rewrite (Zone_findById_id _ _ _ Hz), <- claimedBooked_count. lia.
  - split; [vm_compute; repeat split|].
    split; [vm_compute; repeat split|].
    split; [|split].
    + intros now d zd H. unfold getZones in H. apply in_map_iff in H.
      destruct H as (zone & <- & _). cbn. apply Z.le_max_l.
    + intros now d zid zd. unfold getZoneAvailability.
      destruct (Zone_findById (zones d) zid); [|discriminate].
      intro H. injection H as <-. cbn. apply Z.le_max_l.
    + intros d zid queried zd. unfold getAvailability.
      destruct (Zone_findById (zones d) zid); [|discriminate].
      intro H. injection H as <-. cbn. apply Z.le_max_l.
Qed.

(** ** Check-in *)

(** What a successful check-in found and what it stored. *)
Lemma checkIn_succeeded now qr w :
  succeeded (snd (checkIn now qr w)) = true ->
  qr <> ""
  /\ exists id b,
       findOne (activeWithQR qr) (bookings (db w)) = Some (id, b)
       /\ checkInTime b = None
       /\ db (fst (checkIn now qr w))
          = Notification_create
              (mkNotification (userId b) "Check-in Successful"
                 ("You have checked in at " ++ zoneName b) n_success)
              (saveBooking id (withCheckInTime now b) (db w)).
Proof.
  unfold checkIn.
  destruct (String.eqb qr "") eqn:Eq; [discriminate|].
  apply String.eqb_neq in Eq.
  destruct (findOne (activeWithQR qr) (bookings (db w))) as [[id b]|];
    [|discriminate].
  destruct (checkInTime b) eqn:Et; [discriminate|].
  intros _. split; [exact Eq|]. exists id, b. rewrite Et. auto.
Qed.

(** C6, as the handler does it. Check-in succeeds exactly when the code is
    not empty and the first active booking carrying it has no check-in
    yet; a failed check-in changes nothing. On success that booking was
    active, gets [checkInTime] set to the time of the request, and stays
    [active]. *)
Theorem checkIn_sets_time_keeps_active (now : Date) (qr : string)
    (w : World) :
  let result := checkIn now qr w in
  (succeeded (snd result) = true <->
   qr <> ""
   /\ exists id b,
        findOne (activeWithQR qr) (bookings (db w)) = Some (id, b)
        /\ checkInTime b = None)
  /\ (succeeded (snd result) = false -> fst result = w)
  /\ (forall id b,
        findOne (activeWithQR qr) (bookings (db w)) = Some (id, b) ->
        succeeded (snd result) = true ->
        status b = active
        /\ Booking_findById (bookings (db (fst result))) id
           = Some (withCheckInTime now b)
        /\ checkInTime (withCheckInTime now b) = Some now
        /\ status (withCheckInTime now b) = active).
Proof.
  cbv zeta. unfold checkIn.
  destruct (String.eqb qr "") eqn:Eq.
  { apply String.eqb_eq in Eq. cbn [fst snd succeeded].
    split; [|split]; [|reflexivity|discriminate].
    split; [discriminate|]. intros [H _]. contradiction. }
  apply String.eqb_neq in Eq.
  destruct (findOne (activeWithQR qr) (bookings (db w))) as [[id b]|] eqn:Ef.
  2:{ cbn [fst snd succeeded]. split; [|split]; [|reflexivity|discriminate].
      split; [discriminate|]. intros (_ & id & b & H & _). discriminate. }
  destruct (findOne_found _ _ _ _ Ef) as [Hn Hq].
  unfold activeWithQR in Hq. apply andb_true_iff in Hq.
  destruct Hq as [_ Hs]. apply status_eqb_eq in Hs.
  destruct (checkInTime b) as [t|] eqn:Et; cbn [isSome fst snd succeeded].
  - split; [|split]; [|reflexivity|discriminate].
    split; [discriminate|].
    intros (_ & id' & b' & H & H'). injection H as <- <-. congruence.
  - split; [|split]; [|discriminate|].
    + split; [|reflexivity]. intros _. split; [exact Eq|].
      exists id, b. auto.
    + intros id' b' H _. injection H as <- <-.
      split; [exact Hs|]. split; [|split; [reflexivity|exact Hs]].
      unfold Booking_findById, broadcast, Notification_create, saveBooking.
      cbn [db bookings]. exact (nth_error_replaceAt id _ b _ Hn).
Qed.

(** C6 as stated fails: after the check-in of the booking of [user1] the
    request has succeeded and the status is still [active], not
    [checked_in]. *)
Lemma checkIn_status_not_checked_in :
  let w := run (Reserve env1 user1 (requestBy user1)) campus in
  let result := checkIn noon0 "QR-1A2B3C4D" w in
  succeeded (snd result) = true
  /\ option_map status (Booking_findById (bookings (db (fst result))) 0)
     = Some active
  /\ option_map checkInTime (Booking_findById (bookings (db (fst result))) 0)
     = Some (Some noon0)
  /\ option_map status (Booking_findById (bookings (db (fst result))) 0)
     <> Some checked_in.
Proof. vm_compute. repeat split. discriminate. Qed.

(** ** Cancellation *)

Lemma cancelBooking_succeeded now user id w :
  succeeded (snd (cancelBooking now user id w)) = true ->
  exists b n,
    Booking_findById (bookings (db w)) id = Some b
    /\ status b <> cancelled
    /\ db (fst (cancelBooking now user id w))
       = Notification_create n (saveBooking id (withStatus cancelled b) (db w)).
Proof.
  unfold cancelBooking.
  destruct (Booking_findById (bookings (db w)) id) as [b|];
    [|discriminate].
  destruct (negb (Nat.eqb (userId b) (u_id user))
            && negb (isAdmin (u_role user))); [discriminate|].
  destruct (status_eqb (status b) cancelled) eqn:Es; [discriminate|].
  destruct (getZoneAvailability now _ (zoneId b)); [|discriminate].
  intros _. eexists _, _. split; [reflexivity|]. split; [|reflexivity].
  intro H. apply status_eqb_eq in H. congruence.
Qed.






(** A cancel never raises or lowers the count of active bookings when the
    booking it names is not active: no slot is freed twice. *)
Lemma cancelBooking_inactive_counts now user id w b zid day :
  Booking_findById (bookings (db w)) id = Some b ->
  status b <> active ->
  countActiveBookings (db (fst (cancelBooking now user id w))) zid day
  = countActiveBookings (db w) zid day.
Proof.
  intros Hb Hs. unfold cancelBooking. rewrite Hb.
  destruct (negb (Nat.eqb (userId b) (u_id user))
            && negb (isAdmin (u_role user))); [reflexivity|].
  destruct (status_eqb (status b) cancelled); [reflexivity|].
  assert (H : countActiveBookings
                (Notification_create
                   (mkNotification (userId (withStatus cancelled b))
                      "Booking Cancelled"
                      ("Your parking slot at " ++ zoneName b
                       ++ " has been cancelled") n_warning)
                   (saveBooking id (withStatus cancelled b) (db w))) zid day
              = countActiveBookings (db w) zid day).
  { unfold countActiveBookings.
    cbn [Notification_create saveBooking bookings].
    rewrite (countDocuments_replaceAt _ id _ b _ Hb). unfold weight.
    rewrite (activeOn_inactive zid day b Hs).
    rewrite (activeOn_inactive zid day (withStatus cancelled b));
      [lia|discriminate]. }
  destruct (getZoneAvailability now _ (zoneId b)); exact H.
Qed.

(** C5, on the code: a booking that is [completed] (reserved, checked in,
    checked out) or [expired] (reserved, swept) is cancelled by its owner
    with a success answer; the status is overwritten by [cancelled] and a
    "Booking Cancelled" notification is stored. Only a booking that is
    already [cancelled] is refused. *)
Theorem cancel_of_terminal_booking_succeeds :
  let w1 := run (Reserve env1 user1 (requestBy user1)) campus in
  let done :=
    run (CheckOut (noon0 + msPerHour) "QR-1A2B3C4D")
      (run (CheckIn noon0 "QR-1A2B3C4D") w1) in
  let lapsed := run (ExpirySweep later0) w1 in
  let gone := run (Cancel noon0 user1 0) w1 in
  let statusOf x := option_map status (Booking_findById (bookings (db x)) 0) in
  let notes x := List.length (notifications (db x)) in
  (statusOf done = Some completed
   /\ snd (cancelBooking later0 user1 0 done)
      = ok_message "Booking cancelled successfully"
   /\ statusOf (fst (cancelBooking later0 user1 0 done)) = Some cancelled
   /\ notes (fst (cancelBooking later0 user1 0 done)) = S (notes done))
  /\ (statusOf lapsed = Some expired
      /\ snd (cancelBooking later0 user1 0 lapsed)
         = ok_message "Booking cancelled successfully"
      /\ statusOf (fst (cancelBooking later0 user1 0 lapsed)) = Some cancelled
      /\ notes (fst (cancelBooking later0 user1 0 lapsed)) = S (notes lapsed))
  /\ (statusOf gone = Some cancelled
      /\ cancelBooking later0 user1 0 gone = (gone, alreadyCancelled)).
Proof. vm_compute. repeat split. Qed.

(** ** Check-out *)

Lemma findOneFrom_replaceAt {A} (q : A -> bool) (k i : nat) (x x' : A)
    (c : list A) :
  findOneFrom q k c = Some (i, x) ->
  q x' = true ->
  findOneFrom q k (replaceAt (i - k) x' c) = Some (i, x').
Proof.
  revert k. induction c as [|z c IH]; intros k H Hq; cbn in H.
  - discriminate.
  - destruct (q z) eqn:Ez.
    + injection H as <- <-. rewrite Nat.sub_diag. cbn. rewrite Hq.
      reflexivity.
    + pose proof (findOneFrom_found q (S k) i x c H) as (Hle & _ & _).
      replace (i - k)%nat with (S (i - S k)) by lia.
      cbn. rewrite Ez. apply IH; assumption.
Qed.

(** A saved document that still matches is found again, at its place. *)
Lemma findOne_replaceAt {A} (q : A -> bool) (i : nat) (x x' : A)
    (c : list A) :
  findOne q c = Some (i, x) ->
  q x' = true ->
  findOne q (replaceAt i x' c) = Some (i, x').
Proof.
  intros H Hq. unfold findOne in *.
  pose proof (findOneFrom_replaceAt q 0 i x x' c H Hq) as H'.
  rewrite Nat.sub_0_r in H'. exact H'.
Qed.





(** ** The cleanup job *)

Lemma replaceAt_middle {A} (p c : list A) (x y : A) :
  replaceAt (List.length p) y (p ++ x :: c) = p ++ y :: c.
Proof. induction p as [|z p IH]; cbn; [reflexivity|]. rewrite IH. reflexivity. Qed.

Lemma expireBooking_keeps now b :
  userId (expireBooking now b) = userId b
  /\ zoneId (expireBooking now b) = zoneId b
  /\ zoneName (expireBooking now b) = zoneName b.
Proof.
  unfold expireBooking.
  destruct (isSome (checkInTime (withStatus expired b))
            && negb (isSome (checkOutTime (withStatus expired b))));
    [repeat split|].
  destruct (negb (isSome (checkInTime (withStatus expired b))));
    repeat split.
Qed.

Lemma bookingExpired_expireBooking now b :
  bookingExpired (expireBooking now b) = bookingExpired b.
Proof.
  unfold bookingExpired.
  destruct (expireBooking_keeps now b) as (-> & _ & ->). reflexivity.
Qed.

(** One turn of the loop, collection by collection. *)
Lemma expireOne_effect now w i b :
  zones (db (expireOne now w (i, b))) = zones (db w)
  /\ bookings (db (expireOne now w (i, b)))
     = replaceAt i (expireBooking now b) (bookings (db w))
  /\ notifications (db (expireOne now w (i, b)))
     = notifications (db w) ++ [bookingExpired b]
  /\ exists news,
       sent (expireOne now w (i, b)) = sent w ++ news
       /\ forall zone,
            Zone_findById (zones (db w)) (zoneId b) = Some zone ->
            exists a, news = [zone_update (zoneId b) a].
Proof.
  unfold expireOne. rewrite bookingExpired_expireBooking.
  destruct (expireBooking_keeps now b) as (_ & Hzid & _). rewrite Hzid.
  unfold getZoneAvailability, Notification_create, saveBooking. cbn [zones].
  destruct (Zone_findById (zones (db w)) (zoneId b)) as [zone|].
  - repeat (split; [reflexivity|]). eexists. split; [reflexivity|].
    intros zone' _. eexists. reflexivity.
  - repeat (split; [reflexivity|]). exists []. split.
    + cbn [sent]. rewrite app_nil_r. reflexivity.
    + intros zone' H. discriminate H.
Qed.

(** The bookings after the loop, when it runs over what [find] returned
    for the part [c] of the collection that follows [p]. *)
Lemma sweep_bookings_from now (c p : list Booking) (w : World) :
  bookings (db w) = p ++ c ->
  bookings (db (fold_left (expireOne now)
                  (findFrom (overdue now) (List.length p) c) w))
  = p ++ map (swept now) c.
Proof.
  revert p w. induction c as [|x c IH]; intros p w Hw; cbn [findFrom map].
  - exact Hw.
  - unfold swept at 1. destruct (overdue now x) eqn:E.
    + cbn [fold_left].
      destruct (expireOne_effect now w (List.length p) x) as (_ & Hb & _).
      rewrite Hw, replaceAt_middle in Hb.
      specialize (IH (p ++ [expireBooking now x])
                    (expireOne now w (List.length p, x))).
      rewrite length_app, Nat.add_1_r, <- !app_assoc in IH.
      apply IH. exact Hb.
    + specialize (IH (p ++ [x]) w).
      rewrite length_app, Nat.add_1_r, <- !app_assoc in IH.
      apply IH. exact Hw.
Qed.

(** The job rewrites exactly the overdue bookings. *)
Lemma expireOldBookings_bookings now w :
  bookings (db (expireOldBookings now w))
  = map (swept now) (bookings (db w)).
Proof.
  unfold expireOldBookings.
  exact (sweep_bookings_from now (bookings (db w)) [] w eq_refl).
Qed.

(** Notifications and broadcasts of the loop. *)
Lemma sweep_effects now (found : list (nat * Booking)) (w : World) :
  zones (db (fold_left (expireOne now) found w)) = zones (db w)
  /\ (exists notes,
        notifications (db (fold_left (expireOne now) found w))
        = notifications (db w) ++ notes
        /\ forall i b, In (i, b) found -> In (bookingExpired b) notes)
  /\ (exists news,
        sent (fold_left (expireOne now) found w) = sent w ++ news
        /\ forall i b zone,
             In (i, b) found ->
             Zone_findById (zones (db w)) (zoneId b) = Some zone ->
             exists a, In (zone_update (zoneId b) a) news).
Proof.
  revert w. induction found as [|[i b] found IH]; intro w; cbn [fold_left].
  - split; [reflexivity|]. split.
    + exists []. split; [symmetry; apply app_nil_r|]. intros i b [].
    + exists []. split; [symmetry; apply app_nil_r|]. intros i b zone [].
  - destruct (expireOne_effect now w i b)
      as (Hz & _ & Hn & news1 & Hs & Hnews1).
    destruct (IH (expireOne now w (i, b)))
      as (Hz' & (notes & Hn' & Hnotes) & (news & Hs' & Hnews)).
    split; [congruence|]. split.
    + exists (bookingExpired b :: notes). split.
      * rewrite Hn', Hn, <- app_assoc. reflexivity.
      * intros j b' [H|H]; [injection H as <- <-; left; reflexivity|].
        right. exact (Hnotes j b' H).
    + exists (news1 ++ news). split.
      * rewrite Hs', Hs, <- app_assoc. reflexivity.
      * intros j b' zone [H|H] Hzone.
        -- injection H as <- <-. destruct (Hnews1 zone Hzone) as [a ->].
           exists a. left. reflexivity.
        -- rewrite <- Hz in Hzone. destruct (Hnews j b' zone H Hzone) as [a Ha].
           exists a. apply in_or_app. right. exact Ha.
Qed.



(** ** Further runs *)

(** At the route, a request naming another user writes nothing either:
    it is stopped by the validation or by the ownership check. *)
Lemma postBookings_foreign_user trim env user req w :
  u_id user <> rq_userId req ->
  fst (postBookings trim env user req w) = w
  /\ succeeded (snd (postBookings trim env user req w)) = false.
Proof.
  intro H. unfold postBookings. cbv zeta.
  destruct (bookingValidation (sanitized trim req)).
  - rewrite (createBooking_outcome_foreign env user (sanitized trim req) w H).
    auto.
  - auto.
Qed.

(** The event handler measures a new allocation against the bookings
    dated now or later only: two events are each granted the one slot of
    zone "A". *)
Example two_events_one_slot :
  let w1 := run (CreateEvent noon0 admin openDay) campus in
  let w2 := run (CreateEvent noon0 admin openDay) w1 in
  succeeded (snd (createEvent noon0 admin openDay w1)) = true
  /\ totalEventSlots (db w2) 1 noon0 = 2
  /\ withinCapacityAt (db w2) zoneA noon0 = false.
Proof. vm_compute. repeat split. Qed.

(** A store without bookings is within capacity, and so is every store
    that the modelled mutations make of it. *)
Lemma no_bookings_within_capacity (d : DB) :
  bookings d = [] ->
  (forall zone, In zone (zones d) -> 1 <= totalSlots zone) ->
  bookingsWithinCapacity d.
Proof.
  intros Hb Hz zid day zone Hfind.
  unfold countActiveBookings. rewrite Hb, countDocuments_nil.
  unfold Zone_findById in Hfind. apply find_some in Hfind.
  specialize (Hz zone (proj1 Hfind)). lia.
Qed.

Lemma runAll_within_capacity (ms : list Mutation) (w : World) :
  bookingsWithinCapacity (db w) ->
  bookingsWithinCapacity (db (runAll ms w)).
Proof.
  unfold runAll. revert w.
  induction ms as [|m ms IH]; intros w H; cbn [fold_left].
  - exact H.
  - apply IH.
    destruct m as [env user req|now user req|now user id|now qr|now qr|now];
      cbn [run].
    + apply createBooking_within_capacity, H.
    + exact (frees_within_capacity _ _ (frees_createEvent _ _ _ _) H).
    + exact (frees_within_capacity _ _ (frees_cancelBooking _ _ _ _) H).
    + exact (frees_within_capacity _ _ (frees_checkIn _ _ _) H).
    + exact (frees_within_capacity _ _ (frees_checkOut _ _ _) H).
    + exact (frees_within_capacity _ _ (frees_expireOldBookings _ _) H).
Qed.

(** * Further properties *)

(** ** Reservations *)

Lemma storeFault_none (f : StoreFault) :
  storeFault_eqb f fault_booking_save = false
  /\ storeFault_eqb f fault_notification_create = false
  /\ storeFault_eqb f fault_commit = false
  <-> f = no_fault.
Proof.
  destruct f; cbn; split; intro H; try reflexivity; try discriminate;
    try (repeat split; reflexivity);
    destruct H as (H1 & H2 & H3); discriminate.
Qed.

Lemma existsb_qr_false (qr : string) (bs : list Booking) :
  existsb (fun b' => String.eqb (qrCode b') qr) bs = false
  <-> ~ In qr (map qrCode bs).
Proof.
  induction bs as [|b bs IH]; cbn.
  - split; [intros _ []|reflexivity].
  - rewrite orb_false_iff, IH. rewrite String.eqb_neq. tauto.
Qed.

(** What a committed reservation has passed. *)
Lemma createBooking_committed env user req w :
  succeeded (snd (createBooking env user req w)) = true ->
  u_id user = rq_userId req
  /\ exists zone v,
       Zone_findById (zones (db w)) (rq_zoneId req) = Some zone
       /\ includes (accessRules (u_role user)) (z_type zone) = true
       /\ findOne (ownActiveOn (rq_userId req) (rq_zoneId req) (rq_date req))
            (bookings (db w)) = None
       /\ countActiveBookings (db w) (rq_zoneId req) (rq_date req)
          < totalSlots zone
       /\ rq_vehicleNumber req = Some v /\ v <> ""
       /\ rq_zoneName req <> ""
       /\ ~ In (generateQRCode env) (map qrCode (bookings (db w)))
       /\ fault env = no_fault.
Proof.
  unfold createBooking, bookingTransaction, abortTransaction,
    startTransaction. cbn [view].
  destruct (Nat.eqb (u_id user) (rq_userId req)) eqn:Eu; cbn [negb];
    [|discriminate].
  apply Nat.eqb_eq in Eu.
  destruct (Zone_findById (zones (db w)) (rq_zoneId req)) as [zone|] eqn:Ez;
    [|discriminate].
  destruct (includes (accessRules (u_role user)) (z_type zone)) eqn:Ea;
    cbn [negb]; [|discriminate].
  destruct (findOne _ (bookings (db w))) as [dup|] eqn:Ed; [discriminate|].
  destruct (totalSlots zone <=? countActiveBookings (db w) (rq_zoneId req)
                                  (rq_date req)) eqn:Ec; [discriminate|].
  apply Z.leb_gt in Ec.
  unfold Booking_insert, Notification_insert, commitTransaction.
  cbn [view].
  destruct (storeFault_eqb (fault env) fault_booking_save) eqn:F1;
    [discriminate|].
  destruct (rq_vehicleNumber req) as [v|] eqn:Ev; [|discriminate].
  destruct (String.eqb v "") eqn:Ev'; [discriminate|].
  cbn [newBooking zoneName qrCode].
  destruct (String.eqb (rq_zoneName req) "") eqn:En; [discriminate|].
  destruct (existsb _ (bookings (db w))) eqn:Eq; [discriminate|].
  destruct (storeFault_eqb (fault env) fault_notification_create) eqn:F2;
    [discriminate|].
  destruct (storeFault_eqb (fault env) fault_commit) eqn:F3;
    [discriminate|].
  intros _. split; [exact Eu|]. exists zone, v.
  apply String.eqb_neq in Ev'. apply String.eqb_neq in En.
  apply existsb_qr_false in Eq.
  repeat (split; [assumption || reflexivity|]).
  apply storeFault_none. auto.
Qed.

(** X1. Zone access by role. Every role may book a [general] zone, only
    an admin may book an [event] zone, a student may not book a [staff]
    zone while staff may book a [student] zone. A request for a zone
    whose type is not among those of the caller's role is answered 403
    and leaves the server as it was. *)
Theorem createBooking_access_rules :
  (forall r, includes (accessRules r) zt_general = true)
  /\ (forall r, includes (accessRules r) zt_event = true <-> r = r_admin)
  /\ includes (accessRules r_student) zt_staff = false
  /\ includes (accessRules r_staff) zt_student = true
  /\ (forall env user req w zone,
        u_id user = rq_userId req ->
        Zone_findById (zones (db w)) (rq_zoneId req) = Some zone ->
        includes (accessRules (u_role user)) (z_type zone) = false ->
        fst (createBooking env user req w) = w
        /\ exists text,
             snd (createBooking env user req w) = failure 403 text).
Proof.
  split; [intros []; reflexivity|].
  split; [intros []; cbn; split; intro H; congruence|].
  split; [reflexivity|]. split; [reflexivity|].
  intros env user req w zone Hu Hz Ha. unfold createBooking, bookingTransaction.
  cbn [startTransaction view]. rewrite Hu, Nat.eqb_refl, Hz, Ha.
  cbn [negb fst snd abortTransaction]. split; [reflexivity|].
  eexists. reflexivity.
Qed.

(** X2. A reservation is committed exactly when: the caller is the user
    of the request, the zone is on record and open to the caller's role,
    the user holds no active booking for that zone and day, the active
    bookings of the day are below [totalSlots], the request carries a
    vehicle number and a zone name, the generated code is not in use and
    the store accepts the writes. *)
Theorem createBooking_succeeds_iff env user req w :
  succeeded (snd (createBooking env user req w)) = true <->
  (u_id user = rq_userId req
   /\ exists zone v,
        Zone_findById (zones (db w)) (rq_zoneId req) = Some zone
        /\ includes (accessRules (u_role user)) (z_type zone) = true
        /\ findOne (ownActiveOn (rq_userId req) (rq_zoneId req) (rq_date req))
             (bookings (db w)) = None
        /\ countActiveBookings (db w) (rq_zoneId req) (rq_date req)
           < totalSlots zone
        /\ rq_vehicleNumber req = Some v /\ v <> ""
        /\ rq_zoneName req <> ""
        /\ ~ In (generateQRCode env) (map qrCode (bookings (db w)))
        /\ fault env = no_fault).
Proof.
  split; [apply createBooking_committed|].
  intros (Hu & zone & v & Hz & Ha & Hd & Hc & Hv & Hv' & Hn & Hq & Hf).
  unfold createBooking, bookingTransaction, abortTransaction,
    startTransaction. cbn [view].
  rewrite Hu, Nat.eqb_refl, Hz, Ha, Hd. cbn [negb].
  apply Z.leb_gt in Hc. rewrite Hc.
  apply storeFault_none in Hf. destruct Hf as (F1 & F2 & F3).
  unfold Booking_insert, Notification_insert, commitTransaction.
  cbn [view]. rewrite F1, Hv.
  apply String.eqb_neq in Hv'. rewrite Hv'.
  cbn [newBooking zoneName qrCode].
  apply String.eqb_neq in Hn. rewrite Hn.
  apply existsb_qr_false in Hq. rewrite Hq, F2, F3. reflexivity.
Qed.

Lemma findOne_some_of_match {A} (q : A -> bool) (x : A) (c : list A) :
  In x c -> q x = true -> findOne q c <> None.
Proof.
  intros Hin Hq H. unfold findOne in H.
  rewrite findOneFrom_none in H. specialize (H x Hin). congruence.
Qed.

(** X3. One booking per user, zone and day. After a committed
    reservation, any further request of the same user for the same zone
    and a time on the same day is answered 400 "You already have an
    active booking ..." and changes nothing. *)
Theorem createBooking_twice_rejected env user req w w1 id qr env' req' :
  createBooking env user req w = (w1, ok_booking id qr) ->
  rq_userId req' = rq_userId req ->
  rq_zoneId req' = rq_zoneId req ->
  inDay (rq_date req) (rq_date req') = true ->
  createBooking env' user req' w1
  = (w1, failure 400
           "You already have an active booking for this zone on this date").
Proof.
  intros Hres Hu' Hz' Hday.
  destruct (createBooking_outcome env user req w)
    as [[_ Hf]|(zone & v & Hu & Hz & Ha & _ & _ & _ & Hw)].
  { rewrite Hres in Hf. discriminate. }
  rewrite Hres in Hw. injection Hw as Hw1 _ _.
  unfold createBooking, bookingTransaction, abortTransaction,
    startTransaction. cbn [view].
  rewrite Hu', Hu, Nat.eqb_refl. cbn [negb].
  rewrite Hz'. rewrite Hw1 at 1. cbn [db reservedStore zones].
  rewrite Hz, Ha. cbn [negb].
  destruct (findOne (ownActiveOn (rq_userId req) (rq_zoneId req)
                       (rq_date req')) (bookings (db w1)))
    as [dup|] eqn:Ed; [reflexivity|].
  exfalso. revert Ed.
  apply (findOne_some_of_match _ (newBooking env req v)).
  - rewrite Hw1. cbn [db reservedStore bookings].
    apply in_or_app. right. left. reflexivity.
  - unfold ownActiveOn, activeOn. cbn [newBooking userId zoneId status date].
    rewrite !Nat.eqb_refl.
    rewrite (inDay_same_window _ _ (rq_date req) Hday), inDay_refl.
    reflexivity.
Qed.

(** X4. The [zone_update] that follows a committed reservation carries
    the availability the per-date route reports right after it. *)
Theorem createBooking_broadcasts_new_availability env user req w w1 id qr :
  createBooking env user req w = (w1, ok_booking id qr) ->
  exists a,
    sent w1
    = sent w ++ [zone_update (rq_zoneId req) a;
                 booking_created (rq_userId req) (rq_zoneName req)]
    /\ option_map zd_available
         (getAvailability (db w1) (rq_zoneId req) (rq_date req))
       = Some a.
Proof.
  intro Hres.
  destruct (createBooking_outcome env user req w)
    as [[_ Hf]|(zone & v & _ & Hz & _ & _ & _ & _ & Hw)].
  { rewrite Hres in Hf. discriminate. }
  rewrite Hres in Hw. injection Hw as Hw1 _ _. subst w1.
  eexists. split; [reflexivity|]. cbn [db].
  assert (Hz1 : Zone_findById
                  (zones (reservedStore (db w) (newBooking env req v)
                            (bookingConfirmed req))) (rq_zoneId req)
                = Some zone) by exact Hz.
  rewrite (getAvailability_found _ _ zone _ Hz1).
  cbn [option_map zd_available]. unfold bookingsAvailable.
  rewrite (Zone_findById_id _ _ _ Hz).
  rewrite (countActive_after_reserve env req v (db w) _ _
             (inDay_refl (rq_date req))).
  reflexivity.
Qed.

(** ** What a write leaves in place *)

Lemma ages_refl b : ages b b.
Proof. unfold ages. repeat split; auto. Qed.

Lemma Forall2_ages_refl bs : Forall2 ages bs bs.
Proof. induction bs; constructor; auto using ages_refl. Qed.

Lemma Forall2_ages_replaceAt id b b' bs :
  nth_error bs id = Some b -> ages b b' ->
  Forall2 ages bs (replaceAt id b' bs).
Proof.
  revert id. induction bs as [|x bs IH]; intros [|id] Hn Ha; cbn in *;
    try discriminate.
  - injection Hn as ->. constructor; [exact Ha|apply Forall2_ages_refl].
  - constructor; [apply ages_refl|]. apply IH; assumption.
Qed.

Lemma Forall2_ages_map (f : Booking -> Booking) bs :
  (forall b, ages b (f b)) -> Forall2 ages bs (map f bs).
Proof. intro H. induction bs; cbn; constructor; auto. Qed.

Lemma Forall2_nth_error {A} (R : A -> A -> Prop) (l l' : list A) i x :
  Forall2 R l l' -> nth_error l i = Some x ->
  exists y, nth_error l' i = Some y /\ R x y.
Proof.
  intro H. revert i. induction H as [|a a' l l' Ha _ IH]; intros [|i] Hn;
    cbn in *; try discriminate.
  - injection Hn as ->. exists a'. auto.
  - apply IH. exact Hn.
Qed.

Lemma Forall2_ages_qrCodes bs bs' :
  Forall2 ages bs bs' -> map qrCode bs' = map qrCode bs.
Proof.
  induction 1 as [|b b' bs bs' Ha _ IH]; cbn; [reflexivity|].
  destruct Ha as (_ & _ & _ & -> & _). rewrite IH. reflexivity.
Qed.

Lemma rewrites_refl w : rewrites w w.
Proof.
  split; [apply Forall2_ages_refl|].
  repeat split; exists []; symmetry; apply app_nil_r.
Qed.

(** A handler that saves one aged booking and adds notifications and
    broadcasts. *)
Lemma rewrites_saved w w' id b b' :
  nth_error (bookings (db w)) id = Some b ->
  ages b b' ->
  bookings (db w') = replaceAt id b' (bookings (db w)) ->
  (exists ns, notifications (db w') = notifications (db w) ++ ns) ->
  (exists ms, sent w' = sent w ++ ms) ->
  events (db w') = events (db w) ->
  rewrites w w'.
Proof.
  intros Hn Ha Hb Hns Hms He. split; [|split; [exact Hns|split; [exact Hms|]]].
  - rewrite Hb. apply (Forall2_ages_replaceAt id b); assumption.
  - exists []. rewrite He. symmetry. apply app_nil_r.
Qed.

Ltac extends :=
  first [ exists []; symmetry; apply app_nil_r
        | eexists; cbn [db sent notifications events broadcast
                        Notification_create saveBooking];
          rewrite <- ?app_assoc; reflexivity ].

Lemma rewrites_writes w w' : rewrites w w' -> writes w w'.
Proof. intros (H & Hrest). split; [left; exact H|exact Hrest]. Qed.

Lemma writes_createBooking env user req w :
  writes w (fst (createBooking env user req w)).
Proof.
  destruct (createBooking_outcome env user req w)
    as [[Hw _]|(zone & v & _ & _ & _ & _ & _ & _ & Hw)].
  - rewrite Hw. apply rewrites_writes, rewrites_refl.
  - assert (Hok : succeeded (snd (createBooking env user req w)) = true)
      by (rewrite Hw; reflexivity).
    destruct (createBooking_committed env user req w Hok)
      as (_ & zone' & v' & _ & _ & _ & _ & _ & _ & _ & Hq & _).
    rewrite Hw. cbn [fst]. split; [|repeat split; extends].
    right. exists (newBooking env req v). cbn [db reservedStore bookings].
    repeat split. exact Hq.
Qed.

Lemma rewrites_createEvent now user req w :
  rewrites w (fst (createEvent now user req w)).
Proof.
  unfold createEvent, abortTransaction, startTransaction.
  destruct (negb (isAdmin (u_role user))); [apply rewrites_refl|].
  destruct (er_date req) as [edate|]; [|apply rewrites_refl].
  destruct (er_allocatedSlots req) as [n|]; [|apply rewrites_refl].
  destruct (String.eqb (er_name req) ""); [apply rewrites_refl|].
  destruct (n <=? 0); [apply rewrites_refl|].
  destruct (er_zoneId req) as [zid|].
  - destruct (Zone_findById _ zid) as [zone|]; [|apply rewrites_refl].
    destruct (_ <? n); [apply rewrites_refl|].
    cbn [fst]. split; [apply Forall2_ages_refl|].
    repeat split; first [extends | eexists; reflexivity].
  - cbn [fst]. split; [apply Forall2_ages_refl|].
    repeat split; first [extends | eexists; reflexivity].
Qed.

Lemma ages_cancelled b :
  status b <> cancelled -> ages b (withStatus cancelled b).
Proof.
  intro H. unfold ages. cbn. repeat split; auto. intro. contradiction.
Qed.

Lemma rewrites_cancelBooking now user id w :
  rewrites w (fst (cancelBooking now user id w)).
Proof.
  unfold cancelBooking. unfold Booking_findById.
  destruct (nth_error (bookings (db w)) id) as [b|] eqn:Hb;
    [|apply rewrites_refl].
  destruct (negb (Nat.eqb (userId b) (u_id user))
            && negb (isAdmin (u_role user))); [apply rewrites_refl|].
  destruct (status_eqb (status b) cancelled) eqn:Es; [apply rewrites_refl|].
  assert (Hs : status b <> cancelled).
  { intro H. apply status_eqb_eq in H. congruence. }
  destruct (getZoneAvailability now _ (zoneId b)); cbn [fst];
    apply (rewrites_saved _ _ id b (withStatus cancelled b) Hb
             (ages_cancelled b Hs)); first [reflexivity | extends].
Qed.

Lemma findOne_activeWithQR qr bs id b :
  findOne (activeWithQR qr) bs = Some (id, b) ->
  nth_error bs id = Some b /\ qrCode b = qr /\ status b = active.
Proof.
  intro H. destruct (findOne_found _ _ _ _ H) as [Hn Hq].
  unfold activeWithQR in Hq. apply andb_true_iff in Hq.
  destruct Hq as [Hc Hs]. apply String.eqb_eq in Hc.
  apply status_eqb_eq in Hs. auto.
Qed.

Lemma ages_active b b' :
  status b = active ->
  userId b' = userId b -> zoneId b' = zoneId b -> zoneName b' = zoneName b ->
  qrCode b' = qrCode b -> date b' = date b -> startTime b' = startTime b ->
  endTime b' = endTime b -> vehicleNumber b' = vehicleNumber b ->
  status b' = active \/ status b' = cancelled \/ status b' = completed
  \/ status b' = expired ->
  ages b b'.
Proof.
  intros Hs H1 H2 H3 H4 H5 H6 H7 H8 H9. unfold ages.
  repeat (split; [assumption|]). split.
  - destruct H9 as [H|[H|[H|H]]]; rewrite Hs; intuition congruence.
  - intro H. congruence.
Qed.

Lemma rewrites_checkIn now qr w : rewrites w (fst (checkIn now qr w)).
Proof.
  unfold checkIn.
  destruct (String.eqb qr ""); [apply rewrites_refl|].
  destruct (findOne (activeWithQR qr) (bookings (db w))) as [[id b]|] eqn:E;
    [|apply rewrites_refl].
  destruct (findOne_activeWithQR _ _ _ _ E) as (Hn & _ & Hs).
  destruct (isSome (checkInTime b)); [apply rewrites_refl|].
  cbn [fst].
  apply (rewrites_saved _ _ id b (withCheckInTime now b) Hn);
    first [reflexivity | extends | idtac].
  apply ages_active; auto.
Qed.

Lemma rewrites_checkOut now qr w : rewrites w (fst (checkOut now qr w)).
Proof.
  unfold checkOut.
  destruct (String.eqb qr ""); [apply rewrites_refl|].
  destruct (findOne (activeWithQR qr) (bookings (db w))) as [[id b]|] eqn:E;
    [|apply rewrites_refl].
  destruct (findOne_activeWithQR _ _ _ _ E) as (Hn & _ & Hs).
  destruct (negb (isSome (checkInTime b))); [apply rewrites_refl|].
  destruct (isSome (checkOutTime b)); [apply rewrites_refl|].
  assert (Ha : ages b (withStatus completed (withCheckOutTime now b))).
  { apply ages_active; cbn; auto. }
  destruct (getZoneAvailability now _ (zoneId b)); cbn [fst];
    apply (rewrites_saved _ _ id b _ Hn Ha); first [reflexivity | extends].
Qed.

Lemma ages_swept now b : ages b (swept now b).
Proof.
  unfold swept. destruct (overdue now b) eqn:E; [|apply ages_refl].
  unfold overdue in E. apply andb_true_iff in E. destruct E as [E _].
  apply orb_true_iff in E.
  assert (Hs : status b = active \/ status b = checked_in).
  { destruct E as [E|E]; apply status_eqb_eq in E; auto. }
  unfold ages. rewrite status_expireBooking.
  unfold expireBooking.
  destruct (isSome (checkInTime (withStatus expired b))
            && negb (isSome (checkOutTime (withStatus expired b))));
    [|destruct (negb (isSome (checkInTime (withStatus expired b))))];
    cbn; repeat split; auto;
    intro H; destruct Hs as [Hs|Hs]; congruence.
Qed.

Lemma rewrites_expireOldBookings now w : rewrites w (expireOldBookings now w).
Proof.
  split; [|split; [|split]].
  - rewrite expireOldBookings_bookings.
    apply Forall2_ages_map. apply ages_swept.
  - destruct (sweep_effects now
                (findFrom (overdue now) 0 (bookings (db w))) w)
      as (_ & (notes & Hn & _) & _). exists notes. exact Hn.
  - destruct (sweep_effects now
                (findFrom (overdue now) 0 (bookings (db w))) w)
      as (_ & _ & (news & Hs & _)). exists news. exact Hs.
  - exists []. unfold expireOldBookings. rewrite sweep_events.
    symmetry. apply app_nil_r.
Qed.

Lemma rewrites_extendBooking user id h w :
  rewrites w (fst (extendBooking user id h w)).
Proof.
  unfold extendBooking, Booking_findById.
  destruct (outOfRange h); [apply rewrites_refl|].
  destruct (nth_error (bookings (db w)) id) as [b|] eqn:Hb;
    [|apply rewrites_refl].
  destruct (negb (Nat.eqb (userId b) (u_id user))); [apply rewrites_refl|].
  destruct (status_eqb (status b) active) eqn:Es; cbn [negb];
    [|apply rewrites_refl].
  apply status_eqb_eq in Es.
  destruct (parseInt h) as [n|]; [|apply rewrites_refl]. cbn [fst].
  apply (rewrites_saved _ _ id b (withDuration (duration b + n) b) Hb);
    first [reflexivity | extends | idtac].
  apply ages_active; auto.
Qed.

Lemma rewrites_updateZone now user zid n w :
  rewrites w (fst (updateZone now user zid n w)).
Proof.
  unfold updateZone.
  destruct (negb (isAdmin (u_role user))); [apply rewrites_refl|].
  destruct (Zone_findById (zones (db w)) zid); [|apply rewrites_refl].
  destruct (n <? 1); [apply rewrites_refl|].
  destruct (getZoneAvailability now _ zid); cbn [fst];
    (split; [apply Forall2_ages_refl|repeat split; extends]).
Qed.

Lemma rewrites_deleteZone user zid w :
  rewrites w (fst (fst (deleteZone user zid w))).
Proof.
  unfold deleteZone.
  destruct (negb (isAdmin (u_role user))); [apply rewrites_refl|].
  destruct (0 <? _); [apply rewrites_refl|].
  cbn [fst]. split; [apply Forall2_ages_refl|repeat split; extends].
Qed.

(** Every write evolves the bookings and only adds to the rest. *)
Lemma writes_act (a : Action) (w : World) : writes w (act a w).
Proof.
  destruct a as [[env user req|now user req|now user id|now qr|now qr|now]
                |user id h|now user zid n|user zid]; cbn [act run].
  - apply writes_createBooking.
  - apply rewrites_writes, rewrites_createEvent.
  - apply rewrites_writes, rewrites_cancelBooking.
  - apply rewrites_writes, rewrites_checkIn.
  - apply rewrites_writes, rewrites_checkOut.
  - apply rewrites_writes, rewrites_expireOldBookings.
  - apply rewrites_writes, rewrites_extendBooking.
  - apply rewrites_writes, rewrites_updateZone.
  - apply rewrites_writes, rewrites_deleteZone.
Qed.

Lemma NoDup_snoc {A} (l : list A) (x : A) :
  NoDup l -> ~ In x l -> NoDup (l ++ [x]).
Proof.
  induction l as [|y l IH]; cbn; intros Hnd Hx.
  - constructor; [intros []|constructor].
  - inversion Hnd as [|y' l' Hy Hl]; subst. constructor.
    + intro Hin. apply in_app_or in Hin. destruct Hin as [Hin|[<-|[]]].
      * contradiction.
      * apply Hx. left. reflexivity.
    + apply IH; [exact Hl|]. intro Hin. apply Hx. right. exact Hin.
Qed.

Lemma evolves_find bs bs' id b :
  evolves bs bs' -> nth_error bs id = Some b ->
  exists b', nth_error bs' id = Some b' /\ ages b b'.
Proof.
  intros [H|(nb & -> & _)] Hn.
  - exact (Forall2_nth_error ages bs bs' id b H Hn).
  - exists b. split; [|apply ages_refl].
    rewrite nth_error_app1; [exact Hn|].
    apply nth_error_Some. congruence.
Qed.

(** X5. The codes stay unique: if no two stored bookings share a
    [qrCode], no write (reservation, event, cancel, check-in, check-out,
    sweep, extension, zone update, zone deletion) makes two share one. *)
Theorem act_keeps_qrCodes_unique (a : Action) (w : World) :
  uniqueQRCodes (db w) -> uniqueQRCodes (db (act a w)).
Proof.
  unfold uniqueQRCodes. intro H.
  destruct (writes_act a w) as ([Hages|(nb & Hbs & _ & _ & Hfresh)] & _).
  - rewrite (Forall2_ages_qrCodes _ _ Hages). exact H.
  - rewrite Hbs, map_app. cbn [map]. apply NoDup_snoc; assumption.
Qed.

(** X6. No write deletes a booking or moves it to another user, zone, day
    or code: the booking stored under an id is still stored under it
    afterwards, with the same user, zone, zone name, code, date, start and
    end time and vehicle number. *)
Theorem act_keeps_booking_identity (a : Action) (w : World)
    (id : ObjectId) (b : Booking) :
  Booking_findById (bookings (db w)) id = Some b ->
  exists b',
    Booking_findById (bookings (db (act a w))) id = Some b'
    /\ userId b' = userId b /\ zoneId b' = zoneId b
    /\ zoneName b' = zoneName b /\ qrCode b' = qrCode b
    /\ date b' = date b /\ startTime b' = startTime b
    /\ endTime b' = endTime b /\ vehicleNumber b' = vehicleNumber b.
Proof.
  unfold Booking_findById. intro Hn.
  destruct (writes_act a w) as (Hev & _).
  destruct (evolves_find _ _ id b Hev Hn) as (b' & Hn' & Ha).
  exists b'. split; [exact Hn'|].
  destruct Ha as (H1 & H2 & H3 & H4 & H5 & H6 & H7 & H8 & _).
  repeat split; assumption.
Qed.

(** X7. The life of a booking runs one way. Across any write, a booking
    that is [active] afterwards was [active] before; a [cancelled]
    booking is left exactly as it is; and a status only stays, or becomes
    [cancelled], or goes from [active] to [completed], or from [active]
    or [checked_in] to [expired]. *)
Theorem act_never_reactivates (a : Action) (w : World)
    (id : ObjectId) (b : Booking) :
  Booking_findById (bookings (db w)) id = Some b ->
  exists b',
    Booking_findById (bookings (db (act a w))) id = Some b'
    /\ (status b' = active -> status b = active)
    /\ (status b = cancelled -> b' = b)
    /\ (status b' = status b \/ status b' = cancelled
        \/ (status b = active /\ status b' = completed)
        \/ ((status b = active \/ status b = checked_in)
            /\ status b' = expired)).
Proof.
  unfold Booking_findById. intro Hn.
  destruct (writes_act a w) as (Hev & _).
  destruct (evolves_find _ _ id b Hev Hn) as (b' & Hn' & Ha).
  exists b'. split; [exact Hn'|].
  destruct Ha as (_ & _ & _ & _ & _ & _ & _ & _ & Hs & Hc).
  split; [|split; [exact Hc|exact Hs]].
  intro Hact. destruct Hs as [Hs|[Hs|[[_ Hs]|[_ Hs]]]]; congruence.
Qed.

(** An event request adds its event at the end of the collection, or
    nothing. *)
Lemma createEvent_events now user req w :
  events (db (fst (createEvent now user req w))) = events (db w)
  \/ exists e,
       snd (createEvent now user req w) = ok_event e
       /\ events (db (fst (createEvent now user req w)))
          = events (db w) ++ [e].
Proof.
  unfold createEvent, abortTransaction, startTransaction.
  destruct (negb (isAdmin (u_role user))); [left; reflexivity|].
  destruct (er_date req) as [edate|]; [|left; reflexivity].
  destruct (er_allocatedSlots req) as [n|]; [|left; reflexivity].
  destruct (String.eqb (er_name req) ""); [left; reflexivity|].
  destruct (n <=? 0); [left; reflexivity|].
  destruct (er_zoneId req) as [zid|].
  - destruct (Zone_findById _ zid) as [zone|]; [|left; reflexivity].
    destruct (_ <? n); [left; reflexivity|].
    right. eexists. split; reflexivity.
  - right. eexists. split; reflexivity.
Qed.

(** The other writes leave the events as they are. *)
Lemma act_events (a : Action) (w : World) :
  (forall now user req, a <> Core (CreateEvent now user req)) ->
  events (db (act a w)) = events (db w).
Proof.
  intro Ha.
  destruct a as [[env user req|now user req|now user id|now qr|now qr|now]
                |user id h|now user zid n|user zid]; cbn [act run].
  - destruct (createBooking_outcome env user req w)
      as [[Hw _]|(zone & v & _ & _ & _ & _ & _ & _ & Hw)];
      rewrite Hw; reflexivity.
  - exfalso. exact (Ha now user req eq_refl).
  - exact (proj1 (run_releases (Cancel now user id) w eq_refl)).
  - exact (proj1 (run_releases (CheckIn now qr) w eq_refl)).
  - exact (proj1 (run_releases (CheckOut now qr) w eq_refl)).
  - exact (proj1 (run_releases (ExpirySweep now) w eq_refl)).
  - unfold extendBooking.
    destruct (outOfRange h); [reflexivity|].
    destruct (Booking_findById (bookings (db w)) id) as [b|];
      [|reflexivity].
    destruct (negb (Nat.eqb (userId b) (u_id user))); [reflexivity|].
    destruct (negb (status_eqb (status b) active)); [reflexivity|].
    destruct (parseInt h); reflexivity.
  - unfold updateZone.
    destruct (negb (isAdmin (u_role user))); [reflexivity|].
    destruct (Zone_findById (zones (db w)) zid); [|reflexivity].
    destruct (n <? 1); [reflexivity|].
    destruct (getZoneAvailability now _ zid); reflexivity.
  - unfold deleteZone.
    destruct (negb (isAdmin (u_role user))); [reflexivity|].
    destruct (0 <? _); reflexivity.
Qed.

(** X8. What the booking handlers (creation, cancellation, extension,
    check-in, check-out), the cleanup job, event creation, zone update
    and zone deletion leave of the other collections. Each of them only
    adds to the stored notifications and to the broadcast log, which
    start afterwards with what they were. None of them rewrites or
    removes a stored event: the events are afterwards what they were,
    unless the write is an event creation that succeeded, which has put
    its one event at the end. (The routes that rewrite and remove events,
    PATCH and DELETE /api/events/:eventId, are not among these.) *)
Theorem act_only_appends (a : Action) (w : World) :
  (exists ns, notifications (db (act a w)) = notifications (db w) ++ ns)
  /\ (exists ms, sent (act a w) = sent w ++ ms)
  /\ (events (db (act a w)) = events (db w)
      \/ exists now user req e,
           a = Core (CreateEvent now user req)
           /\ snd (createEvent now user req w) = ok_event e
           /\ events (db (act a w)) = events (db w) ++ [e]).
Proof.
  destruct (writes_act a w) as (_ & Hn & Hs & _).
  split; [exact Hn|]. split; [exact Hs|].
  destruct a as [[env user req|now user req|now user id|now qr|now qr|now]
                |user id h|now user zid n|user zid];
    try (left; apply act_events; intros; discriminate).
  cbn [act run].
  destruct (createEvent_events now user req w) as [H|(e & He & H)];
    [left; exact H|].
  right. exists now, user, req, e. auto.
Qed.

(** ** Cancellation, again *)

Lemma cancelBooking_authorized now user id w b zone :
  Booking_findById (bookings (db w)) id = Some b ->
  userId b = u_id user \/ u_role user = r_admin ->
  status b <> cancelled ->
  Zone_findById (zones (db w)) (zoneId b) = Some zone ->
  snd (cancelBooking now user id w)
  = ok_message "Booking cancelled successfully".
Proof.
  intros Hb Hu Hs Hz. unfold cancelBooking. rewrite Hb.
  assert (Hauth : negb (Nat.eqb (userId b) (u_id user))
                  && negb (isAdmin (u_role user)) = false).
  { destruct Hu as [Hu|Hu].
    - rewrite Hu, Nat.eqb_refl. reflexivity.
    - rewrite Hu. apply andb_false_r. }
  rewrite Hauth.
  destruct (status_eqb (status b) cancelled) eqn:Es.
  { apply status_eqb_eq in Es. contradiction. }
  unfold getZoneAvailability, Notification_create, saveBooking.
  cbn [zones]. rewrite Hz. reflexivity.
Qed.

(** X9. Who may cancel. A caller who is neither the owner of the booking
    nor an admin is answered 403 and nothing changes; the owner, and an
    admin for any user's booking, cancel a booking that is not yet
    cancelled and whose zone is on record. *)
Theorem cancelBooking_authorization now user id w b :
  Booking_findById (bookings (db w)) id = Some b ->
  (userId b <> u_id user -> u_role user <> r_admin ->
   cancelBooking now user id w = (w, failure 403 "Unauthorized"))
  /\ (userId b = u_id user \/ u_role user = r_admin ->
      status b <> cancelled ->
      Zone_findById (zones (db w)) (zoneId b) <> None ->
      snd (cancelBooking now user id w)
      = ok_message "Booking cancelled successfully"
      /\ option_map status
           (Booking_findById
              (bookings (db (fst (cancelBooking now user id w)))) id)
         = Some cancelled).
Proof.
  intro Hb. split.
  - intros Hu Hr. unfold cancelBooking. rewrite Hb.
    apply Nat.eqb_neq in Hu. rewrite Hu.
    destruct (u_role user); try contradiction; reflexivity.
  - intros Hu Hs Hz.
    destruct (Zone_findById (zones (db w)) (zoneId b)) as [zone|] eqn:Ez;
      [|contradiction].
    pose proof (cancelBooking_authorized now user id w b zone Hb Hu Hs Ez)
      as Hok.
    split; [exact Hok|].
    destruct (cancelBooking_succeeded now user id w)
      as (b0 & n & Hb0 & _ & Hdb); [rewrite Hok; reflexivity|].
    assert (b0 = b) by congruence. subst b0.
    rewrite Hdb. unfold Booking_findById in *.
    cbn [Notification_create saveBooking bookings].
    rewrite (nth_error_replaceAt _ _ b _ Hb). reflexivity.
Qed.

(** X10. A booking is cancelled once. After a cancel that succeeded, a
    second cancel of the same booking changes nothing: the owner and an
    admin are answered 400 "Booking already cancelled", anyone else
    403. *)
Theorem cancelBooking_twice_rejected now user id w b now' user' :
  Booking_findById (bookings (db w)) id = Some b ->
  succeeded (snd (cancelBooking now user id w)) = true ->
  let w1 := fst (cancelBooking now user id w) in
  fst (cancelBooking now' user' id w1) = w1
  /\ (userId b = u_id user' \/ u_role user' = r_admin ->
      snd (cancelBooking now' user' id w1) = alreadyCancelled)
  /\ (userId b <> u_id user' -> u_role user' <> r_admin ->
      snd (cancelBooking now' user' id w1) = failure 403 "Unauthorized").
Proof.
  intros Hb Hok. cbv zeta.
  destruct (cancelBooking_succeeded now user id w Hok)
    as (b0 & n & Hb0 & _ & Hdb).
  assert (b0 = b) by congruence. subst b0.
  assert (Hb1 : Booking_findById
                  (bookings (db (fst (cancelBooking now user id w)))) id
                = Some (withStatus cancelled b)).
  { rewrite Hdb. unfold Booking_findById in *.
    cbn [Notification_create saveBooking bookings].
    exact (nth_error_replaceAt _ _ b _ Hb). }
  set (w1 := fst (cancelBooking now user id w)) in *.
  unfold cancelBooking at 1 2 3. rewrite Hb1.
  cbn [withStatus userId status status_eqb].
  destruct (negb (Nat.eqb (userId b) (u_id user'))
            && negb (isAdmin (u_role user'))) eqn:Eauth;
    cbn [fst snd]; (split; [reflexivity|]); split.
  - intros [Hu|Hr].
    + rewrite Hu, Nat.eqb_refl in Eauth. discriminate.
    + rewrite Hr, andb_false_r in Eauth. discriminate.
  - reflexivity.
  - reflexivity.
  - intros Hu Hr. apply Nat.eqb_neq in Hu. rewrite Hu in Eauth.
    destruct (u_role user'); try contradiction; discriminate.
Qed.

(** ** Check-in and check-out, again *)

(** X11. One check-in per booking. After a check-in that succeeded, a
    second check-in with the same code is answered 400 "Already checked
    in" and changes nothing. *)
Theorem checkIn_twice_rejected t1 t2 qr w :
  succeeded (snd (checkIn t1 qr w)) = true ->
  checkIn t2 qr (fst (checkIn t1 qr w))
  = (fst (checkIn t1 qr w), failure 400 "Already checked in").
Proof.
  intro Hok.
  destruct (checkIn_succeeded t1 qr w Hok)
    as (Hqr & id & b & Hf & _ & Hdb).
  pose proof (findOne_found _ _ _ _ Hf) as [_ Hq].
  set (w1 := fst (checkIn t1 qr w)) in *.
  assert (Hf1 : findOne (activeWithQR qr) (bookings (db w1))
                = Some (id, withCheckInTime t1 b)).
  { rewrite Hdb. cbn [Notification_create saveBooking bookings].
    apply (findOne_replaceAt _ id b); [exact Hf|exact Hq]. }
  unfold checkIn at 1. apply String.eqb_neq in Hqr.
  rewrite Hqr, Hf1. reflexivity.
Qed.

Lemma availability_ext (d d' : DB) :
  zones d' = zones d ->
  events d' = events d ->
  (forall zid day,
     countActiveBookings d' zid day = countActiveBookings d zid day) ->
  (forall now, getZones now d' = getZones now d)
  /\ (forall now zid,
        getZoneAvailability now d' zid = getZoneAvailability now d zid)
  /\ (forall zid day, getAvailability d' zid day = getAvailability d zid day).
Proof.
  intros Hz He Hc. split; [|split].
  - intro now. unfold getZones, zoneWithAvailability, totalEventSlots.
    rewrite Hz, He. apply map_ext. intro zone. rewrite Hc. reflexivity.
  - intros now zid. unfold getZoneAvailability. rewrite Hz, Hc. reflexivity.
  - intros zid day. unfold getAvailability. rewrite Hz, Hc. reflexivity.
Qed.

(** X12. A check-in does not free or take a slot: whatever its answer,
    the zone listing, [getZoneAvailability] and the per-date route report
    after it what they reported before. *)
Theorem checkIn_keeps_availability t qr w :
  let w1 := fst (checkIn t qr w) in
  (forall now, getZones now (db w1) = getZones now (db w))
  /\ (forall now zid,
        getZoneAvailability now (db w1) zid
        = getZoneAvailability now (db w) zid)
  /\ (forall zid day,
        getAvailability (db w1) zid day = getAvailability (db w) zid day).
Proof.
  cbv zeta. unfold checkIn.
  destruct (String.eqb qr ""); [repeat split|].
  destruct (findOne (activeWithQR qr) (bookings (db w))) as [[id b]|] eqn:E;
    [|repeat split].
  destruct (isSome (checkInTime b)); [repeat split|].
  destruct (findOne_found _ _ _ _ E) as [Hn _].
  apply availability_ext; try reflexivity.
  intros zid day. unfold countActiveBookings.
  cbn [fst db broadcast Notification_create saveBooking bookings].
  rewrite (countDocuments_replaceAt _ id _ b _ Hn). unfold weight.
  change (activeOn zid day (withCheckInTime t b)) with (activeOn zid day b).
  lia.
Qed.

Lemma In_replaceAt {A} (i : nat) (x y : A) (c : list A) :
  In y (replaceAt i x c) ->
  y = x \/ exists j, j <> i /\ nth_error c j = Some y.
Proof.
  revert i. induction c as [|z c IH]; intros [|i] H; cbn in H;
    try contradiction.
  - destruct H as [<-|H]; [left; reflexivity|].
    right. apply In_nth_error in H. destruct H as [j Hj].
    exists (S j). split; [discriminate|exact Hj].
  - destruct H as [<-|H].
    + right. exists 0%nat. split; [discriminate|reflexivity].
    + destruct (IH i H) as [->|(j & Hj & Hn)]; [left; reflexivity|].
      right. exists (S j). split; [congruence|exact Hn].
Qed.

Lemma unique_qrCode_at bs i j b x :
  NoDup (map qrCode bs) ->
  nth_error bs i = Some b -> nth_error bs j = Some x -> j <> i ->
  qrCode x <> qrCode b.
Proof.
  intros Hnd Hi Hj Hne Heq.
  apply Hne.
  apply (proj1 (NoDup_nth_error (map qrCode bs)) Hnd).
  - rewrite length_map. apply nth_error_Some. congruence.
  - rewrite !nth_error_map, Hi, Hj. cbn. congruence.
Qed.

(** X13. A completed booking's code is spent. With the codes unique, after
    a check-out that succeeded, a check-in and a check-out with that code
    are both answered 404 "Invalid QR code or booking not active" and
    change nothing. *)
Theorem checkOut_spends_code t qr w t' :
  uniqueQRCodes (db w) ->
  snd (checkOut t qr w) = ok_message "Check-out successful" ->
  let w1 := fst (checkOut t qr w) in
  checkIn t' qr w1 = (w1, notActive)
  /\ checkOut t' qr w1 = (w1, notActive).
Proof.
  intros Hu Hok. cbv zeta.
  assert (Hnone : qr <> ""
                  /\ findOne (activeWithQR qr)
                       (bookings (db (fst (checkOut t qr w)))) = None).
  { revert Hok. unfold checkOut.
    destruct (String.eqb qr "") eqn:Eq; [discriminate|].
    apply String.eqb_neq in Eq.
    destruct (findOne (activeWithQR qr) (bookings (db w)))
      as [[id b]|] eqn:E; [|discriminate].
    destruct (negb (isSome (checkInTime b))); [discriminate|].
    destruct (isSome (checkOutTime b)); [discriminate|].
    destruct (findOne_activeWithQR _ _ _ _ E) as (Hn & Hqr & _).
    destruct (getZoneAvailability t _ (zoneId b)); [|discriminate].
    intros _. split; [exact Eq|].
    cbn [fst db broadcast Notification_create saveBooking bookings].
    apply findOneFrom_none. intros x Hin.
    apply In_replaceAt in Hin. destruct Hin as [->|(j & Hj & Hx)].
    - unfold activeWithQR. cbn. apply andb_false_r.
    - unfold activeWithQR.
      pose proof (unique_qrCode_at _ id j b x Hu Hn Hx Hj) as Hne.
      rewrite Hqr in Hne. apply String.eqb_neq in Hne. rewrite Hne.
      reflexivity. }
  destruct Hnone as [Hqr Hnone]. apply String.eqb_neq in Hqr.
  set (w1 := fst (checkOut t qr w)) in *.
  unfold checkIn, checkOut. rewrite Hqr, Hnone. auto.
Qed.

(** ** The cleanup job, again *)

Lemma findFrom_nothing {A} (q : A -> bool) (k : nat) (c : list A) :
  (forall x, In x c -> q x = false) -> findFrom q k c = [].
Proof.
  revert k. induction c as [|x c IH]; intros k H; cbn; [reflexivity|].
  rewrite (H x (or_introl eq_refl)). apply IH. intros y Hy. apply H.
  right. exact Hy.
Qed.

Lemma findFrom_documents {A} (q : A -> bool) (k : nat) (c : list A) :
  map snd (findFrom q k c) = filter q c.
Proof.
  revert k. induction c as [|x c IH]; intro k; cbn; [reflexivity|].
  destruct (q x); cbn; rewrite IH; reflexivity.
Qed.

Lemma overdue_swept now now' b :
  now' <= now -> overdue now' (swept now b) = false.
Proof.
  intro Hle. unfold swept. destruct (overdue now b) eqn:E.
  - unfold overdue. rewrite status_expireBooking. reflexivity.
  - unfold overdue in *. destruct (endTime b) as [t|];
      [|apply andb_false_r].
    apply andb_false_iff in E. apply andb_false_iff.
    destruct E as [E|E]; [left; exact E|right].
    apply Z.ltb_ge in E. apply Z.ltb_ge. lia.
Qed.

(** X14. The job is done once. After a run at time [now], a run at the
    same or an earlier time finds nothing overdue: it changes no booking,
    stores no notification and sends no broadcast. *)
Theorem expireOldBookings_idempotent now now' w :
  now' <= now ->
  expireOldBookings now' (expireOldBookings now w) = expireOldBookings now w.
Proof.
  intro Hle. unfold expireOldBookings at 1.
  rewrite expireOldBookings_bookings.
  rewrite findFrom_nothing; [reflexivity|].
  intros x Hin. apply in_map_iff in Hin. destruct Hin as (b & <- & _).
  apply overdue_swept. exact Hle.
Qed.

Lemma sweep_notifications now (found : list (nat * Booking)) (w : World) :
  notifications (db (fold_left (expireOne now) found w))
  = notifications (db w) ++ map bookingExpired (map snd found).
Proof.
  revert w. induction found as [|[i b] found IH]; intro w; cbn [fold_left map].
  - symmetry. apply app_nil_r.
  - rewrite IH. destruct (expireOne_effect now w i b) as (_ & _ & Hn & _).
    rewrite Hn, <- app_assoc. reflexivity.
Qed.

(** X15. The job touches the overdue bookings only. It stores one
    "Booking Expired" notification per overdue booking, in the order of
    the collection; a booking that is not overdue is left as it is; and
    when nothing is overdue, the server is left as it is. *)
Theorem expireOldBookings_footprint now w :
  notifications (db (expireOldBookings now w))
  = notifications (db w)
    ++ map bookingExpired (filter (overdue now) (bookings (db w)))
  /\ (forall id b,
        Booking_findById (bookings (db w)) id = Some b ->
        overdue now b = false ->
        Booking_findById (bookings (db (expireOldBookings now w))) id
        = Some b)
  /\ ((forall b, In b (bookings (db w)) -> overdue now b = false) ->
      expireOldBookings now w = w).
Proof.
  split; [|split].
  - unfold expireOldBookings.
    rewrite sweep_notifications, findFrom_documents. reflexivity.
  - intros id b Hb Ho. unfold Booking_findById in *.
    rewrite expireOldBookings_bookings, nth_error_map, Hb.
    cbn [option_map]. unfold swept. rewrite Ho. reflexivity.
  - intro H. unfold expireOldBookings.
    rewrite (findFrom_nothing _ _ _ H). reflexivity.
Qed.

(** ** Who lowers the availability *)

Lemma frees_extendBooking user id h w :
  frees (db w) (db (fst (extendBooking user id h w))).
Proof.
  unfold extendBooking, Booking_findById.
  destruct (outOfRange h); [apply frees_refl|].
  destruct (nth_error (bookings (db w)) id) as [b|] eqn:Hb;
    [|apply frees_refl].
  destruct (negb (Nat.eqb (userId b) (u_id user))); [apply frees_refl|].
  destruct (negb (status_eqb (status b) active)); [apply frees_refl|].
  destruct (parseInt h) as [n|]; [|apply frees_refl].
  cbn [fst db broadcast].
  eapply frees_trans; [|apply frees_notification].
  apply (frees_save_same id b); [exact Hb|reflexivity].
Qed.

Lemma frees_act a w :
  mayTakeSlots a = false -> frees (db w) (db (act a w)).
Proof.
  destruct a as [[env user req|now user req|now user id|now qr|now qr|now]
                |user id h|now user zid n|user zid]; cbn [mayTakeSlots act run];
    intro H; try discriminate H.
  - apply frees_createEvent.
  - apply frees_cancelBooking.
  - apply frees_checkIn.
  - apply frees_checkOut.
  - apply frees_expireOldBookings.
  - apply frees_extendBooking.
Qed.

(** X16. Only a reservation, or the administration of zones, can lower
    what the per-date availability route and [getZoneAvailability] report
    for a zone: after an event creation, a cancel, a check-in, a
    check-out, a sweep or an extension, each reports at least what it
    reported before. *)
Theorem availability_lowered_by_reserve_only a w zid day za :
  mayTakeSlots a = false ->
  getAvailability (db w) zid day = Some za ->
  exists za',
    getAvailability (db (act a w)) zid day = Some za'
    /\ getZoneAvailability day (db (act a w)) zid = Some za'
    /\ zd_available za <= zd_available za'.
Proof.
  intros Ha Hbefore. destruct (frees_act a w Ha) as [Hz Hc].
  unfold getAvailability, getZoneAvailability in *. rewrite Hz.
  destruct (Zone_findById (zones (db w)) zid) as [zone|]; [|discriminate].
  injection Hbefore as <-. eexists. split; [reflexivity|].
  split; [reflexivity|]. cbn [zd_available]. specialize (Hc zid day). lia.
Qed.

(** ** Events and administration *)

(** X17. An event is created whole or not at all, and within bounds. A
    request that is refused leaves the server as it was. A committed one
    comes from an admin and adds exactly one event, with at least one
    slot; if it names a zone, the zone is on record and the allocation is
    at most [totalSlots] less the zone's active bookings dated now or
    later. Bookings, zones and notifications are untouched. *)
Theorem createEvent_allocation_bounds now user req w :
  let result := createEvent now user req w in
  (succeeded (snd result) = false -> fst result = w)
  /\ (succeeded (snd result) = true ->
      u_role user = r_admin
      /\ exists e,
           snd result = ok_event e
           /\ events (db (fst result)) = events (db w) ++ [e]
           /\ bookings (db (fst result)) = bookings (db w)
           /\ zones (db (fst result)) = zones (db w)
           /\ notifications (db (fst result)) = notifications (db w)
           /\ 1 <= allocatedSlots e
           /\ e_zoneId e = er_zoneId req
           /\ forall zid,
                er_zoneId req = Some zid ->
                exists zone,
                  Zone_findById (zones (db w)) zid = Some zone
                  /\ allocatedSlots e
                     <= totalSlots zone
                        - countDocuments (activeFrom zid now)
                            (bookings (db w))
                  /\ allocatedSlots e <= totalSlots zone).
Proof.
  cbv zeta. unfold createEvent, abortTransaction, startTransaction.
  destruct (u_role user) eqn:Er; cbn [isAdmin negb];
    try (split; [reflexivity|discriminate]).
  destruct (er_date req) as [edate|];
    [|split; [reflexivity|discriminate]].
  destruct (er_allocatedSlots req) as [n|];
    [|split; [reflexivity|discriminate]].
  destruct (String.eqb (er_name req) "");
    [split; [reflexivity|discriminate]|].
  destruct (n <=? 0) eqn:En; [split; [reflexivity|discriminate]|].
  apply Z.leb_gt in En.
  destruct (er_zoneId req) as [zid|] eqn:Ez.
  - destruct (Zone_findById (zones (view (mkSession (db w)))) zid)
      as [zone|] eqn:Ezone; [|split; [reflexivity|discriminate]].
    destruct (Z.max 0 (totalSlots zone - _) <? n) eqn:Ea;
      [split; [reflexivity|discriminate]|].
    apply Z.ltb_ge in Ea. cbn [fst snd succeeded].
    split; [discriminate|]. intros _. split; [reflexivity|].
    eexists. split; [reflexivity|]. cbn.
    repeat (split; [reflexivity || lia|]).
    intros zid' H. injection H as <-. exists zone.
    split; [exact Ezone|].
    pose proof (countDocuments_nonneg (activeFrom zid now)
                  (bookings (db w))) as Hnn.
    cbn [view] in Ea. lia.
  - cbn [fst snd succeeded]. split; [discriminate|]. intros _.
    split; [reflexivity|]. eexists. split; [reflexivity|]. cbn.
    repeat (split; [reflexivity || lia|]). intros zid' H. discriminate H.
Qed.

(** X18. Events and zones are for admins: a caller whose role is not
    [admin] is answered 403 "Admin access required" by event creation,
    zone update and zone deletion, and nothing is written or
    broadcast. *)
Theorem administration_is_admin_only user :
  u_role user <> r_admin ->
  (forall now req w,
     createEvent now user req w = (w, failure 403 "Admin access required"))
  /\ (forall now zid n w,
        updateZone now user zid n w
        = (w, failure 403 "Admin access required"))
  /\ (forall zid w,
        deleteZone user zid w
        = (w, None, failure 403 "Admin access required")).
Proof.
  intro H. unfold createEvent, updateZone, deleteZone, abortTransaction.
  destruct (u_role user); try contradiction; repeat split.
Qed.

(** ** Zones on record *)

Lemma Zone_findById_update id n zs z :
  Zone_findById (Zone_update id n zs) z
  = option_map (fun zone => if Nat.eqb z id then withTotalSlots n zone
                            else zone)
      (Zone_findById zs z).
Proof.
  unfold Zone_findById. induction zs as [|z0 zs IH]; cbn; [reflexivity|].
  destruct (Nat.eqb (z_id z0) id) eqn:E0; cbn.
  - destruct (Nat.eqb (z_id z0) z) eqn:E1; cbn.
    + apply Nat.eqb_eq in E0. apply Nat.eqb_eq in E1.
      assert (E : Nat.eqb z id = true) by (apply Nat.eqb_eq; congruence).
      rewrite E. reflexivity.
    + destruct (find (fun z1 => Nat.eqb (z_id z1) z) zs) as [zone|] eqn:Ef;
        cbn; [|reflexivity].
      destruct (Nat.eqb z id) eqn:E; [|reflexivity].
      apply Nat.eqb_eq in E0. apply Nat.eqb_eq in E. apply Nat.eqb_neq in E1.
      congruence.
  - destruct (Nat.eqb (z_id z0) z) eqn:E1; cbn; [|exact IH].
    apply Nat.eqb_eq in E1. apply Nat.eqb_neq in E0.
    assert (E : Nat.eqb z id = false) by (apply Nat.eqb_neq; congruence).
    rewrite E. reflexivity.
Qed.

Lemma Zone_findById_delete id zs z :
  z <> id -> Zone_findById (Zone_delete id zs) z = Zone_findById zs z.
Proof.
  intro Hne. unfold Zone_findById.
  induction zs as [|z0 zs IH]; cbn; [reflexivity|].
  destruct (Nat.eqb (z_id z0) id) eqn:E0; cbn.
  - destruct (Nat.eqb (z_id z0) z) eqn:E1; [|reflexivity].
    apply Nat.eqb_eq in E0. apply Nat.eqb_eq in E1. congruence.
  - destruct (Nat.eqb (z_id z0) z); [reflexivity|exact IH].
Qed.

Lemma Zone_findById_deleted id zs :
  NoDup (map z_id zs) -> Zone_findById (Zone_delete id zs) id = None.
Proof.
  unfold Zone_findById. induction zs as [|z0 zs IH]; cbn; intro Hnd;
    [reflexivity|].
  inversion Hnd as [|x l Hx Hl]; subst.
  destruct (Nat.eqb (z_id z0) id) eqn:E0; cbn.
  - apply Nat.eqb_eq in E0.
    destruct (find (fun z => Nat.eqb (z_id z) id) zs) as [zone|] eqn:Ef;
      [|reflexivity].
    apply find_some in Ef. destruct Ef as [Hin Hid].
    apply Nat.eqb_eq in Hid. exfalso. apply Hx.
    apply in_map_iff. exists zone. split; [congruence|exact Hin].
  - rewrite E0. apply IH. exact Hl.
Qed.

Lemma countDocuments_zero {A} (q : A -> bool) (c : list A) :
  countDocuments q c <= 0 -> forall x, In x c -> q x = false.
Proof.
  induction c as [|y c IH]; intros H x Hin; [contradiction|].
  rewrite countDocuments_cons in H.
  pose proof (countDocuments_nonneg q c) as Hnn. unfold weight in H.
  destruct Hin as [<-|Hin].
  - destruct (q y); [lia|reflexivity].
  - apply IH; [destruct (q y); lia|exact Hin].
Qed.

Lemma countDocuments_positive {A} (q : A -> bool) (c : list A) :
  0 < countDocuments q c -> exists x, In x c /\ q x = true.
Proof.
  induction c as [|y c IH]; intro H.
  - rewrite countDocuments_nil in H. lia.
  - destruct (q y) eqn:E; [exists y; split; [left; reflexivity|exact E]|].
    rewrite countDocuments_cons in H. unfold weight in H. rewrite E in H.
    destruct (IH H) as (x & Hin & Hq). exists x. split; [right|]; assumption.
Qed.

Lemma Forall2_In_r {A} (R : A -> A -> Prop) (l l' : list A) y :
  Forall2 R l l' -> In y l' -> exists x, In x l /\ R x y.
Proof.
  induction 1 as [|a a' l l' Ha _ IH]; intro Hin; [contradiction|].
  destruct Hin as [<-|Hin].
  - exists a. split; [left; reflexivity|exact Ha].
  - destruct (IH Hin) as (x & Hx & HR). exists x. split; [right|]; assumption.
Qed.

Lemma ages_active_before b b' :
  ages b b' -> status b' = active -> status b = active /\ zoneId b' = zoneId b.
Proof.
  intros (_ & Hz & _ & _ & _ & _ & _ & _ & Hs & _) Hact. split; [|exact Hz].
  destruct Hs as [Hs|[Hs|[[_ Hs]|[_ Hs]]]]; congruence.
Qed.

(** A write that adds no booking keeps the zones of the active bookings on
    record, if it keeps on record the zones they name. *)
Lemma integrity_rewrites w w' :
  rewrites w w' ->
  (forall b, In b (bookings (db w)) -> status b = active ->
             Zone_findById (zones (db w)) (zoneId b) <> None ->
             Zone_findById (zones (db w')) (zoneId b) <> None) ->
  activeBookingsHaveZone (db w) -> activeBookingsHaveZone (db w').
Proof.
  intros (Hages & _) Hzones Hinv b' Hin Hact.
  destruct (Forall2_In_r _ _ _ b' Hages Hin) as (b & Hb & Ha).
  destruct (ages_active_before b b' Ha Hact) as [Hs Hz].
  rewrite Hz. apply (Hzones b Hb Hs). exact (Hinv b Hb Hs).
Qed.

Lemma integrity_same_zones w w' :
  rewrites w w' -> zones (db w') = zones (db w) ->
  activeBookingsHaveZone (db w) -> activeBookingsHaveZone (db w').
Proof.
  intros Hr Hz. apply (integrity_rewrites w w' Hr).
  intros b _ _ H. rewrite Hz. exact H.
Qed.

(** X19. An active booking always has its zone. If every active booking
    names a zone on record, this is still so after any write: a
    reservation needs its zone, a zone update keeps the zone, and a zone
    that has an active booking is not deleted. *)
Theorem act_keeps_active_bookings_zoned (a : Action) (w : World) :
  activeBookingsHaveZone (db w) -> activeBookingsHaveZone (db (act a w)).
Proof.
  intro Hinv.
  destruct a as [[env user req|now user req|now user id|now qr|now qr|now]
                |user id h|now user zid n|user zid]; cbn [act run].
  - destruct (createBooking_outcome env user req w)
      as [[Hw _]|(zone & v & _ & Hz & _ & _ & _ & _ & Hw)];
      rewrite Hw; cbn [fst db]; [exact Hinv|].
    intros b Hin Hact. cbn [reservedStore bookings zones] in *.
    apply in_app_or in Hin. destruct Hin as [Hin|[<-|[]]].
    + exact (Hinv b Hin Hact).
    + cbn [newBooking zoneId]. rewrite Hz. discriminate.
  - exact (integrity_same_zones _ _ (rewrites_createEvent now user req w)
             (proj1 (frees_createEvent now user req w)) Hinv).
  - exact (integrity_same_zones _ _ (rewrites_cancelBooking now user id w)
             (proj1 (frees_cancelBooking now user id w)) Hinv).
  - exact (integrity_same_zones _ _ (rewrites_checkIn now qr w)
             (proj1 (frees_checkIn now qr w)) Hinv).
  - exact (integrity_same_zones _ _ (rewrites_checkOut now qr w)
             (proj1 (frees_checkOut now qr w)) Hinv).
  - exact (integrity_same_zones _ _ (rewrites_expireOldBookings now w)
             (proj1 (frees_expireOldBookings now w)) Hinv).
  - exact (integrity_same_zones _ _ (rewrites_extendBooking user id h w)
             (proj1 (frees_extendBooking user id h w)) Hinv).
  - apply (integrity_rewrites _ _ (rewrites_updateZone now user zid n w));
      [|exact Hinv].
    intros b _ _ Hz. unfold updateZone.
    destruct (negb (isAdmin (u_role user))); [exact Hz|].
    destruct (Zone_findById (zones (db w)) zid); [|exact Hz].
    destruct (n <? 1); [exact Hz|].
    assert (H : Zone_findById (Zone_update zid n (zones (db w))) (zoneId b)
                <> None).
    { rewrite Zone_findById_update.
      destruct (Zone_findById (zones (db w)) (zoneId b));
        [discriminate|contradiction]. }
    destruct (getZoneAvailability now _ zid); exact H.
  - apply (integrity_rewrites _ _ (rewrites_deleteZone user zid w));
      [|exact Hinv].
    intros b Hin Hact Hz. unfold deleteZone.
    destruct (negb (isAdmin (u_role user))); [exact Hz|].
    destruct (0 <? countDocuments (activeIn zid) (bookings (db w))) eqn:Ec;
      [exact Hz|].
    apply Z.ltb_ge in Ec.
    pose proof (countDocuments_zero _ _ Ec b Hin) as Hb.
    unfold activeIn in Hb. rewrite Hact in Hb. cbn [status_eqb] in Hb.
    rewrite andb_true_r in Hb. apply Nat.eqb_neq in Hb.
    cbn [fst db zones]. rewrite (Zone_findById_delete zid _ _ Hb). exact Hz.
Qed.

(** X20. A cancel can stop half-way. The zone of a booking that is no
    longer [active] may be gone (a zone is deleted once no active booking
    names it). An authorised cancel of such a booking, not yet
    [cancelled], stores the status [cancelled] and the "Booking
    Cancelled" notification; [getZoneAvailability] then returns [null],
    reading [zoneData.available] throws, and the request is answered 500
    "Server error cancelling booking" with nothing broadcast. The writes
    stay: a repeated cancel is answered 400 "Booking already
    cancelled". *)
Theorem cancelBooking_not_atomic now user id w b :
  Booking_findById (bookings (db w)) id = Some b ->
  userId b = u_id user \/ u_role user = r_admin ->
  status b <> cancelled ->
  Zone_findById (zones (db w)) (zoneId b) = None ->
  let result := cancelBooking now user id w in
  snd result = failure 500 "Server error cancelling booking"
  /\ Booking_findById (bookings (db (fst result))) id
     = Some (withStatus cancelled b)
  /\ notifications (db (fst result))
     = notifications (db w)
       ++ [mkNotification (userId b) "Booking Cancelled"
             ("Your parking slot at " ++ zoneName b ++ " has been cancelled")
             n_warning]
  /\ zones (db (fst result)) = zones (db w)
  /\ events (db (fst result)) = events (db w)
  /\ sent (fst result) = sent w
  /\ forall now',
       cancelBooking now' user id (fst result) = (fst result, alreadyCancelled).
Proof.
  intros Hb Hu Hs Hz. cbv zeta.
  assert (Hauth : negb (Nat.eqb (userId b) (u_id user))
                  && negb (isAdmin (u_role user)) = false).
  { destruct Hu as [Hu|Hu].
    - rewrite Hu, Nat.eqb_refl. reflexivity.
    - rewrite Hu. apply andb_false_r. }
  assert (Hrun : cancelBooking now user id w
                 = (mkWorld
                      (Notification_create
                         (mkNotification (userId b) "Booking Cancelled"
                            ("Your parking slot at " ++ zoneName b
                             ++ " has been cancelled") n_warning)
                         (saveBooking id (withStatus cancelled b) (db w)))
                      (sent w),
                    failure 500 "Server error cancelling booking")).
  { unfold cancelBooking. rewrite Hb, Hauth.
    destruct (status_eqb (status b) cancelled) eqn:Es.
    { apply status_eqb_eq in Es. contradiction. }
    unfold getZoneAvailability, Notification_create, saveBooking.
    cbn [zones]. rewrite Hz. reflexivity. }
  rewrite Hrun. cbn [fst snd db sent].
  assert (Hb1 : Booking_findById
                  (bookings
                     (Notification_create
                        (mkNotification (userId b) "Booking Cancelled"
                           ("Your parking slot at " ++ zoneName b
                            ++ " has been cancelled") n_warning)
                        (saveBooking id (withStatus cancelled b) (db w)))) id
                = Some (withStatus cancelled b)).
  { unfold Booking_findById in *.
    cbn [Notification_create saveBooking bookings].
    exact (nth_error_replaceAt _ _ b _ Hb). }
  split; [reflexivity|]. split; [exact Hb1|].
  repeat (split; [reflexivity|]).
  intro now'. unfold cancelBooking at 1. cbn [db]. rewrite Hb1.
  cbn [withStatus userId status status_eqb]. rewrite Hauth. reflexivity.
Qed.

(** X21. Deleting a zone. An admin's request is refused exactly when some
    booking of the zone, on whatever date, is active, and then nothing
    changes. Otherwise it is answered "Zone deleted successfully" with a
    [zone_deleted] broadcast, also when no zone has that id (the store is
    then unchanged); bookings, events and notifications are never
    touched, every other zone is still found, and, zone ids being
    unique, the deleted one is not. *)
Theorem deleteZone_guard user zid w :
  u_role user = r_admin ->
  let result := deleteZone user zid w in
  let w1 := fst (fst result) in
  (snd result = failure 400 "Cannot delete zone with active bookings" <->
   exists b, In b (bookings (db w)) /\ zoneId b = zid /\ status b = active)
  /\ (succeeded (snd result) = false -> w1 = w /\ snd (fst result) = None)
  /\ (succeeded (snd result) = true ->
      snd result = ok_message "Zone deleted successfully"
      /\ snd (fst result) = Some zid
      /\ bookings (db w1) = bookings (db w)
      /\ events (db w1) = events (db w)
      /\ notifications (db w1) = notifications (db w)
      /\ sent w1 = sent w
      /\ (forall z, z <> zid ->
            Zone_findById (zones (db w1)) z = Zone_findById (zones (db w)) z)
      /\ (NoDup (map z_id (zones (db w))) ->
          Zone_findById (zones (db w1)) zid = None)
      /\ (Zone_findById (zones (db w)) zid = None -> w1 = w)).
Proof.
  intro Hadmin. cbv zeta. unfold deleteZone. rewrite Hadmin.
  cbn [isAdmin negb].
  destruct (0 <? countDocuments (activeIn zid) (bookings (db w))) eqn:Ec;
    cbn [fst snd succeeded].
  - split; [|split; [auto|discriminate]].
    split; [intros _|reflexivity].
    apply Z.ltb_lt in Ec.
    destruct (countDocuments_positive _ _ Ec) as (b & Hin & Hb).
    unfold activeIn in Hb. apply andb_true_iff in Hb.
    destruct Hb as [Hz Hs]. apply Nat.eqb_eq in Hz.
    apply status_eqb_eq in Hs. exists b. auto.
  - apply Z.ltb_ge in Ec. split; [|split; [discriminate|]].
    + split; [discriminate|]. intros (b & Hin & Hz & Hs). exfalso.
      pose proof (countDocuments_zero _ _ Ec b Hin) as Hb.
      unfold activeIn in Hb. rewrite Hz, Hs, Nat.eqb_refl in Hb.
      discriminate.
    + intros _. repeat (split; [reflexivity|]).
      split; [intros z Hz; apply Zone_findById_delete; exact Hz|].
      split; [apply Zone_findById_deleted|].
      intro Hnone. destruct w as [[zs bs es ns] log]. cbn in *. f_equal.
      f_equal. unfold Zone_findById in Hnone.
      induction zs as [|z0 zs IH]; cbn in *; [reflexivity|].
      destruct (Nat.eqb (z_id z0) zid); [discriminate|].
      f_equal. apply IH. exact Hnone.
Qed.

(** ** Extending a booking *)

Lemma within_guard (x : Q) :
  below x 1 || above x 12 = false ->
  (1 <= x <= 12)%Q /\ 1 <= Qfloor x <= 12.
Proof.
  unfold below, above. intro H. apply orb_false_iff in H.
  destruct H as [Hlo Hhi].
  apply negb_false_iff, Qle_bool_iff in Hlo.
  apply negb_false_iff, Qle_bool_iff in Hhi.
  split; [split; assumption|].
  pose proof (Qfloor_resp_le _ _ Hlo) as H1.
  pose proof (Qfloor_resp_le _ _ Hhi) as H12.
  rewrite Qfloor_Z in H1, H12. lia.
Qed.

(** X22. An extension is granted only to the owner (an admin is refused
    for another user's booking) and only on an [active] booking; a
    refusal changes nothing. A granted one adds [parseInt] of the value
    sent to [duration], stores the booking under its id and does not
    move [endTime]: the cleanup job expires the booking when it would
    have without the extension. The range of 1 to 12 hours is checked on
    the value as sent: a number is granted only from 1 to 12, and what is
    added is its integer part; but a value that does not read as a number
    while [parseInt] finds an integer at its head (such as the string
    "100abc") passes the check, and that integer is added whatever it
    is. *)
Theorem extendBooking_effect user id hours w :
  let result := extendBooking user id hours w in
  (forall r, snd result = refused r -> fst result = w)
  /\ (forall b', snd result = extended b' ->
      exists b n,
        Booking_findById (bookings (db w)) id = Some b
        /\ userId b = u_id user
        /\ status b = active
        /\ parseInt hours = Some n
        /\ Booking_findById (bookings (db (fst result))) id = Some b'
        /\ duration b' = duration b + n
        /\ endTime b' = endTime b
        /\ status b' = active
        /\ (forall now, overdue now b' = overdue now b)
        /\ (forall x, hours = js_number x ->
                      (1 <= x <= 12)%Q /\ 1 <= n <= 12))
  /\ (forall b n,
        Booking_findById (bookings (db w)) id = Some b ->
        userId b = u_id user ->
        status b = active ->
        snd (extendBooking user id (js_other None (Some n)) w)
        = extended (withDuration (duration b + n) b)).
Proof.
  cbv zeta. split; [|split].
  - unfold extendBooking.
    destruct (outOfRange hours); [reflexivity|].
    destruct (Booking_findById (bookings (db w)) id) as [b|];
      [|reflexivity].
    destruct (negb (Nat.eqb (userId b) (u_id user))); [reflexivity|].
    destruct (negb (status_eqb (status b) active)); [reflexivity|].
    destruct (parseInt hours); [discriminate|reflexivity].
  - unfold extendBooking.
    destruct (outOfRange hours) eqn:Eh; [discriminate|].
    destruct (Booking_findById (bookings (db w)) id) as [b|] eqn:Hb;
      [|discriminate].
    destruct (Nat.eqb (userId b) (u_id user)) eqn:Eu; cbn [negb];
      [|discriminate].
    destruct (status_eqb (status b) active) eqn:Es; cbn [negb];
      [|discriminate].
    destruct (parseInt hours) as [n|] eqn:Ep; [|discriminate].
    apply Nat.eqb_eq in Eu. apply status_eqb_eq in Es.
    cbn [fst snd]. intros b' H. injection H as <-. exists b, n.
    repeat (split; [assumption || reflexivity|]).
    split; [|split; [reflexivity|split; [reflexivity|split;
             [exact Es|split; [reflexivity|]]]]].
    + unfold Booking_findById in *.
      cbn [db broadcast Notification_create saveBooking bookings].
      exact (nth_error_replaceAt _ _ b _ Hb).
    + intros x ->. cbn [outOfRange parseInt] in Eh, Ep.
      injection Ep as <-. apply orb_false_iff in Eh.
      destruct Eh as [Eh Ehi]. apply orb_false_iff in Eh.
      destruct Eh as [_ Elo].
      apply within_guard. rewrite Elo, Ehi. reflexivity.
  - intros b n Hb Hu Hs. unfold extendBooking. cbn [outOfRange parseInt].
    rewrite Hb, Hu, Nat.eqb_refl, Hs. reflexivity.
Qed.

(** ** Updating a zone *)

(** X23. Changing [totalSlots]. For an admin the update succeeds exactly
    when the zone is on record and the new total is at least 1, however
    many bookings the zone holds; a refusal changes nothing. On success
    the zone carries the new total, every other zone is found as before,
    no booking, event or notification is touched, and the [zone_update]
    that follows carries the new total less today's active bookings,
    clamped at 0. *)
Theorem updateZone_effect now user zid n w :
  u_role user = r_admin ->
  let result := updateZone now user zid n w in
  (succeeded (snd result) = true <->
   Zone_findById (zones (db w)) zid <> None /\ 1 <= n)
  /\ (succeeded (snd result) = false -> fst result = w)
  /\ (succeeded (snd result) = true ->
      bookings (db (fst result)) = bookings (db w)
      /\ events (db (fst result)) = events (db w)
      /\ notifications (db (fst result)) = notifications (db w)
      /\ (exists zone,
            Zone_findById (zones (db w)) zid = Some zone
            /\ Zone_findById (zones (db (fst result))) zid
               = Some (withTotalSlots n zone))
      /\ (forall z, z <> zid ->
            Zone_findById (zones (db (fst result))) z
            = Zone_findById (zones (db w)) z)
      /\ sent (fst result)
         = sent w
           ++ [zone_update zid
                 (Z.max 0 (n - countActiveBookings (db w) zid now))]).
Proof.
  intro Hadmin. cbv zeta. unfold updateZone. rewrite Hadmin.
  cbn [isAdmin negb].
  destruct (Zone_findById (zones (db w)) zid) as [zone|] eqn:Ez.
  2:{ cbn [fst snd succeeded]. split; [|split; [reflexivity|discriminate]].
      split; [discriminate|]. intros [H _]. contradiction. }
  destruct (n <? 1) eqn:En.
  { apply Z.ltb_lt in En. cbn [fst snd succeeded].
    split; [|split; [reflexivity|discriminate]].
    split; [discriminate|]. intros [_ H]. lia. }
  apply Z.ltb_ge in En.
  assert (Hz1 : Zone_findById (Zone_update zid n (zones (db w))) zid
                = Some (withTotalSlots n zone)).
  { rewrite Zone_findById_update, Ez, Nat.eqb_refl. reflexivity. }
  unfold getZoneAvailability. cbn [zones]. rewrite Hz1.
  cbn [fst snd succeeded].
  split; [split; [intros _; split; [discriminate|exact En]|reflexivity]|].
  split; [discriminate|]. intros _.
  repeat (split; [reflexivity|]).
  split; [exists zone; auto|]. split.
  - intros z Hz. cbn [fst db zones broadcast]. rewrite Zone_findById_update.
    apply Nat.eqb_neq in Hz. rewrite Hz.
    destruct (Zone_findById (zones (db w)) z); reflexivity.
  - reflexivity.
Qed.

(** ** getTimeAgo *)

Lemma quotient_bounds (s u k : Z) :
  0 < u -> u < s -> s < (k + 1) * u -> 1 <= s / u <= k.
Proof.
  intros Hu Hlo Hhi. split.
  - apply Z.div_le_lower_bound; lia.
  - assert (s / u < k + 1) by (apply Z.div_lt_upper_bound; lia). lia.
Qed.

(** X24. What [getTimeAgo] can say. It answers "Just now" exactly when
    less than 61 seconds have passed (also for a date in the future);
    otherwise the number it gives is at least 1, and at most 60 for
    minutes, 24 for hours, 30 for days and 12 for months: an age of
    exactly one hour reads "60 minutes ago", the bounds of the units
    being strict. *)
Theorem getTimeAgo_bounds (now date : Date) :
  (getTimeAgo now date = just_now <-> now - date < 61000)
  /\ match getTimeAgo now date with
     | just_now => True
     | minutes_ago n => 1 <= n <= 60
     | hours_ago n => 1 <= n <= 24
     | days_ago n => 1 <= n <= 30
     | months_ago n => 1 <= n <= 12
     | years_ago n => 1 <= n
     end
  /\ getTimeAgo (date + 3600000) date = minutes_ago 60.
Proof.
  unfold getTimeAgo.
  set (s := (now - date) / 1000).
  assert (Hs : s <= 60 <-> now - date < 61000).
  { unfold s. split; intro H.
    - apply Z.nle_gt. intro Hge.
      assert (61 <= (now - date) / 1000)
        by (apply Z.div_le_lower_bound; lia). lia.
    - assert ((now - date) / 1000 < 61)
        by (apply Z.div_lt_upper_bound; lia). lia. }
  split; [|split].
  - destruct (31536000 <? s) eqn:E1; [apply Z.ltb_lt in E1|].
    { split; [discriminate|]. intro H. apply Hs in H. lia. }
    destruct (2592000 <? s) eqn:E2; [apply Z.ltb_lt in E2|].
    { split; [discriminate|]. intro H. apply Hs in H. lia. }
    destruct (86400 <? s) eqn:E3; [apply Z.ltb_lt in E3|].
    { split; [discriminate|]. intro H. apply Hs in H. lia. }
    destruct (3600 <? s) eqn:E4; [apply Z.ltb_lt in E4|].
    { split; [discriminate|]. intro H. apply Hs in H. lia. }
    destruct (60 <? s) eqn:E5; [apply Z.ltb_lt in E5|apply Z.ltb_ge in E5].
    { split; [discriminate|]. intro H. apply Hs in H. lia. }
    split; [intros _; apply Hs; exact E5|reflexivity].
  - destruct (31536000 <? s) eqn:E1;
      [apply Z.ltb_lt in E1; apply Z.div_le_lower_bound; lia|].
    apply Z.ltb_ge in E1.
    destruct (2592000 <? s) eqn:E2;
      [apply Z.ltb_lt in E2; apply quotient_bounds; lia|].
    apply Z.ltb_ge in E2.
    destruct (86400 <? s) eqn:E3;
      [apply Z.ltb_lt in E3; apply quotient_bounds; lia|].
    apply Z.ltb_ge in E3.
    destruct (3600 <? s) eqn:E4;
      [apply Z.ltb_lt in E4; apply quotient_bounds; lia|].
    apply Z.ltb_ge in E4.
    destruct (60 <? s) eqn:E5;
      [apply Z.ltb_lt in E5; apply quotient_bounds; lia|exact I].
  - replace (date + 3600000 - date) with 3600000 by lia. reflexivity.
Qed.

(** ** The registry of clients *)

Section Registry.
Context {P : Type}.
Variable message : P.

Lemma sendToEach_result (cs : list (Client P)) :
  sendToEach message cs
  = (map (sentTo message) cs,
     Z.of_nat (List.length (filter reachable cs)),
     map c_id (filter (fun c => negb (reachable c)) cs)).
Proof.
  induction cs as [|c cs IH]; [reflexivity|].
  cbn [sendToEach]. rewrite IH. unfold sentTo, reachable.
  cbn [map filter].
  destruct (isOpen (readyState c)); [|reflexivity].
  destruct (sendThrows c); cbn [andb negb map List.length];
    [reflexivity|].
  repeat f_equal. lia.
Qed.

Lemma deleteClients_filter (dead : list nat) (cs : list (Client P)) :
  fold_left (fun acc id => deleteClient id acc) dead cs
  = filter (fun c => negb (existsb (Nat.eqb (c_id c)) dead)) cs.
Proof.
  revert cs. induction dead as [|id dead IH]; intro cs; cbn [fold_left].
  - cbn. induction cs as [|c cs IHc]; cbn; [reflexivity|].
    rewrite <- IHc. reflexivity.
  - rewrite IH. unfold deleteClient.
    induction cs as [|c cs IHc]; cbn; [reflexivity|].
    destruct (Nat.eqb (c_id c) id); cbn; [exact IHc|].
    destruct (existsb (Nat.eqb (c_id c)) dead); cbn;
      [exact IHc|rewrite IHc; reflexivity].
Qed.

Lemma same_id_same_client (cs : list (Client P)) (c c' : Client P) :
  NoDup (map c_id cs) -> In c cs -> In c' cs -> c_id c = c_id c' -> c = c'.
Proof.
  induction cs as [|x cs IH]; intros Hnd Hc Hc' Hid; [contradiction|].
  inversion Hnd as [|y l Hx Hl]; subst.
  destruct Hc as [<-|Hc], Hc' as [<-|Hc'].
  - reflexivity.
  - exfalso. apply Hx. rewrite Hid. apply in_map. exact Hc'.
  - exfalso. apply Hx. rewrite <- Hid. apply in_map. exact Hc.
  - apply IH; assumption.
Qed.

Lemma pruned_registry (dead : list nat) (cs : list (Client P)) :
  (forall c, In c cs ->
     existsb (Nat.eqb (c_id c)) dead = negb (reachable c)) ->
  filter (fun c => negb (existsb (Nat.eqb (c_id c)) dead)) (map (sentTo message) cs)
  = map (deliver message) (filter reachable cs).
Proof.
  induction cs as [|c cs IH]; intro H; [reflexivity|].
  cbn [map filter].
  assert (Hid : c_id (sentTo message c) = c_id c).
  { unfold sentTo. destruct (reachable c); reflexivity. }
  rewrite Hid, (H c (or_introl eq_refl)), negb_involutive.
  rewrite IH; [|intros c' Hc'; apply H; right; exact Hc'].
  unfold sentTo. destruct (reachable c); reflexivity.
Qed.

Lemma cleanup_delivered (cs : list (Client P)) :
  cleanupClients (map (deliver message) (filter reachable cs))
  = map (deliver message) (filter reachable cs).
Proof.
  unfold cleanupClients. induction cs as [|c cs IH]; [reflexivity|].
  cbn [filter]. destruct (reachable c) eqn:Er; [|exact IH].
  cbn [map filter deliver readyState].
  unfold reachable in Er. apply andb_true_iff in Er. destruct Er as [Eo _].
  rewrite Eo, IH. reflexivity.
Qed.

(** X25. What a broadcast leaves of the registry. The members being
    distinct, after [broadcast] the registry holds exactly the clients
    that were open and whose [send] did not throw, in their order, each
    with the message added to what it received; [sentCount] is their
    number, and the clean-up interval finds nothing more to remove. *)
Theorem broadcastToClients_registry (cs : list (Client P)) :
  NoDup (map c_id cs) ->
  broadcastToClients message cs
  = (map (deliver message) (filter reachable cs),
     Z.of_nat (List.length (filter reachable cs)))
  /\ cleanupClients (fst (broadcastToClients message cs))
     = fst (broadcastToClients message cs).
Proof.
  intro Hnd.
  assert (Heq : broadcastToClients message cs
                = (map (deliver message) (filter reachable cs),
                   Z.of_nat (List.length (filter reachable cs)))).
  { unfold broadcastToClients. rewrite sendToEach_result.
    rewrite deleteClients_filter. f_equal. apply pruned_registry.
    intros c Hc.
    destruct (reachable c) eqn:Er; cbn [negb].
    - destruct (existsb _ _) eqn:Ex; [|reflexivity].
      apply existsb_exists in Ex. destruct Ex as (id & Hin & Hid).
      apply Nat.eqb_eq in Hid. apply in_map_iff in Hin.
      destruct Hin as (c' & Hc'id & Hc').
      apply filter_In in Hc'. destruct Hc' as [Hc' Hr'].
      assert (c = c')
        by (apply (same_id_same_client cs); congruence || assumption).
      subst c'. rewrite Er in Hr'. discriminate.
    - apply existsb_exists. exists (c_id c). split; [|apply Nat.eqb_refl].
      apply in_map. apply filter_In. split; [exact Hc|].
      rewrite Er. reflexivity. }
  split; [exact Heq|]. rewrite Heq. apply cleanup_delivered.
Qed.

End Registry.

(** ** The further properties, on the campus *)

Lemma createBooking_twice_rejected_witness :
  createBooking env2 user1 afternoon booked
  = (booked,
     failure 400
       "You already have an active booking for this zone on this date").
Proof.
  apply (createBooking_twice_rejected env1 user1 (requestBy user1) campus
           booked 0%nat "QR-1A2B3C4D" env2 afternoon);
    vm_compute; reflexivity.
Defined.

Lemma createBooking_broadcasts_new_availability_witness :
  exists a,
    sent booked = sent campus ++ [zone_update 1 a; booking_created 11 "A"]
    /\ option_map zd_available (getAvailability (db booked) 1 day0) = Some a.
Proof.
  apply (createBooking_broadcasts_new_availability env1 user1
           (requestBy user1) campus booked 0%nat "QR-1A2B3C4D").
  vm_compute. reflexivity.
Defined.

Lemma act_keeps_qrCodes_unique_witness :
  uniqueQRCodes
    (db (act (Core (Reserve env2 user2 (requestBy user2)))
           (run (Cancel noon0 user1 0) booked))).
Proof.
  apply act_keeps_qrCodes_unique.
  unfold uniqueQRCodes. vm_compute.
  constructor; [intros []|constructor].
Defined.

Lemma act_keeps_booking_identity_witness :
  exists b',
    Booking_findById
      (bookings (db (act (Core (Cancel noon0 user1 0)) booked))) 0
    = Some b'
    /\ userId b' = 11%nat /\ zoneId b' = 1%nat /\ qrCode b' = "QR-1A2B3C4D".
Proof.
  destruct (act_keeps_booking_identity (Core (Cancel noon0 user1 0)) booked
              0%nat booking1 eq_refl)
    as (b' & Hb & Hu & Hz & _ & Hq & _).
  exists b'. auto.
Defined.

Lemma act_never_reactivates_witness :
  exists b',
    Booking_findById
      (bookings (db (act (Core (ExpirySweep later0))
                       (run (Cancel noon0 user1 0) booked)))) 0
    = Some b'
    /\ b' = withStatus cancelled booking1.
Proof.
  destruct (act_never_reactivates (Core (ExpirySweep later0))
              (run (Cancel noon0 user1 0) booked) 0%nat
              (withStatus cancelled booking1) eq_refl)
    as (b' & Hb & _ & Hfrozen & _).
  exists b'. split; [exact Hb|]. apply Hfrozen. reflexivity.
Defined.

Lemma cancelBooking_authorization_witness :
  cancelBooking noon0 user2 0 booked = (booked, failure 403 "Unauthorized")
  /\ snd (cancelBooking noon0 admin 0 booked)
     = ok_message "Booking cancelled successfully".
Proof.
  split.
  - destruct (cancelBooking_authorization noon0 user2 0%nat booked booking1
                eq_refl) as [H _].
    apply H; cbn; discriminate.
  - destruct (cancelBooking_authorization noon0 admin 0%nat booked booking1
                eq_refl) as [_ H].
    apply H; [right; reflexivity|discriminate|vm_compute; discriminate].
Defined.

Lemma cancelBooking_twice_rejected_witness :
  snd (cancelBooking later0 user1 0 (fst (cancelBooking noon0 user1 0 booked)))
  = alreadyCancelled.
Proof.
  pose proof (cancelBooking_twice_rejected noon0 user1 0%nat booked booking1
                later0 user1 eq_refl eq_refl) as H.
  cbv zeta in H. destruct H as (_ & H & _). apply H. left. reflexivity.
Defined.

Lemma checkIn_twice_rejected_witness :
  checkIn (noon0 + msPerHour) "QR-1A2B3C4D"
    (fst (checkIn noon0 "QR-1A2B3C4D" booked))
  = (fst (checkIn noon0 "QR-1A2B3C4D" booked),
     failure 400 "Already checked in").
Proof.
  apply (checkIn_twice_rejected noon0 (noon0 + msPerHour) "QR-1A2B3C4D"
           booked).
  vm_compute. reflexivity.
Defined.

Lemma checkOut_spends_code_witness :
  let parked := fst (checkIn noon0 "QR-1A2B3C4D" booked) in
  let left := fst (checkOut (noon0 + msPerHour) "QR-1A2B3C4D" parked) in
  checkIn later0 "QR-1A2B3C4D" left = (left, notActive)
  /\ checkOut later0 "QR-1A2B3C4D" left = (left, notActive).
Proof.
  apply (checkOut_spends_code (noon0 + msPerHour) "QR-1A2B3C4D"
           (fst (checkIn noon0 "QR-1A2B3C4D" booked)) later0).
  - unfold uniqueQRCodes. vm_compute.
    constructor; [intros []|constructor].
  - vm_compute. reflexivity.
Defined.

Lemma expireOldBookings_idempotent_witness :
  expireOldBookings noon0 (expireOldBookings later0 booked)
  = expireOldBookings later0 booked.
Proof.
  apply (expireOldBookings_idempotent later0 noon0 booked).
  vm_compute. intro H. discriminate H.
Defined.

Lemma availability_lowered_by_reserve_only_witness :
  exists za',
    getAvailability (db (act (Core (Cancel noon0 user1 0)) booked)) 1 noon0
    = Some za'
    /\ getZoneAvailability noon0
         (db (act (Core (Cancel noon0 user1 0)) booked)) 1
       = Some za'
    /\ 0 <= zd_available za'.
Proof.
  apply (availability_lowered_by_reserve_only (Core (Cancel noon0 user1 0))
           booked 1%nat noon0 (mkZoneData 1 1 0));
    reflexivity.
Defined.

Lemma administration_is_admin_only_witness :
  createEvent noon0 user1 openDay campus
  = (campus, failure 403 "Admin access required")
  /\ deleteZone user1 1 campus
     = (campus, None, failure 403 "Admin access required").
Proof.
  destruct (administration_is_admin_only user1) as (He & _ & Hd).
  - cbn. discriminate.
  - split; [apply He|apply Hd].
Defined.

Lemma act_keeps_active_bookings_zoned_witness :
  activeBookingsHaveZone (db (act (DeleteZone admin 1) booked)).
Proof.
  apply act_keeps_active_bookings_zoned.
  intros b [<-|[]] _. vm_compute. discriminate.
Defined.

(** The booking of [user1] checked in, checked out, and zone "A"
    deleted by the admin: the cancel of the completed booking is answered
    500 and the booking is cancelled all the same. *)
Lemma cancelBooking_not_atomic_witness :
  let parked := fst (checkIn noon0 "QR-1A2B3C4D" booked) in
  let left := fst (checkOut (noon0 + msPerHour) "QR-1A2B3C4D" parked) in
  let w := act (DeleteZone admin 1) left in
  snd (cancelBooking later0 user1 0 w)
  = failure 500 "Server error cancelling booking"
  /\ option_map status
       (Booking_findById
          (bookings (db (fst (cancelBooking later0 user1 0 w)))) 0)
     = Some cancelled
  /\ sent (fst (cancelBooking later0 user1 0 w)) = sent w.
Proof.
  cbv zeta.
  set (w := act (DeleteZone admin 1)
              (fst (checkOut (noon0 + msPerHour) "QR-1A2B3C4D"
                      (fst (checkIn noon0 "QR-1A2B3C4D" booked))))).
  destruct (cancelBooking_not_atomic later0 user1 0%nat w
              (withStatus completed
                 (withCheckOutTime (noon0 + msPerHour)
                    (withCheckInTime noon0 booking1))))
    as (Hanswer & Hstored & _ & _ & _ & Hsent & _).
  - vm_compute. reflexivity.
  - left. reflexivity.
  - cbn. discriminate.
  - vm_compute. reflexivity.
  - split; [exact Hanswer|]. split; [|exact Hsent].
    rewrite Hstored. reflexivity.
Defined.

Lemma deleteZone_guard_witness :
  snd (deleteZone admin 1 booked)
  = failure 400 "Cannot delete zone with active bookings"
  /\ snd (deleteZone admin 1 campus)
     = ok_message "Zone deleted successfully"
  /\ snd (deleteZone admin 7 campus)
     = ok_message "Zone deleted successfully".
Proof.
  split; [|split].
  - pose proof (deleteZone_guard admin 1%nat booked eq_refl) as H.
    cbv zeta in H. destruct H as ((_ & H) & _). apply H.
    exists booking1. repeat split. left. reflexivity.
  - pose proof (deleteZone_guard admin 1%nat campus eq_refl) as H.
    cbv zeta in H. destruct H as (_ & _ & H).
    destruct (H eq_refl) as (Hok & _). exact Hok.
  - pose proof (deleteZone_guard admin 7%nat campus eq_refl) as H.
    cbv zeta in H. destruct H as (_ & _ & H).
    destruct (H eq_refl) as (Hok & _). exact Hok.
Defined.

Lemma extendBooking_effect_witness :
  snd (extendBooking user1 0 (js_other None (Some 100)) booked)
  = extended (withDuration 102 booking1)
  /\ fst (extendBooking user1 0 (js_number (25 # 2)) booked) = booked
  /\ snd (extendBooking user1 0 (js_number 12) booked)
     = extended (withDuration 14 booking1).
Proof.
  split; [|split].
  - destruct (extendBooking_effect user1 0%nat (js_other None (Some 100))
                booked) as (_ & _ & H).
    apply (H booking1 100); reflexivity.
  - destruct (extendBooking_effect user1 0%nat (js_number (25 # 2)) booked)
      as (H & _).
    apply (H (failure 400 "Additional hours must be between 1 and 12")).
    vm_compute. reflexivity.
  - vm_compute. reflexivity.
Defined.

Lemma createBooking_no_slots_exactly_witness :
  createBooking env2 user2 (requestBy user2) booked
  = (booked, noSlotsAvailable).
Proof.
  pose proof (createBooking_no_slots_exactly env2 user2 (requestBy user2)
                (startTransaction booked)) as H.
  cbv zeta in H. destruct H as (Hiff & _ & Hw).
  destruct (Hw booked) as (Hanswer & Hclean & _).
  assert (Hfull : bookingTransaction env2 user2 (requestBy user2)
                    (startTransaction booked)
                  = aborted noSlotsAvailable).
  { apply Hiff. exists zoneA.
    split; [reflexivity|]. split; [reflexivity|]. split; [reflexivity|].
    split.
    - intros b [<-|[]] Hu. cbn in Hu. discriminate Hu.
    - exists [0%nat]. split; [constructor; [intros []|constructor]|].
      split; [cbn; lia|].
      intros id [<-|[]]. exists booking1. split; [reflexivity|].
      split; [reflexivity|]. split; [reflexivity|].
      vm_compute. reflexivity. }
  apply Hanswer in Hfull.
  rewrite (surjective_pairing
             (createBooking env2 user2 (requestBy user2) booked)).
  rewrite (Hclean Hfull), Hfull. reflexivity.
Defined.

Lemma updateZone_effect_witness :
  sent (fst (updateZone noon0 admin 1 5 booked))
  = sent booked ++ [zone_update 1 4].
Proof.
  pose proof (updateZone_effect noon0 admin 1%nat 5 booked eq_refl) as H.
  cbv zeta in H. destruct H as (_ & _ & H).
  destruct (H eq_refl) as (_ & _ & _ & _ & _ & Hsent). exact Hsent.
Defined.

Lemma broadcastToClients_registry_witness :
  broadcastToClients (zone_update 1 0) threeClients
  = ([mkClient 1 OPEN false [zone_update 1 0]], 1).
Proof.
  destruct (broadcastToClients_registry (zone_update 1 0) threeClients)
    as [H _].
  - vm_compute. repeat constructor; cbn; intuition discriminate.
  - exact H.
Defined.
